(** * Relative-strength (RPS) analyzer: a shallow embedding of [rps_analyzer.py]

    The development follows the class [RPSAnalyzer]: the per-period return
    computation, the percentile ranker, the composite scorer, the ranking
    service, the rotation analysis, the cache and the three public entry
    points.  Two further modules cover the self-contained parts of the
    sibling analyzers: [ZhangTingAnalyzer] (cache keys, the time-stamped
    cache and the fallback trading dates of [zhangting_analyzer.py]) and
    [MarketSentimentAnalyzer] (the components, the index and the entry
    point of [market_sentiment_analyzer.py]).

    Modelling choices, all read off the source:
    - a Python [dict] is an association list in insertion order with unique
      keys ([dict_set] overwrites in place or appends at the end);
    - a lookback period is a natural number;
    - a [pandas.DataFrame] is represented by its [收盘] (close) column in row
      order, the only column the computations read;
    - [df.iloc[i]['收盘']] is an element of a float64 column, that is a
      [numpy.float64] scalar, and the arithmetic on it is numpy's.  These
      scalars are idealised as exact rationals extended with [+inf], [-inf]
      and [nan]: rounding is not modelled, but the special values are,
      because numpy's division by zero does not raise [ZeroDivisionError]
      as the division of Python floats does; it returns [inf], [-inf] or
      [nan] and emits a [RuntimeWarning];
    - percentile scores, weights, composite scores and momenta are finite
      Python floats; they are idealised as rationals [Q].  Rounding is not
      modelled: an equation or a bound stated for a computed score holds of
      the formula in exact arithmetic, and the float64 result of the code
      can differ from it in the last places (the composite of the
      percentiles 80 and 80 over the periods 5 and 20 is 79.99999999999999
      in float64).  Statements that relate one part of a result to another
      (keys, order, the level of a stored score) do not depend on this;
    - an exception is a value of [exn]; code that can raise lives in the
      [result] monad and [try ... except Exception] is [try_except];
    - the external data provider and the completion order of the worker
      threads are parameters of the functions that use them. *)

From Stdlib Require Import String Ascii.
From Stdlib Require Import List Arith ZArith QArith Bool Lia.
From Stdlib Require Import Permutation Sorted.
From Stdlib Require Import Lqa.
From Stdlib Require DecimalString DecimalNat OrderedTypeEx.
Import ListNotations.

Local Open Scope string_scope.
Local Open Scope list_scope.
Local Open Scope nat_scope.

(** ** Exceptions *)

Inductive exn : Type :=
| IndexError
| KeyError
| ValueError
| ProviderError.

Inductive result (A : Type) : Type :=
| Ok (a : A)
| Raise (e : exn).
Arguments Ok {A} a.
Arguments Raise {A} e.

Definition bind {A B : Type} (m : result A) (k : A -> result B) : result B :=
  match m with
  | Ok a => k a
  | Raise e => Raise e
  end.

Notation "x <- m ;; k" := (bind m (fun x => k))
  (at level 61, m at next level, right associativity).

(** [try: body except Exception: handler] *)
Definition try_except {A : Type} (body : result A) (handler : exn -> A) : A :=
  match body with
  | Ok a => a
  | Raise e => handler e
  end.

(** ** Python dictionaries *)

Definition dict (V : Type) : Type := list (string * V).

Section Dict.
Context {V : Type}.

Definition keys (d : dict V) : list string := map fst d.
Definition values (d : dict V) : list V := map snd d.

(** [d.get(k)] *)
Fixpoint dict_get (k : string) (d : dict V) : option V :=
  match d with
  | [] => None
  | (k', v) :: d' => if String.eqb k k' then Some v else dict_get k d'
  end.

(** [k in d] *)
Definition dict_mem (k : string) (d : dict V) : bool :=
  match dict_get k d with
  | Some _ => true
  | None => false
  end.

(** [d[k] = v]: an existing key keeps its position, a new key goes last. *)
Fixpoint dict_set (k : string) (v : V) (d : dict V) : dict V :=
  match d with
  | [] => [(k, v)]
  | (k', v') :: d' =>
      if String.eqb k k' then (k', v) :: d' else (k', v') :: dict_set k v d'
  end.

(** [d[k]], raising [KeyError] on a missing key. *)
Definition dict_index (k : string) (d : dict V) : result V :=
  match dict_get k d with
  | Some v => Ok v
  | None => Raise KeyError
  end.
End Dict.

(** [enumerate(l)] *)
Definition enumerate {A : Type} (l : list A) : list (nat * A) :=
  combine (seq 0 (length l)) l.

(** ** numpy.float64 scalars, idealised *)

Inductive float64 : Type :=
| Fin (q : Q)
| PInf
| NInf
| NaN.

Definition Qltb (x y : Q) : bool := negb (Qle_bool y x).

Module F64.
(** [x - y] *)
Definition sub (x y : float64) : float64 :=
  match x, y with
  | NaN, _ | _, NaN => NaN
  | Fin a, Fin b => Fin (a - b)
  | Fin _, PInf => NInf
  | Fin _, NInf => PInf
  | PInf, PInf => NaN
  | PInf, _ => PInf
  | NInf, NInf => NaN
  | NInf, _ => NInf
  end.

(** [x / y]: numpy never raises here; a zero divisor gives [inf], [-inf]
    or [nan] (the sign of a zero is not modelled: zero is [+0.0]). *)
Definition div (x y : float64) : float64 :=
  match x, y with
  | NaN, _ | _, NaN => NaN
  | Fin a, Fin b =>
      if Qeq_bool b 0 then
        if Qeq_bool a 0 then NaN
        else if Qltb 0 a then PInf else NInf
      else Fin (a / b)
  | Fin _, (PInf | NInf) => Fin 0
  | (PInf | NInf), (PInf | NInf) => NaN
  | PInf, Fin b => if Qltb b 0 then NInf else PInf
  | NInf, Fin b => if Qltb b 0 then PInf else NInf
  end.

(** [x < y]; every comparison with [nan] is false. *)
Definition ltb (x y : float64) : bool :=
  match x, y with
  | NaN, _ | _, NaN => false
  | Fin a, Fin b => Qltb a b
  | Fin _, PInf => true
  | Fin _, NInf => false
  | PInf, _ => false
  | NInf, NInf => false
  | NInf, _ => true
  end.

(** Two floats stand in the same tie class of a sort: equal finite values,
    the same infinity, or both [nan]. *)
Definition same (x y : float64) : bool :=
  match x, y with
  | Fin a, Fin b => Qeq_bool a b
  | PInf, PInf | NInf, NInf | NaN, NaN => true
  | _, _ => false
  end.
End F64.

(** ** Sorting

    [sorted(xs, key=f, reverse=True)] and [xs.sort(key=f, reverse=True)]:
    Python's sort compares keys with [<] only and is stable, also under
    [reverse=True] (elements with equal keys keep their original order).
    For keys that [<] orders totally the result is the unique stable
    descending arrangement, which this insertion sort computes.  Among
    floats [nan] is not ordered by [<]; for a list holding [nan] Python
    promises a permutation only, and only that is used of such lists. *)

Section SortedReverse.
Context {A K : Type} (key : A -> K) (lt : K -> K -> bool).

Fixpoint insert_desc (x : A) (l : list A) : list A :=
  match l with
  | [] => [x]
  | y :: l' =>
      if lt (key x) (key y) then y :: insert_desc x l' else x :: y :: l'
  end.

Fixpoint sorted_reverse (l : list A) : list A :=
  match l with
  | [] => []
  | x :: l' => insert_desc x (sorted_reverse l')
  end.

(** "Not smaller than": the order a descending list keeps between an
    element and the ones after it. *)
Definition not_lt (a b : A) : Prop := lt (key a) (key b) = false.
End SortedReverse.

(** ** Data frames *)

(** The [收盘] column of a frame, oldest row first. *)
Definition DataFrame : Type := list float64.

(** [df.iloc[i]['收盘']] for a Python integer index. *)
Definition iloc (df : DataFrame) (i : Z) : result float64 :=
  let n := Z.of_nat (length df) in
  let j := if (i <? 0)%Z then (n + i)%Z else i in
  if ((j <? 0) || (n <=? j))%Z then Raise IndexError
  else match nth_error df (Z.to_nat j) with
       | Some v => Ok v
       | None => Raise IndexError
       end.

(** ** Per-period returns and the percentile ranker *)

(** Body of the [try] block of [_calculate_period_rps] for one frame:
    [Ok (Some r)] stores [r], [Ok None] is the failed length guard. *)
Definition period_return (df : DataFrame) (period : nat)
  : result (option float64) :=
  if period + 1 <=? length df then
    current_price <- iloc df (-1) ;;
    period_price <- iloc df (- (Z.of_nat period + 1)) ;;
    Ok (Some (F64.div (F64.sub current_price period_price) period_price))
  else Ok None.

(** The first loop of [_calculate_period_rps]: an exception is logged and
    the frame skipped. *)
Definition period_returns (stock_data : dict DataFrame) (period : nat)
  : dict float64 :=
  fold_left
    (fun acc '(code, df) =>
       try_except
         (r <- period_return df period ;;
          Ok (match r with
              | Some period_return => dict_set code period_return acc
              | None => acc
              end))
         (fun _ => acc))
    stock_data [].

(** What one frame contributes to the return map. *)
Definition stored_return (df : DataFrame) (period : nat) : option float64 :=
  match period_return df period with
  | Ok (Some r) => Some r
  | _ => None
  end.

(** [(total - i) / total * 100] *)
Definition rps_score (total i : nat) : Q :=
  (inject_Z (Z.of_nat total - Z.of_nat i) / inject_Z (Z.of_nat total)
   * inject_Z 100)%Q.

(** The ranking half of [_calculate_period_rps] (from [if not
    period_returns] on). *)
Definition rank_returns (period_returns : dict float64) : dict Q :=
  match period_returns with
  | [] => []
  | _ =>
      let sorted_returns := sorted_reverse snd F64.ltb period_returns in
      let total_stocks := length sorted_returns in
      fold_left
        (fun rps_scores '(i, (code, _)) =>
           dict_set code (rps_score total_stocks i) rps_scores)
        (enumerate sorted_returns) []
  end.

Definition _calculate_period_rps (stock_data : dict DataFrame) (period : nat)
  : dict Q :=
  rank_returns (period_returns stock_data period).

(** [_calculate_industry_period_rps] repeats [_calculate_period_rps] line
    for line on the industry frames. *)
Definition _calculate_industry_period_rps
  (industry_data : dict DataFrame) (period : nat) : dict Q :=
  rank_returns (period_returns industry_data period).

(** ** Composite scorer *)

(** [str(n)] for a non-negative Python [int]. *)
Definition str (n : nat) : string :=
  DecimalString.NilEmpty.string_of_uint (Nat.to_uint n).

(** [sep.join(parts)] *)
Fixpoint join (sep : string) (parts : list string) : string :=
  match parts with
  | [] => ""
  | [p] => p
  | p :: rest => p ++ sep ++ join sep rest
  end.

(** No ["-"] occurs in the string. *)
Fixpoint dash_free (s : string) : bool :=
  match s with
  | EmptyString => true
  | String c s' => negb (Ascii.eqb c "-") && dash_free s'
  end.

(** A tail of a joined string: empty, or starting with the separator. *)
Definition dash_tail (s : string) : Prop :=
  s = "" \/ exists s', s = String "-" s'.

(** [f'rps_{period}'] *)
Definition period_key (period : nat) : string := "rps_" ++ str period.

(** The literal [weights] table of [_calculate_composite_rps]. *)
Definition weights : list (nat * Q) :=
  [(5, (4 # 10)%Q); (10, (3 # 10)%Q); (20, (2 # 10)%Q); (60, (1 # 10)%Q)].

(** [weights.get(period, default)] *)
Definition weights_get (period : nat) (default : Q) : Q :=
  match find (fun kv => Nat.eqb (fst kv) period) weights with
  | Some kv => snd kv
  | None => default
  end.

(** [s.add(code)] on a [set] kept as a duplicate-free list.  Python leaves
    the iteration order of a set of strings unspecified; first-insertion
    order is used here and no statement below depends on it. *)
Definition set_add (code : string) (s : list string) : list string :=
  if existsb (String.eqb code) s then s else s ++ [code].

(** [s.update(codes)] *)
Definition set_update (s : list string) (codes : list string) : list string :=
  fold_left (fun s code => set_add code s) codes s.

(** The first loop of [_calculate_composite_rps].  The argument is typed
    as annotated, [Dict[str, Dict[str, float]]], so the [isinstance] test
    always succeeds. *)
Definition all_codes (rps_results : dict (dict Q)) : list string :=
  fold_left (fun s period_rps => set_update s (keys period_rps))
            (values rps_results) [].

(** The body of the inner loop over [periods] for one [code], acting on
    the pair [(total_score, total_weight)]. *)
Definition add_period (rps_results : dict (dict Q)) (periods : list nat)
  (code : string) (acc : Q * Q) (period : nat) : Q * Q :=
  let '(total_score, total_weight) := acc in
  match dict_get (period_key period) rps_results with
  | Some period_rps =>
      match dict_get code period_rps with
      | Some score =>
          let weight :=
            weights_get period (1 / inject_Z (Z.of_nat (length periods)))%Q
          in (total_score + score * weight, total_weight + weight)%Q
      | None => (total_score, total_weight)
      end
  | None => (total_score, total_weight)
  end.

Definition accumulate (rps_results : dict (dict Q)) (periods : list nat)
  (code : string) : Q * Q :=
  fold_left (add_period rps_results periods code) periods (0, 0)%Q.

Definition _calculate_composite_rps (rps_results : dict (dict Q))
  (periods : list nat) : dict Q :=
  fold_left
    (fun composite_rps code =>
       let '(total_score, total_weight) :=
         accumulate rps_results periods code in
       if Qltb 0 total_weight
       then dict_set code (total_score / total_weight)%Q composite_rps
       else composite_rps)
    (all_codes rps_results) [].

Definition _calculate_industry_composite_rps := _calculate_composite_rps.

(** *** The composite score as the specification words it

    [percentile_of] is the percentile of an entity in a requested period,
    if it has one; [qualifying] lists the pairs (percentile, weight) of the
    requested periods where it has one; [weighted_average] is
    [sum (percentile_p * weight_p) / sum weight_p]. *)

Definition fallback_weight (periods : list nat) : Q :=
  (1 / inject_Z (Z.of_nat (length periods)))%Q.

Definition weight_of (periods : list nat) (period : nat) : Q :=
  weights_get period (fallback_weight periods).

Definition percentile_of (rps_results : dict (dict Q)) (code : string)
  (period : nat) : option Q :=
  match dict_get (period_key period) rps_results with
  | Some period_rps => dict_get code period_rps
  | None => None
  end.

Definition terms_of (rps_results : dict (dict Q)) (code : string)
  (weight : nat -> Q) (periods : list nat) : list (Q * Q) :=
  flat_map
    (fun period =>
       match percentile_of rps_results code period with
       | Some score => [(score, weight period)]
       | None => []
       end)
    periods.

Definition qualifying (rps_results : dict (dict Q)) (periods : list nat)
  (code : string) : list (Q * Q) :=
  terms_of rps_results code (weight_of periods) periods.

Definition sigma (xs : list Q) : Q := fold_right Qplus 0%Q xs.

Definition weighted_average (terms : list (Q * Q)) : Q :=
  (sigma (map (fun t => fst t * snd t) terms) / sigma (map snd terms))%Q.

(** ** Strength levels *)

(** The six labels returned by [_get_single_strength_level]:
    极强, 强势, 较强, 中等, 较弱, 弱势. *)
Inductive strength : Type :=
| VeryStrong
| Strong
| FairlyStrong
| Medium
| FairlyWeak
| Weak.

Definition _get_single_strength_level (rps_score : Q) : strength :=
  if Qle_bool 90 rps_score then VeryStrong
  else if Qle_bool 80 rps_score then Strong
  else if Qle_bool 60 rps_score then FairlyStrong
  else if Qle_bool 40 rps_score then Medium
  else if Qle_bool 20 rps_score then FairlyWeak
  else Weak.

Definition _get_strength_levels (composite_rps : dict Q) : dict strength :=
  fold_left
    (fun strength_levels '(code, rps_score) =>
       dict_set code (_get_single_strength_level rps_score) strength_levels)
    composite_rps [].

(** ** Ranking service *)

(** One entry of the list built by [get_rps_ranking]; the key
    ['strength_level'] exists only once the entry has been ranked. *)
Record ranking_item : Type := {
  code : string;
  item_score : Q;
  rank : nat;
  strength_level : option strength
}.

(** [l[:n]] for a Python integer [n]. *)
Definition slice_to {A : Type} (l : list A) (n : Z) : list A :=
  if (n <? 0)%Z then firstn (Z.to_nat (Z.of_nat (length l) + n)) l
  else firstn (Z.to_nat n) l.

(** [l[-n:]] for a positive literal [n]. *)
Definition slice_last {A : Type} (l : list A) (n : nat) : list A :=
  skipn (length l - n) l.

(** The entries of [ranking[:top_n]] are the objects the loop mutates, so
    the returned slice carries the ranks and levels.  The scores are finite
    numbers, as every score map built by this analyzer is; a map holding
    [nan], which [<] does not order, is outside this definition. *)
Definition get_rps_ranking (rps_data : dict Q) (top_n : Z)
  : list ranking_item :=
  try_except
    (let ranking :=
       map (fun '(c, rps_score) =>
              {| code := c; item_score := rps_score; rank := 0;
                 strength_level := None |}) rps_data in
     let ranking := sorted_reverse item_score Qltb ranking in
     Ok (map (fun '(i, item) =>
                {| code := code item; item_score := item_score item;
                   rank := i + 1;
                   strength_level :=
                     Some (_get_single_strength_level (item_score item)) |})
             (enumerate (slice_to ranking top_n))))
    (fun _ => []).

(** [output] is [input] put in descending order of the values by a stable
    sort: the same entries, no entry before a strictly greater one, and the
    entries of each tie class in their input order. *)
Definition stable_descending {V : Type} (ltb same : V -> V -> bool)
  (input output : dict V) : Prop :=
  Permutation input output
  /\ StronglySorted (fun a b => ltb (snd a) (snd b) = false) output
  /\ forall v, filter (fun e => same v (snd e)) output
               = filter (fun e => same v (snd e)) input.

(** The pair a ranking entry was built from. *)
Definition entry_of (item : ranking_item) : string * Q :=
  (code item, item_score item).

(** ** Rotation analysis *)

Record rotation_item : Type := {
  industry : string;
  short_rps : Q;
  long_rps : Q;
  momentum : Q
}.

Inductive signal : Type :=
| strong_rotation
| mild_rotation
| trend_continuation
| neutral.

Record rotation : Type := {
  hot_industries : list rotation_item;
  cold_industries : list rotation_item;
  rotation_signal : signal
}.

(** The loop over [short_rps.keys()]; entries are appended in that order. *)
Definition rotation_opportunities (short long : dict Q) : list rotation_item :=
  flat_map
    (fun '(c, short_score) =>
       match dict_get c long with
       | Some long_score =>
           [{| industry := c; short_rps := short_score;
               long_rps := long_score;
               momentum := (short_score - long_score)%Q |}]
       | None => []
       end)
    short.

(** The entities compared by the rotation analysis: the keys of the short
    map that are also in the long map. *)
Definition common_entities (short long : dict Q) : list string :=
  filter (fun c => dict_mem c long) (keys short).

(** Orders on a list of rotation records. *)
Definition descending_momentum (l : list rotation_item) : Prop :=
  StronglySorted (fun a b => momentum b <= momentum a)%Q l.

Definition ascending_momentum (l : list rotation_item) : Prop :=
  StronglySorted (fun a b => momentum a <= momentum b)%Q l.

Definition Qsum (l : list Q) : Q := fold_left Qplus l 0%Q.

(** [np.mean(xs)]: [None] stands for the [nan] of an empty list. *)
Definition np_mean (xs : list Q) : option Q :=
  match xs with
  | [] => None
  | _ => Some (Qsum xs / inject_Z (Z.of_nat (length xs)))%Q
  end.

Definition classify_momentum (avg_momentum : option Q) : signal :=
  match avg_momentum with
  | None => neutral
  | Some m =>
      if Qltb 10 m then strong_rotation
      else if Qltb 5 m then mild_rotation
      else if Qltb m (-5) then trend_continuation
      else neutral
  end.

(** [_analyze_industry_rotation] from the two percentile maps on. *)
Definition analyze_rotation (short long : dict Q) : rotation :=
  let sorted_opportunities :=
    sorted_reverse momentum Qltb (rotation_opportunities short long) in
  {| hot_industries := firstn 5 sorted_opportunities;
     cold_industries := slice_last sorted_opportunities 5;
     rotation_signal :=
       classify_momentum (np_mean (map momentum sorted_opportunities)) |}.

(** [periods[0]] and [periods[-1]] *)
Definition list_index {A : Type} (l : list A) (i : Z) : result A :=
  let n := Z.of_nat (length l) in
  let j := if (i <? 0)%Z then (n + i)%Z else i in
  if ((j <? 0) || (n <=? j))%Z then Raise IndexError
  else match nth_error l (Z.to_nat j) with
       | Some v => Ok v
       | None => Raise IndexError
       end.

Definition _analyze_industry_rotation (industry_data : dict DataFrame)
  (periods : list nat) : rotation :=
  try_except
    (first <- list_index periods 0 ;;
     last <- list_index periods (-1) ;;
     let short := _calculate_industry_period_rps industry_data first in
     let long := _calculate_industry_period_rps industry_data last in
     Ok (analyze_rotation short long))
    (fun _ => {| hot_industries := []; cold_industries := [];
                 rotation_signal := neutral |}).

(** ** Cache *)

(** A [datetime] is a number of microseconds since an epoch. *)
Definition datetime : Type := Z.

(** A [timedelta], normalised as Python stores it:
    [0 <= seconds < 86400] and [0 <= microseconds < 1000000]. *)
Record timedelta : Type := {
  days : Z;
  seconds : Z;
  microseconds : Z
}.

Definition us_per_second : Z := 1000000.
Definition us_per_day : Z := 86400 * us_per_second.

(** [a - b] on datetimes *)
Definition datetime_sub (a b : datetime) : timedelta :=
  let d := (a - b)%Z in
  {| days := (d / us_per_day)%Z;
     seconds := ((d mod us_per_day) / us_per_second)%Z;
     microseconds := (d mod us_per_second)%Z |}.

(** [timedelta.total_seconds()], the elapsed time as a rational. *)
Definition total_seconds (t : timedelta) : Q :=
  (inject_Z (days t * 86400 + seconds t) + Qmake (microseconds t) 1000000)%Q.

Definition cache_key (periods : list nat) : string :=
  "industry_rps_" ++ join "-" (map str periods).

(** The values stored in a result dictionary of the entry points. *)
Inductive value : Type :=
| Scores (d : dict Q)
| Levels (d : dict strength)
| Rotation (r : rotation).

(** The attributes of an [RPSAnalyzer] instance. *)
Record analyzer : Type := {
  rps_cache : dict (dict value);
  last_update : dict datetime;
  cache_timeout : Z
}.

(** [__init__] *)
Definition init : analyzer :=
  {| rps_cache := []; last_update := []; cache_timeout := 3600 |}.

(** [now] is the value [datetime.now()] returns inside the call. *)
Definition _is_cache_valid (self : analyzer) (cache_key : string)
  (now : datetime) : bool :=
  match dict_get cache_key (rps_cache self),
        dict_get cache_key (last_update self) with
  | Some _, Some created =>
      let time_diff := seconds (datetime_sub now created) in
      (time_diff <? cache_timeout self)%Z
  | _, _ => false
  end.

(** ** Data acquisition and the public entry points *)

(** [s.replace(old, '')] for a non-empty [old]: [skip] counts the
    characters of a match still to be dropped. *)
Fixpoint remove_sub (old s : string) (skip : nat) : string :=
  match s with
  | EmptyString => EmptyString
  | String c s' =>
      match skip with
      | S k => remove_sub old s' k
      | O =>
          if String.prefix old s
          then remove_sub old s' (String.length old - 1)
          else String c (remove_sub old s' 0)
      end
  end.

(** [code.replace('.SZ', '').replace('.SH', '')] *)
Definition clean_code (code : string) : string :=
  remove_sub ".SH" (remove_sub ".SZ" code 0) 0.

(** [max(xs)], which raises [ValueError] on an empty list. *)
Definition py_max (xs : list nat) : result nat :=
  match xs with
  | [] => Raise ValueError
  | x :: xs' => Ok (fold_left Nat.max xs' x)
  end.

(** The literal list of [_get_industry_data]. *)
Definition industry_codes : list string :=
  ["801010"; "801020"; "801030"; "801040"; "801050"; "801080"; "801110";
   "801120"; "801130"; "801140"; "801150"; "801160"; "801170"; "801180";
   "801200"; "801210"; "801230"; "801710"; "801720"; "801730"; "801740";
   "801750"; "801760"; "801770"; "801780"; "801790"; "801880"; "801890"].

Definition lift_scores (results : dict (dict Q)) : dict value :=
  map (fun '(k, d) => (k, Scores d)) results.

Section EntryPoints.
(** The market-data provider is external.  [stock_zh_a_hist symbol days]
    stands for [ak.stock_zh_a_hist] over the last [days] days followed by
    the date conversion and [sort_values]: it either raises or gives the
    frame (possibly empty) in date order.  [index_zh_a_hist] is the same
    for [ak.index_zh_a_hist], which may also return [None] or a frame
    without the date column (both [None] here). *)
Variable stock_zh_a_hist : string -> nat -> result DataFrame.
Variable index_zh_a_hist : string -> nat -> result (option DataFrame).

(** [as_completed(futures)] yields the futures in the order the worker
    threads finish them. *)
Variable as_completed :
  list (string * option DataFrame) -> list (string * option DataFrame).

Definition get_single_stock_data (days : nat) (code : string)
  : string * option DataFrame :=
  try_except
    (let clean_code := clean_code code in
     df <- stock_zh_a_hist clean_code days ;;
     Ok (match df with
         | [] => (code, None)
         | _ => (code, Some df)
         end))
    (fun _ => (code, None)).

(** [future.result()] cannot raise: [get_single_stock_data] catches
    everything itself. *)
Definition _get_stocks_data (stock_codes : list string) (days : nat)
  : dict DataFrame :=
  let futures := map (get_single_stock_data days) (firstn 100 stock_codes) in
  fold_left
    (fun stock_data '(code, data) =>
       match data with
       | Some df => dict_set code df stock_data
       | None => stock_data
       end)
    (as_completed futures) [].

Definition _get_industry_data (days : nat) : dict DataFrame :=
  fold_left
    (fun industry_data code =>
       try_except
         (df <- index_zh_a_hist code days ;;
          Ok (match df with
              | Some ((_ :: _) as df) => dict_set code df industry_data
              | _ => industry_data
              end))
         (fun _ => industry_data))
    industry_codes [].

(** The loop [for period in periods: results[f'rps_{period}'] = ...] *)
Definition period_results (rps : dict DataFrame -> nat -> dict Q)
  (data : dict DataFrame) (periods : list nat) : dict (dict Q) :=
  fold_left
    (fun results period => dict_set (period_key period) (rps data period) results)
    periods [].

Definition calculate_stock_rps (stock_codes : list string)
  (periods : list nat) : dict value :=
  try_except
    (longest <- py_max periods ;;
     let stock_data := _get_stocks_data stock_codes (longest + 10) in
     match stock_data with
     | [] => Ok []
     | _ =>
         let results := period_results _calculate_period_rps stock_data periods in
         let composite_rps := _calculate_composite_rps results periods in
         let results :=
           dict_set "composite_rps" (Scores composite_rps) (lift_scores results) in
         let results :=
           dict_set "strength_level"
                    (Levels (_get_strength_levels composite_rps)) results in
         Ok results
     end)
    (fun _ => []).

(** [now_check] and [now_store] are the two readings of [datetime.now()],
    in [_is_cache_valid] and when the result is cached. *)
Definition calculate_industry_rps (self : analyzer) (periods : list nat)
  (now_check now_store : datetime) : dict value * analyzer :=
  try_except
    (let cache_key := cache_key periods in
     if _is_cache_valid self cache_key now_check then
       cached <- dict_index cache_key (rps_cache self) ;;
       Ok (cached, self)
     else
       longest <- py_max periods ;;
       let industry_data := _get_industry_data (longest + 10) in
       match industry_data with
       | [] => Ok ([], self)
       | _ =>
           let results :=
             period_results _calculate_industry_period_rps industry_data periods in
           let composite_rps := _calculate_industry_composite_rps results periods in
           let results :=
             dict_set "composite_rps" (Scores composite_rps) (lift_scores results) in
           let rotation_analysis := _analyze_industry_rotation industry_data periods in
           let results :=
             dict_set "rotation_analysis" (Rotation rotation_analysis) results in
           Ok (results,
               {| rps_cache := dict_set cache_key results (rps_cache self);
                  last_update := dict_set cache_key now_store (last_update self);
                  cache_timeout := cache_timeout self |})
       end)
    (fun _ => ([], self)).
End EntryPoints.

(** *** Shape of the results

    A result of [calculate_stock_rps] is either the empty dictionary or
    holds a percentile map for every requested period, the composite map
    and the strength levels; [calculate_industry_rps] has the rotation
    analysis in place of the levels. *)

Definition has_period_scores (periods : list nat) (r : dict value) : Prop :=
  (forall p, In p periods -> exists d, dict_get (period_key p) r = Some (Scores d))
  /\ exists d, dict_get "composite_rps" r = Some (Scores d).

Definition stock_result_ok (periods : list nat) (r : dict value) : Prop :=
  r = []
  \/ (has_period_scores periods r
      /\ exists l, dict_get "strength_level" r = Some (Levels l)).

Definition industry_result_ok (periods : list nat) (r : dict value) : Prop :=
  r = []
  \/ (has_period_scores periods r
      /\ exists x, dict_get "rotation_analysis" r = Some (Rotation x)).

(** Every cached payload is a result for the periods of its key. *)
Definition cache_ok (self : analyzer) : Prop :=
  forall periods payload,
    dict_get (cache_key periods) (rps_cache self) = Some payload ->
    industry_result_ok periods payload.

(** A ranked list: ranks 1, 2, ... and a level on every entry. *)
Definition ranking_ok (ranking : list ranking_item) : Prop :=
  map rank ranking = seq 1 (length ranking)
  /\ Forall (fun item =>
               strength_level item
               = Some (_get_single_strength_level (item_score item)))
            ranking.

(** ** Orders used to state properties *)

(** The position of a strength label, weakest first. *)
Definition strength_rank (s : strength) : nat :=
  match s with
  | Weak => 0
  | FairlyWeak => 1
  | Medium => 2
  | FairlyStrong => 3
  | Strong => 4
  | VeryStrong => 5
  end.

(** [d[k]] read as a number, 0 for a missing key; used to state sums over
    the keys of another dictionary. *)
Definition lookup_or_zero (d : dict Q) (k : string) : Q :=
  match dict_get k d with
  | Some v => v
  | None => 0%Q
  end.

(** The character [c] does not occur in the string. *)
Fixpoint lacks (c : ascii) (s : string) : bool :=
  match s with
  | EmptyString => true
  | String c' s' => negb (Ascii.eqb c' c) && lacks c s'
  end.

(** * [zhangting_analyzer.py]: the cache and the fallback trading dates *)

(** [sorted(xs, key=f)]: Python's stable ascending sort, for keys that [<]
    orders totally. *)
Section SortedAscending.
Context {A K : Type} (key : A -> K) (lt : K -> K -> bool).

Fixpoint insert_asc (x : A) (l : list A) : list A :=
  match l with
  | [] => [x]
  | y :: l' =>
      if lt (key y) (key x) then y :: insert_asc x l' else x :: y :: l'
  end.

Fixpoint sorted_asc (l : list A) : list A :=
  match l with
  | [] => []
  | x :: l' => insert_asc x (sorted_asc l')
  end.
End SortedAscending.

Module ZhangTingAnalyzer.

(** One value of [self.cache]: the dictionary [{'data': ..., 'timestamp':
    ...}]; [timestamp] is optional because it is read with
    [.get('timestamp', 0)]. *)
Record cache_entry (D : Type) : Type := {
  data : D;
  timestamp : option Q
}.
Arguments data {D} c.
Arguments timestamp {D} c.

(** The attributes of a [ZhangTingAnalyzer]; times are POSIX time stamps in
    seconds, idealised as rationals. *)
Record analyzer (D : Type) : Type := {
  cache : dict (cache_entry D);
  cache_timeout : Q
}.
Arguments cache {D} a.
Arguments cache_timeout {D} a.

(** [__init__] *)
Definition init {D : Type} : analyzer D :=
  {| cache := []; cache_timeout := 300 |}.

(** [kwargs] maps each keyword to the text [f"{v}"] of its value.  The
    items of a dictionary have distinct keys, so comparing two items is
    comparing their keys, which are strings ordered by code point. *)
Definition _get_cache_key (func_name : string) (kwargs : dict string) : string :=
  join "_" (func_name
            :: map (fun kv : string * string =>
                      (fst kv ++ "=" ++ snd kv)%string)
                   (sorted_asc fst String.ltb kwargs)).

(** [now] is [datetime.now().timestamp()]. *)
Definition _is_cache_valid {D : Type} (self : analyzer D) (cache_key : string)
  (now : Q) : bool :=
  match dict_get cache_key (cache self) with
  | None => false
  | Some entry =>
      let cache_time :=
        match timestamp entry with
        | Some t => t
        | None => 0%Q
        end in
      Qltb (now - cache_time) (cache_timeout self)
  end.

Definition _set_cache {D : Type} (self : analyzer D) (cache_key : string)
  (d : D) (now : Q) : analyzer D :=
  {| cache := dict_set cache_key {| data := d; timestamp := Some now |}
                       (cache self);
     cache_timeout := cache_timeout self |}.

(** [None] is Python's [None]; the lookup [self.cache[cache_key]] cannot
    fail once the entry has been found valid. *)
Definition _get_cache {D : Type} (self : analyzer D) (cache_key : string)
  (now : Q) : option D :=
  if _is_cache_valid self cache_key now then
    match dict_get cache_key (cache self) with
    | Some entry => Some (data entry)
    | None => None
    end
  else None.

(** A [datetime.date] is its proleptic Gregorian ordinal; day 1 is a
    Monday, so [weekday] is 0 for Monday up to 6 for Sunday. *)
Definition date : Type := Z.

Definition weekday (d : date) : Z := ((d + 6) mod 7)%Z.

(** The first [while] loop of [_get_fallback_dates]; [fuel] bounds the
    number of iterations. *)
Fixpoint skip_weekend (fuel : nat) (current_date : date) : option date :=
  match fuel with
  | O => None
  | S fuel' =>
      if (5 <=? weekday current_date)%Z
      then skip_weekend fuel' (current_date - 1)%Z
      else Some current_date
  end.

(** The loop [while len(dates) < days], shared by [_get_fallback_dates] and
    the [except] branch of [get_trading_dates]. *)
Fixpoint collect_weekdays (fuel : nat) (days : Z) (dates : list date)
  (current_date : date) : option (list date) :=
  match fuel with
  | O => None
  | S fuel' =>
      if (Z.of_nat (length dates) <? days)%Z then
        if (weekday current_date <? 5)%Z
        then collect_weekdays fuel' days (dates ++ [current_date])
                              (current_date - 1)%Z
        else collect_weekdays fuel' days dates (current_date - 1)%Z
      else Some dates
  end.

(** [today] is [datetime.now().date()]. *)
Definition _get_fallback_dates (fuel : nat) (today : date) (days : Z)
  : option (list date) :=
  match skip_weekend fuel today with
  | Some current_date => collect_weekdays fuel days [] current_date
  | None => None
  end.

(** The [except] branch of [get_trading_dates]. *)
Definition default_dates (fuel : nat) (today : date) (days : Z)
  : option (list date) :=
  collect_weekdays fuel days [] today.

End ZhangTingAnalyzer.

(** The number of days from [d] back to the nearest weekday: 0 from Monday
    to Friday, 1 on a Saturday, 2 on a Sunday.  Used to state what the
    loops over dates compute. *)
Definition weekend_offset (d : ZhangTingAnalyzer.date) : Z :=
  Z.max 0 (ZhangTingAnalyzer.weekday d - 4).

(** * [market_sentiment_analyzer.py] *)

Module MarketSentimentAnalyzer.

(** ** Python floats

    The arithmetic of the idealised floats: exact on finite values, with
    the IEEE rules for the infinities and [nan].  Rounding is not
    modelled: ranges, comparisons with [nan] and the clamp are as in the
    code, an exact value of the index is that of the formula. *)

(** [x + y] *)
Definition add (x y : float64) : float64 :=
  match x, y with
  | NaN, _ | _, NaN => NaN
  | Fin a, Fin b => Fin (a + b)
  | PInf, NInf | NInf, PInf => NaN
  | PInf, _ | _, PInf => PInf
  | NInf, _ | _, NInf => NInf
  end.

(** [inf * a] for [pos = true], [-inf * a] otherwise. *)
Definition inf_mul (pos : bool) (a : Q) : float64 :=
  if Qeq_bool a 0 then NaN
  else if Bool.eqb pos (Qltb 0 a) then PInf else NInf.

(** [x * y] *)
Definition mul (x y : float64) : float64 :=
  match x, y with
  | NaN, _ | _, NaN => NaN
  | Fin a, Fin b => Fin (a * b)
  | PInf, Fin a | Fin a, PInf => inf_mul true a
  | NInf, Fin a | Fin a, NInf => inf_mul false a
  | PInf, PInf | NInf, NInf => PInf
  | PInf, NInf | NInf, PInf => NInf
  end.

(** [x >= y]; false when either side is [nan]. *)
Definition geb (x y : float64) : bool :=
  match x, y with
  | NaN, _ | _, NaN => false
  | _, _ => negb (F64.ltb x y)
  end.

(** [min(a, b)] and [max(a, b)]: Python keeps the first argument unless the
    second is strictly smaller (larger). *)
Definition py_min (a b : float64) : float64 := if F64.ltb b a then b else a.
Definition py_max (a b : float64) : float64 := if F64.ltb a b then b else a.

(** An [int] as a float. *)
Definition of_nat (n : nat) : float64 := Fin (inject_Z (Z.of_nat n)).

(** ** Data frames

    A frame is the list of its rows; a row maps the column names to
    numbers.  The columns of a frame are the keys of its first row. *)
Definition frame : Type := list (dict float64).

(** [df.empty]: no rows or no columns. *)
Definition empty (df : frame) : bool :=
  match df with
  | [] => true
  | [] :: _ => true
  | _ :: _ => false
  end.

(** [df[name]], raising [KeyError] for an unknown column. *)
Fixpoint column (name : string) (df : frame) : result (list float64) :=
  match df with
  | [] => Ok []
  | row :: df' =>
      x <- dict_index name row ;;
      xs <- column name df' ;;
      Ok (x :: xs)
  end.

(** [len(df[mask])] for the mask [p] over a column. *)
Definition count (p : float64 -> bool) (col : list float64) : nat :=
  length (filter p col).

Definition is_nan (x : float64) : bool :=
  match x with NaN => true | _ => false end.

(** [series.mean()]: pandas skips [nan]; the mean of nothing is [nan]. *)
Definition mean (col : list float64) : float64 :=
  match filter (fun x => negb (is_nan x)) col with
  | [] => NaN
  | vals => F64.div (fold_left add vals (Fin 0)) (of_nat (length vals))
  end.

(** [row.get(name, default)] *)
Definition get (name : string) (row : dict float64) (default : float64)
  : float64 :=
  match dict_get name row with
  | Some x => x
  | None => default
  end.

(** ** Results *)

(** The values of a sentiment dictionary: numbers and the level text. *)
Inductive value : Type :=
| Num (x : float64)
| Str (s : string).

Definition num (q : Q) : value := Num (Fin q).
Definition int (n : nat) : value := Num (of_nat n).

(** [d.update(other)] *)
Definition update {V : Type} (d other : dict V) : dict V :=
  fold_left (fun acc kv => dict_set (fst kv) (snd kv) acc) other d.

Definition _get_default_sentiment : dict value :=
  [("limit_up_count", int 0); ("limit_down_count", int 0);
   ("limit_ratio", num 0.5); ("up_count", int 0); ("down_count", int 0);
   ("up_ratio", num 0.5); ("avg_change", num 0); ("strong_ratio", num 0.1);
   ("money_flow_sentiment", num 0.5); ("sentiment_index", num 50);
   ("sentiment_level", Str "中性")].

Definition _get_default_breadth : dict value :=
  [("up_count", int 0); ("down_count", int 0); ("flat_count", int 0);
   ("total_count", int 0); ("up_ratio", num 0.5); ("avg_change", num 0);
   ("strong_count", int 0); ("strong_ratio", num 0.1)].

(** ** The four components

    The arguments are the outcomes of the provider calls
    [ak.stock_zt_pool_em], [ak.stock_dt_pool_em], [ak.stock_zh_a_spot_em]
    and [ak.stock_market_fund_flow]. *)

Definition _get_limit_data (stock_zt_pool_em stock_dt_pool_em : result frame)
  : dict value :=
  try_except
    (limit_up_df <- stock_zt_pool_em ;;
     let limit_up_count :=
       if negb (empty limit_up_df) then length limit_up_df else 0%nat in
     limit_down_df <- stock_dt_pool_em ;;
     let limit_down_count :=
       if negb (empty limit_down_df) then length limit_down_df else 0%nat in
     let total_limits := (limit_up_count + limit_down_count)%nat in
     let limit_ratio :=
       (inject_Z (Z.of_nat limit_up_count)
        / inject_Z (Z.of_nat (Nat.max total_limits 1)))%Q in
     Ok [("limit_up_count", int limit_up_count);
         ("limit_down_count", int limit_down_count);
         ("limit_ratio", num limit_ratio);
         ("total_limits", int total_limits)])
    (fun _ =>
       [("limit_up_count", int 0); ("limit_down_count", int 0);
        ("limit_ratio", num 0.5); ("total_limits", int 0)]).

Definition _get_market_breadth (stock_zh_a_spot_em : result frame)
  : dict value :=
  try_except
    (stock_zh_a_spot_df <- stock_zh_a_spot_em ;;
     if empty stock_zh_a_spot_df then Ok _get_default_breadth
     else
       change <- column "涨跌幅" stock_zh_a_spot_df ;;
       let up_count := count (fun x => F64.ltb (Fin 0) x) change in
       let down_count := count (fun x => F64.ltb x (Fin 0)) change in
       let flat_count := count (fun x => F64.same x (Fin 0)) change in
       let total_count := length stock_zh_a_spot_df in
       let up_ratio :=
         (inject_Z (Z.of_nat up_count)
          / inject_Z (Z.of_nat (Nat.max total_count 1)))%Q in
       let avg_change := mean change in
       let strong_count := count (fun x => F64.ltb (Fin 3) x) change in
       let strong_ratio :=
         (inject_Z (Z.of_nat strong_count)
          / inject_Z (Z.of_nat (Nat.max total_count 1)))%Q in
       Ok [("up_count", int up_count); ("down_count", int down_count);
           ("flat_count", int flat_count); ("total_count", int total_count);
           ("up_ratio", num up_ratio); ("avg_change", Num avg_change);
           ("strong_count", int strong_count);
           ("strong_ratio", num strong_ratio)])
    (fun _ => _get_default_breadth).

Definition _get_money_flow_sentiment (stock_market_fund_flow : result frame)
  : dict value :=
  try_except
    (money_flow_df <- stock_market_fund_flow ;;
     match money_flow_df with
     | today_data :: _ =>
         if empty money_flow_df then Ok [("money_flow_sentiment", num 0.5)]
         else
           let main_net_inflow := get "主力净流入-净额" today_data (Fin 0) in
           let super_large_inflow :=
             get "超大单净流入-净额" today_data (Fin 0) in
           let money_sentiment :=
             if F64.ltb (Fin 0) main_net_inflow
             then py_min (add (Fin 0.5)
                              (F64.div main_net_inflow (Fin 10000000000)))
                         (Fin 1)
             else py_max (add (Fin 0.5)
                              (F64.div main_net_inflow (Fin 10000000000)))
                         (Fin 0) in
           Ok [("main_net_inflow", Num main_net_inflow);
               ("super_large_inflow", Num super_large_inflow);
               ("money_flow_sentiment", Num money_sentiment)]
     | [] => Ok [("money_flow_sentiment", num 0.5)]
     end)
    (fun _ => [("money_flow_sentiment", num 0.5)]).

(** ** The index *)

Definition weights : dict Q :=
  [("limit_ratio", 0.25%Q); ("up_ratio", 0.30%Q); ("strong_ratio", 0.20%Q);
   ("money_flow_sentiment", 0.25%Q)].

(** One turn of the loop over [weights.items()]; [None] once
    [data[key] * weight] has raised [TypeError] (a text times a float). *)
Definition accumulate (data : dict value) (acc : option (float64 * Q))
  (kw : string * Q) : option (float64 * Q) :=
  match acc with
  | None => None
  | Some (sentiment_score, total_weight) =>
      match dict_get (fst kw) data with
      | None => Some (sentiment_score, total_weight)
      | Some (Num x) =>
          Some (add sentiment_score (mul x (Fin (snd kw))),
                (total_weight + snd kw)%Q)
      | Some (Str _) => None
      end
  end.

(** The divisor [total_weight] is positive where it is used, so the
    division cannot raise. *)
Definition _calculate_sentiment_index (data : dict value) : float64 :=
  match fold_left (accumulate data) weights (Some (Fin 0, 0%Q)) with
  | Some (sentiment_score, total_weight) =>
      let sentiment_index :=
        if Qltb 0 total_weight
        then mul (F64.div sentiment_score (Fin total_weight)) (Fin 100)
        else Fin 50 in
      py_max (Fin 0) (py_min (Fin 100) sentiment_index)
  | None => Fin 50
  end.

Definition _get_sentiment_level (sentiment_index : float64) : string :=
  if geb sentiment_index (Fin 80) then "极度乐观"
  else if geb sentiment_index (Fin 65) then "乐观"
  else if geb sentiment_index (Fin 50) then "偏乐观"
  else if geb sentiment_index (Fin 35) then "偏悲观"
  else if geb sentiment_index (Fin 20) then "悲观"
  else "极度悲观".

(** ** The analyzer *)

Record analyzer : Type := {
  sentiment_data : dict value;
  cache_timeout : Z;
  last_update : option datetime
}.

(** [__init__] *)
Definition init : analyzer :=
  {| sentiment_data := []; cache_timeout := 300; last_update := None |}.

Definition _is_cache_valid (self : analyzer) (now : datetime) : bool :=
  match last_update self, sentiment_data self with
  | None, _ | _, [] => false
  | Some created, _ :: _ =>
      let time_diff := seconds (datetime_sub now created) in
      (time_diff <? cache_timeout self)%Z
  end.

(** [now] is the time of the cache check and [now'] the time the result
    is stored.  Every callee catches its own exceptions, so the [except]
    branch of the function is not reached. *)
Definition get_market_sentiment
  (stock_zt_pool_em stock_dt_pool_em stock_zh_a_spot_em
     stock_market_fund_flow : result frame)
  (self : analyzer) (now now' : datetime) : dict value * analyzer :=
  if _is_cache_valid self now then (sentiment_data self, self)
  else
    let sentiment_data0 : dict value := [] in
    let limit_data := _get_limit_data stock_zt_pool_em stock_dt_pool_em in
    let sentiment_data1 := update sentiment_data0 limit_data in
    let breadth_data := _get_market_breadth stock_zh_a_spot_em in
    let sentiment_data2 := update sentiment_data1 breadth_data in
    let money_flow := _get_money_flow_sentiment stock_market_fund_flow in
    let sentiment_data3 := update sentiment_data2 money_flow in
    let sentiment_index := _calculate_sentiment_index sentiment_data3 in
    let sentiment_data4 :=
      dict_set "sentiment_index" (Num sentiment_index) sentiment_data3 in
    let sentiment_level := _get_sentiment_level sentiment_index in
    let sentiment_data5 :=
      dict_set "sentiment_level" (Str sentiment_level) sentiment_data4 in
    (sentiment_data5,
     {| sentiment_data := sentiment_data5;
        cache_timeout := cache_timeout self;
        last_update := Some now' |}).

End MarketSentimentAnalyzer.

(** * Properties *)

(** ** Dictionaries *)

Section DictFacts.
Context {V : Type}.
Implicit Types (d : dict V) (k : string) (v : V).

Lemma dict_get_In k v d : dict_get k d = Some v -> In (k, v) d.
Proof.
  induction d as [|[k' v'] d IH]; simpl; [discriminate|].
  destruct (String.eqb_spec k k') as [->|Hne]; intros H.
  - injection H as ->. now left.
  - right. now apply IH.
Qed.

Lemma dict_get_None k d : dict_get k d = None <-> ~ In k (keys d).
Proof.
  induction d as [|[k' v'] d IH]; simpl.
  - split; [intros _ []|reflexivity].
  - destruct (String.eqb_spec k k') as [->|Hne].
    + split; [discriminate|]. intros H. exfalso. apply H. now left.
    + rewrite IH. split.
      * intros H [E|E]; [now apply Hne|now apply H].
      * intros H E. apply H. now right.
Qed.

Lemma In_dict_get k v d : NoDup (keys d) -> In (k, v) d -> dict_get k d = Some v.
Proof.
  induction d as [|[k' v'] d IH]; simpl; [intros _ []|].
  intros Hnd [E|Hin].
  - injection E as -> ->. now rewrite String.eqb_refl.
  - inversion Hnd as [|? ? Hk Hnd']; subst.
    destruct (String.eqb_spec k k') as [->|Hne].
    + exfalso. apply Hk. change k' with (fst (k', v)). now apply in_map.
    + now apply IH.
Qed.

Lemma dict_mem_In k d : dict_mem k d = true <-> In k (keys d).
Proof.
  unfold dict_mem. destruct (dict_get k d) eqn:E.
  - split; [intros _|reflexivity].
    apply dict_get_In in E. change k with (fst (k, v)). now apply in_map.
  - split; [discriminate|]. intros H. now apply dict_get_None in E.
Qed.

Lemma dict_set_fresh k v d : ~ In k (keys d) -> dict_set k v d = d ++ [(k, v)].
Proof.
  induction d as [|[k' v'] d IH]; simpl; [reflexivity|].
  intros H. destruct (String.eqb_spec k k') as [->|Hne].
  - exfalso. apply H. now left.
  - rewrite IH; [reflexivity|]. intros E. apply H. now right.
Qed.

Lemma keys_dict_set k v d :
  keys (dict_set k v d) = if dict_mem k d then keys d else keys d ++ [k].
Proof.
  unfold dict_mem. induction d as [|[k' v'] d IH]; simpl; [reflexivity|].
  destruct (String.eqb_spec k k') as [->|Hne]; simpl; [reflexivity|].
  rewrite IH. now destruct (dict_get k d).
Qed.

Lemma dict_get_set_same k v d : dict_get k (dict_set k v d) = Some v.
Proof.
  induction d as [|[k' v'] d IH]; simpl.
  - now rewrite String.eqb_refl.
  - destruct (String.eqb_spec k k') as [->|Hne]; simpl.
    + now rewrite String.eqb_refl.
    + destruct (String.eqb_spec k k'); [contradiction|exact IH].
Qed.

Lemma dict_get_set_other k k' v d :
  k <> k' -> dict_get k (dict_set k' v d) = dict_get k d.
Proof.
  intros Hne. induction d as [|[k0 v0] d IH]; simpl.
  - destruct (String.eqb_spec k k'); [contradiction|reflexivity].
  - destruct (String.eqb_spec k' k0) as [->|Hne0]; simpl.
    + destruct (String.eqb_spec k k0); [contradiction|reflexivity].
    + now rewrite IH.
Qed.

Lemma NoDup_keys_dict_set k v d : NoDup (keys d) -> NoDup (keys (dict_set k v d)).
Proof.
  intros H. rewrite keys_dict_set. destruct (dict_mem k d) eqn:E; [exact H|].
  assert (Hk : ~ In k (keys d)).
  { intros Hin. apply dict_mem_In in Hin. congruence. }
  apply NoDup_rev in H. rewrite <- (rev_involutive (keys d ++ [k])).
  apply NoDup_rev. rewrite rev_app_distr. simpl. constructor; [|exact H].
  now rewrite <- in_rev.
Qed.

(** A loop storing entries under pairwise distinct fresh keys appends
    them in order. *)
Lemma fold_dict_set_fresh {X : Type} (kf : X -> string) (vf : X -> V)
  (xs : list X) d :
  NoDup (keys d ++ map kf xs) ->
  fold_left (fun acc x => dict_set (kf x) (vf x) acc) xs d
  = d ++ map (fun x => (kf x, vf x)) xs.
Proof.
  revert d. induction xs as [|x xs IH]; intros d Hnd; simpl.
  - now rewrite app_nil_r.
  - simpl in Hnd.
    rewrite dict_set_fresh.
    + rewrite IH.
      * now rewrite <- app_assoc.
      * unfold keys. rewrite map_app. simpl. fold (keys d).
        rewrite <- app_assoc. exact Hnd.
    + apply NoDup_remove_2 in Hnd. intros E. apply Hnd.
      apply in_or_app. now left.
Qed.
End DictFacts.

Lemma fold_left_ext {A B : Type} (f g : A -> B -> A) (l : list B) (a : A) :
  (forall a b, f a b = g a b) -> fold_left f l a = fold_left g l a.
Proof.
  intros H. revert a. induction l as [|b l IH]; intros a; simpl; [reflexivity|].
  now rewrite H, IH.
Qed.

(** ** Sorting *)

Section SortedReverseFacts.
Context {A K : Type} (key : A -> K) (lt : K -> K -> bool).

Lemma insert_desc_perm x l : Permutation (insert_desc key lt x l) (x :: l).
Proof.
  induction l as [|y l IH]; simpl; [reflexivity|].
  destruct (lt (key x) (key y)); [|reflexivity].
  rewrite IH. apply perm_swap.
Qed.

Lemma sorted_reverse_perm l : Permutation (sorted_reverse key lt l) l.
Proof.
  induction l as [|x l IH]; simpl; [reflexivity|].
  rewrite insert_desc_perm. now constructor.
Qed.

Lemma sorted_reverse_length l : length (sorted_reverse key lt l) = length l.
Proof. apply Permutation_length, sorted_reverse_perm. Qed.

Lemma sorted_reverse_In x l : In x (sorted_reverse key lt l) <-> In x l.
Proof.
  split; apply Permutation_in;
    [|apply Permutation_sym]; apply sorted_reverse_perm.
Qed.

Section Order.
(** [ok] singles out the keys that [lt] orders; for floats it excludes
    [nan]. *)
Variable ok : K -> Prop.
Hypothesis lt_asym :
  forall a b, ok a -> ok b -> lt a b = true -> lt b a = false.
Hypothesis not_lt_trans :
  forall a b c, ok a -> ok b -> ok c ->
                lt a b = false -> lt b c = false -> lt a c = false.

Lemma insert_desc_Forall (P : A -> Prop) x l :
  P x -> Forall P l -> Forall P (insert_desc key lt x l).
Proof.
  intros Hx Hl. eapply Permutation_Forall.
  - apply Permutation_sym, insert_desc_perm.
  - now constructor.
Qed.

Lemma insert_desc_sorted x l :
  ok (key x) -> Forall (fun y => ok (key y)) l ->
  StronglySorted (not_lt key lt) l ->
  StronglySorted (not_lt key lt) (insert_desc key lt x l).
Proof.
  intros Hx Hok Hs. induction Hs as [|y l Hs IH Hy]; simpl.
  - constructor; constructor.
  - inversion Hok as [|? ? Hoky Hokl]; subst.
    destruct (lt (key x) (key y)) eqn:E.
    + constructor; [now apply IH|].
      apply insert_desc_Forall; [|exact Hy].
      unfold not_lt. now apply lt_asym.
    + constructor; [now constructor|].
      constructor; [exact E|].
      rewrite Forall_forall in *. intros z Hz.
      unfold not_lt in *. eapply (not_lt_trans _ (key y)); auto.
Qed.

Lemma sorted_reverse_sorted l :
  Forall (fun y => ok (key y)) l ->
  StronglySorted (not_lt key lt) (sorted_reverse key lt l).
Proof.
  induction 1 as [|x l Hx Hl IH]; simpl; [constructor|].
  apply insert_desc_sorted; [exact Hx| |exact IH].
  eapply Permutation_Forall; [|exact Hl].
  apply Permutation_sym, sorted_reverse_perm.
Qed.
End Order.

(** Stability: the elements of one key class keep their input order. *)
Section Stable.
Variable same : K -> A -> bool.
Hypothesis lt_same :
  forall v a b, lt (key a) (key b) = true -> same v a = true -> same v b = false.

Lemma insert_desc_stable v x l :
  filter (same v) (insert_desc key lt x l) = filter (same v) (x :: l).
Proof.
  induction l as [|y l IH]; [reflexivity|].
  simpl insert_desc. destruct (lt (key x) (key y)) eqn:E; [|reflexivity].
  simpl in *. rewrite IH.
  destruct (same v x) eqn:Ex; [|reflexivity].
  now rewrite (lt_same v x y E Ex).
Qed.

Lemma sorted_reverse_stable v l :
  filter (same v) (sorted_reverse key lt l) = filter (same v) l.
Proof.
  induction l as [|x l IH]; [reflexivity|].
  simpl sorted_reverse. rewrite insert_desc_stable. simpl. now rewrite IH.
Qed.
End Stable.
End SortedReverseFacts.

(** ** The percentile ranker *)

Lemma map_fst_combine {X Y : Type} (xs : list X) (ys : list Y) :
  length xs = length ys -> map fst (combine xs ys) = xs.
Proof.
  revert ys. induction xs as [|x xs IH]; intros [|y ys]; simpl;
    try reflexivity; try discriminate.
  intros H. f_equal. apply IH. now injection H.
Qed.

Lemma map_snd_combine {X Y : Type} (xs : list X) (ys : list Y) :
  length xs = length ys -> map snd (combine xs ys) = ys.
Proof.
  revert ys. induction xs as [|x xs IH]; intros [|y ys]; simpl;
    try reflexivity; try discriminate.
  intros H. f_equal. apply IH. now injection H.
Qed.

Lemma map_combine_split {X Y K V : Type} (kf : Y -> K) (vf : X -> V)
  (xs : list X) (ys : list Y) :
  length xs = length ys ->
  map (fun p => (kf (snd p), vf (fst p))) (combine xs ys)
  = combine (map kf ys) (map vf xs).
Proof.
  revert ys. induction xs as [|x xs IH]; intros [|y ys]; simpl;
    try reflexivity; try discriminate.
  intros H. f_equal. apply IH. now injection H.
Qed.

Lemma nth_error_combine {X Y : Type} (xs : list X) (ys : list Y) (n : nat) :
  nth_error (combine xs ys) n
  = match nth_error xs n, nth_error ys n with
    | Some x, Some y => Some (x, y)
    | _, _ => None
    end.
Proof.
  revert ys n. induction xs as [|x xs IH]; intros [|y ys] [|n]; simpl;
    try reflexivity.
  - now destruct (nth_error xs n).
  - apply IH.
Qed.

Lemma keys_sorted_returns (d : dict float64) :
  Permutation (keys (sorted_reverse snd F64.ltb d)) (keys d).
Proof. apply Permutation_map, sorted_reverse_perm. Qed.

(** With distinct codes, the ranking loop pairs the codes in sorted order
    with the scores of the ranks [0, 1, ..., N-1]. *)
Lemma rank_returns_eq (d : dict float64) :
  NoDup (keys d) ->
  rank_returns d
  = combine (keys (sorted_reverse snd F64.ltb d))
            (map (rps_score (length d)) (seq 0 (length d))).
Proof.
  intros Hnd. unfold rank_returns.
  destruct d as [|e d']; [reflexivity|].
  set (d := e :: d') in *. clearbody d.
  set (sorted_returns := sorted_reverse snd F64.ltb d).
  assert (Hlen : length sorted_returns = length d)
    by apply sorted_reverse_length.
  rewrite (fold_left_ext _
             (fun acc x => dict_set (fst (snd x))
                                    (rps_score (length sorted_returns) (fst x)) acc)).
  2: { now intros a [i [c r]]. }
  rewrite fold_dict_set_fresh.
  - simpl. unfold enumerate. rewrite Hlen.
    apply map_combine_split. now rewrite length_seq.
  - simpl. unfold enumerate.
    rewrite <- (map_map snd (fun x : string * float64 => fst x)).
    rewrite map_snd_combine by now rewrite length_seq.
    eapply Permutation_NoDup; [|exact Hnd].
    apply Permutation_sym, keys_sorted_returns.
Qed.

Lemma keys_rank_returns_sorted (d : dict float64) :
  NoDup (keys d) ->
  keys (rank_returns d) = keys (sorted_reverse snd F64.ltb d).
Proof.
  intros Hnd. rewrite rank_returns_eq by assumption.
  apply map_fst_combine. unfold keys.
  now rewrite !length_map, length_seq, sorted_reverse_length.
Qed.

Lemma rps_score_inj (N i j : nat) :
  i < N -> j < N -> (rps_score N i == rps_score N j)%Q -> i = j.
Proof.
  intros Hi Hj. unfold rps_score.
  assert (HN : ~ (inject_Z (Z.of_nat N) == 0)%Q).
  { unfold Qeq. simpl. lia. }
  intros H.
  apply Qmult_inj_r in H; [|discriminate].
  unfold Qdiv in H. apply Qmult_inj_r in H.
  - unfold Qeq in H. simpl in H. lia.
  - intros E. apply HN. rewrite <- (Qinv_involutive (inject_Z (Z.of_nat N))).
    rewrite E. reflexivity.
Qed.

(** Every score lies in (0, 100]. *)
Lemma rps_score_range (N i : nat) :
  i < N -> (0 < rps_score N i /\ rps_score N i <= 100)%Q.
Proof.
  intros Hi. unfold rps_score.
  destruct (Z.of_nat N) as [|p|p] eqn:EN; try lia.
  rewrite <- Qmake_Qdiv.
  unfold Qlt, Qle, Qmult, inject_Z. cbn [Qnum Qden].
  split; lia.
Qed.

(** C1.  For a non-empty return map with distinct identifiers of size [N],
    the percentile scores produced by the ranker are, as a multiset, exactly
    the values [(N-i)/N*100] for [i = 0..N-1]; these values are pairwise
    different and each is held by exactly one entity; and the entities of
    the output are exactly the entities of the input, each once. *)
Theorem rank_returns_bijection (period_returns : dict float64) :
  period_returns <> [] ->
  NoDup (keys period_returns) ->
  let N := length period_returns in
  let rps_scores := rank_returns period_returns in
  Permutation (values rps_scores) (map (rps_score N) (seq 0 N))
  /\ (forall i j, i < N -> j < N -> (rps_score N i == rps_score N j)%Q -> i = j)
  /\ (forall i, i < N ->
        exists c, dict_get c rps_scores = Some (rps_score N i)
                  /\ forall c' v, dict_get c' rps_scores = Some v ->
                                  (v == rps_score N i)%Q -> c' = c)
  /\ NoDup (keys rps_scores)
  /\ Permutation (keys rps_scores) (keys period_returns).
Proof.
  intros _ Hnd N rps_scores.
  assert (E : rps_scores
              = combine (keys (sorted_reverse snd F64.ltb period_returns))
                        (map (rps_score N) (seq 0 N)))
    by now apply rank_returns_eq.
  set (ks := keys (sorted_reverse snd F64.ltb period_returns)) in E.
  assert (Hks : length ks = N).
  { unfold ks, keys. rewrite length_map. apply sorted_reverse_length. }
  assert (Hvs : length (map (rps_score N) (seq 0 N)) = N)
    by now rewrite length_map, length_seq.
  assert (Hkeys : keys rps_scores = ks)
    by now apply keys_rank_returns_sorted.
  assert (Hndk : NoDup ks).
  { eapply Permutation_NoDup; [|exact Hnd].
    apply Permutation_sym, keys_sorted_returns. }
  repeat split.
  - unfold values. rewrite E, map_snd_combine by congruence. reflexivity.
  - apply rps_score_inj.
  - intros i Hi.
    destruct (nth_error ks i) as [c|] eqn:Ec.
    2: { apply nth_error_None in Ec. lia. }
    assert (Hin : forall j c0, j < N -> nth_error ks j = Some c0 ->
                               In (c0, rps_score N j) rps_scores).
    { intros j c0 Hj Hc0. rewrite E.
      apply (nth_error_In _ j). rewrite nth_error_combine, Hc0.
      rewrite nth_error_map, nth_error_seq.
      destruct (Nat.ltb_spec j N); [reflexivity|lia]. }
    exists c. split.
    + apply In_dict_get; [now rewrite Hkeys|]. now apply Hin.
    + intros c' v Hget Hv.
      apply dict_get_In in Hget. rewrite E in Hget.
      apply In_nth_error in Hget. destruct Hget as [j Hj].
      rewrite nth_error_combine in Hj.
      destruct (nth_error ks j) as [c0|] eqn:Ec0; [|discriminate].
      rewrite nth_error_map, nth_error_seq in Hj.
      destruct (Nat.ltb_spec j N) as [HjN|]; [|discriminate].
      simpl in Hj. injection Hj as -> <-.
      apply rps_score_inj in Hv; [|assumption..]. subst j. congruence.
  - now rewrite Hkeys.
  - rewrite Hkeys. apply keys_sorted_returns.
Qed.

Lemma rank_returns_bijection_witness :
  let period_returns := [("a", Fin 1); ("b", PInf); ("c", Fin (-1))] in
  period_returns <> []
  /\ NoDup (keys period_returns)
  /\ Permutation (values (rank_returns period_returns))
                 (map (rps_score 3) (seq 0 3)).
Proof.
  intros period_returns.
  assert (Hne : period_returns <> []) by discriminate.
  assert (Hnd : NoDup (keys period_returns)).
  { repeat constructor; simpl; intuition discriminate. }
  split; [exact Hne|]. split; [exact Hnd|].
  exact (proj1 (rank_returns_bijection period_returns Hne Hnd)).
Defined.

(** ** Per-period returns *)

Lemma iloc_last (df : DataFrame) (k : nat) :
  1 <= k <= length df ->
  exists v, nth_error df (length df - k) = Some v
            /\ iloc df (- Z.of_nat k) = Ok v.
Proof.
  intros Hk. unfold iloc.
  destruct (Z.ltb_spec (- Z.of_nat k) 0); [|lia].
  destruct (Z.ltb_spec (Z.of_nat (length df) + - Z.of_nat k) 0); [lia|].
  destruct (Z.leb_spec (Z.of_nat (length df))
                       (Z.of_nat (length df) + - Z.of_nat k)); [lia|].
  simpl.
  replace (Z.to_nat (Z.of_nat (length df) + - Z.of_nat k))
    with (length df - k) by lia.
  destruct (nth_error df (length df - k)) as [v|] eqn:E.
  - now exists v.
  - apply nth_error_None in E. lia.
Qed.

(** A frame with at least [period + 1] rows always yields a return: the
    two lookups are in range and the float division does not raise. *)
Lemma period_return_long (df : DataFrame) (period : nat) :
  period + 1 <= length df ->
  exists current_price period_price,
    nth_error df (length df - 1) = Some current_price
    /\ nth_error df (length df - (period + 1)) = Some period_price
    /\ period_return df period
       = Ok (Some (F64.div (F64.sub current_price period_price) period_price)).
Proof.
  intros Hlen. unfold period_return.
  destruct (Nat.leb_spec (period + 1) (length df)); [|lia].
  destruct (iloc_last df 1) as [c [Hc Ec]]; [lia|].
  destruct (iloc_last df (period + 1)) as [a [Ha Ea]]; [lia|].
  exists c, a. repeat split; try assumption.
  change (-1)%Z with (- Z.of_nat 1)%Z. rewrite Ec. simpl.
  replace (- (Z.of_nat period + 1))%Z with (- Z.of_nat (period + 1))%Z by lia.
  now rewrite Ea.
Qed.

Lemma period_return_short (df : DataFrame) (period : nat) :
  length df < period + 1 -> period_return df period = Ok None.
Proof.
  intros Hlen. unfold period_return.
  destruct (Nat.leb_spec (period + 1) (length df)); [lia|reflexivity].
Qed.

Lemma period_returns_step (period : nat) (acc : dict float64)
  (code : string) (df : DataFrame) :
  try_except
    (r <- period_return df period ;;
     Ok (match r with
         | Some period_return => dict_set code period_return acc
         | None => acc
         end))
    (fun _ => acc)
  = match stored_return df period with
    | Some r => dict_set code r acc
    | None => acc
    end.
Proof.
  unfold stored_return. now destruct (period_return df period) as [[r|]|e].
Qed.

Lemma period_returns_fold_get (period : nat) (stock_data : dict DataFrame)
  (acc : dict float64) (code : string) :
  NoDup (keys stock_data) ->
  dict_get code
    (fold_left
       (fun acc '(code, df) =>
          try_except
            (r <- period_return df period ;;
             Ok (match r with
                 | Some period_return => dict_set code period_return acc
                 | None => acc
                 end))
            (fun _ => acc))
       stock_data acc)
  = match dict_get code stock_data with
    | Some df =>
        match stored_return df period with
        | Some r => Some r
        | None => dict_get code acc
        end
    | None => dict_get code acc
    end.
Proof.
  revert acc. induction stock_data as [|[k df] sd IH]; intros acc Hnd;
    [reflexivity|].
  inversion Hnd as [|? ? Hk Hnd']; subst.
  cbn [fold_left]. rewrite IH by assumption. rewrite period_returns_step.
  cbn [dict_get]. destruct (String.eqb_spec code k) as [->|Hne].
  - assert (E : dict_get k sd = None) by now apply dict_get_None.
    rewrite E. destruct (stored_return df period) as [r|]; [|reflexivity].
    apply dict_get_set_same.
  - assert (E : dict_get code
                  match stored_return df period with
                  | Some r => dict_set k r acc
                  | None => acc
                  end = dict_get code acc).
    { destruct (stored_return df period); [|reflexivity].
      now apply dict_get_set_other. }
    now rewrite E.
Qed.

(** Each entity's return is computed from its own frame only. *)
Lemma period_returns_get (stock_data : dict DataFrame) (period : nat)
  (code : string) :
  NoDup (keys stock_data) ->
  dict_get code (period_returns stock_data period)
  = match dict_get code stock_data with
    | Some df => stored_return df period
    | None => None
    end.
Proof.
  intros Hnd. unfold period_returns. rewrite period_returns_fold_get by assumption.
  destruct (dict_get code stock_data) as [df|]; [|reflexivity].
  now destruct (stored_return df period).
Qed.

Lemma period_returns_NoDup (stock_data : dict DataFrame) (period : nat) :
  NoDup (keys (period_returns stock_data period)).
Proof.
  unfold period_returns.
  assert (H : NoDup (keys (@nil (string * float64)))) by constructor.
  revert H. generalize (@nil (string * float64)).
  induction stock_data as [|[k df] sd IH]; intros acc Hacc; [exact Hacc|].
  cbn [fold_left]. apply IH. rewrite period_returns_step.
  destruct (stored_return df period); [|exact Hacc].
  now apply NoDup_keys_dict_set.
Qed.

Lemma stored_return_Some (df : DataFrame) (period : nat) :
  (exists r, stored_return df period = Some r) <-> period + 1 <= length df.
Proof.
  unfold stored_return. split.
  - intros [r Hr]. destruct (Nat.le_gt_cases (period + 1) (length df)) as [H|H];
      [exact H|].
    rewrite period_return_short in Hr by lia. discriminate.
  - intros H. destruct (period_return_long df period H) as (c & a & _ & _ & E).
    rewrite E. eauto.
Qed.

Lemma keys_rank_returns (d : dict float64) (code : string) :
  NoDup (keys d) -> In code (keys (rank_returns d)) <-> In code (keys d).
Proof.
  intros Hnd. rewrite keys_rank_returns_sorted by assumption.
  split; apply Permutation_in; [|apply Permutation_sym];
    apply keys_sorted_returns.
Qed.

(** C8.  For a series map with distinct identifiers and any period, an
    entity has an entry in the period-return map, and hence a percentile,
    if and only if its series has at least [period + 1] points; for a
    shorter series the return computation finishes normally without a
    value, so the entity is skipped without an error. *)
Theorem period_returns_iff_enough_points (stock_data : dict DataFrame)
  (period : nat) (code : string) :
  NoDup (keys stock_data) ->
  (In code (keys (period_returns stock_data period))
   <-> exists df, dict_get code stock_data = Some df
                  /\ period + 1 <= length df)
  /\ (In code (keys (_calculate_period_rps stock_data period))
      <-> exists df, dict_get code stock_data = Some df
                     /\ period + 1 <= length df)
  /\ (forall df, dict_get code stock_data = Some df ->
                 length df < period + 1 ->
                 period_return df period = Ok None).
Proof.
  intros Hnd.
  assert (H1 : In code (keys (period_returns stock_data period))
               <-> exists df, dict_get code stock_data = Some df
                              /\ period + 1 <= length df).
  { split.
    - intros Hin.
      destruct (dict_get code (period_returns stock_data period)) as [r|] eqn:E.
      2: { apply dict_get_None in E. contradiction. }
      rewrite period_returns_get in E by assumption.
      destruct (dict_get code stock_data) as [df|]; [|discriminate].
      exists df. split; [reflexivity|]. apply stored_return_Some. eauto.
    - intros (df & Hdf & Hlen). apply stored_return_Some in Hlen.
      destruct Hlen as [r Hr].
      assert (E : dict_get code (period_returns stock_data period) = Some r).
      { rewrite period_returns_get by assumption. now rewrite Hdf. }
      apply dict_mem_In. unfold dict_mem. now rewrite E. }
  split; [exact H1|]. split.
  - unfold _calculate_period_rps.
    rewrite keys_rank_returns by apply period_returns_NoDup. exact H1.
  - intros df _ Hlen. now apply period_return_short.
Qed.

Lemma period_returns_iff_enough_points_witness :
  let stock_data :=
    [("a", [Fin 10; Fin 11]); ("b", [Fin 7])] in
  NoDup (keys stock_data)
  /\ (In "a" (keys (period_returns stock_data 1))
      <-> exists df, dict_get "a" stock_data = Some df /\ 1 + 1 <= length df).
Proof.
  intros stock_data.
  assert (Hnd : NoDup (keys stock_data)).
  { repeat constructor; simpl; intuition discriminate. }
  split; [exact Hnd|].
  exact (proj1 (period_returns_iff_enough_points stock_data 1 "a" Hnd)).
Defined.

(** C6 (evaluation at a zero anchor).  The frame of ["a"] has two rows and
    its anchor close is zero: the float division yields [inf] instead of
    raising, so ["a"] is kept in the return map with an infinite return and
    is ranked first; the return of ["b"] is the one its own frame gives. *)
Theorem zero_anchor_is_not_excluded :
  let stock_data :=
    [("a", [Fin 0; Fin 10]); ("b", [Fin 5; Fin 6])] in
  period_return [Fin 0; Fin 10] 1 = Ok (Some PInf)
  /\ period_returns stock_data 1 = [("a", PInf); ("b", Fin ((6 - 5) / 5))]
  /\ keys (_calculate_period_rps stock_data 1) = ["a"; "b"]
  /\ dict_get "a" (_calculate_period_rps stock_data 1) = Some (rps_score 2 0).
Proof. repeat split. Qed.

(** A zero anchor never makes the return computation raise. *)
Lemma period_return_zero_anchor (df : DataFrame) (period : nat) :
  period + 1 <= length df ->
  nth_error df (length df - (period + 1)) = Some (Fin 0) ->
  exists r, period_return df period = Ok (Some r)
            /\ (r = PInf \/ r = NInf \/ r = NaN).
Proof.
  intros Hlen Ha.
  destruct (period_return_long df period Hlen) as (c & a & _ & Ea & E).
  rewrite Ha in Ea. injection Ea as <-.
  eexists. split; [exact E|].
  destruct c as [q| | |]; simpl; auto.
  replace (Qeq_bool 0 0) with true by reflexivity.
  destruct (Qeq_bool (q - 0) 0); auto.
  destruct (Qltb 0 (q - 0)); auto.
Qed.

(** ** The composite scorer *)

Lemma weight_of_table (periods : list nat) (period : nat) :
  weight_of periods period
  = match period with
    | 5 => (4 # 10)%Q
    | 10 => (3 # 10)%Q
    | 20 => (2 # 10)%Q
    | 60 => (1 # 10)%Q
    | _ => (1 / inject_Z (Z.of_nat (length periods)))%Q
    end.
Proof.
  unfold weight_of, weights_get, weights, fallback_weight. cbn [find fst snd].
  destruct (Nat.eqb_spec 5 period) as [<-|H5]; [reflexivity|].
  destruct (Nat.eqb_spec 10 period) as [<-|H10]; [reflexivity|].
  destruct (Nat.eqb_spec 20 period) as [<-|H20]; [reflexivity|].
  destruct (Nat.eqb_spec 60 period) as [<-|H60]; [reflexivity|].
  do 61 (destruct period as [|period]; try reflexivity; try congruence).
Qed.

Lemma weight_of_pos (periods : list nat) (period : nat) :
  periods <> [] -> (0 < weight_of periods period)%Q.
Proof.
  intros Hne. unfold weight_of, weights_get, weights. cbn [find fst snd].
  destruct (5 =? period); [reflexivity|].
  destruct (10 =? period); [reflexivity|].
  destruct (20 =? period); [reflexivity|].
  destruct (60 =? period); [reflexivity|].
  unfold fallback_weight.
  destruct periods as [|p ps]; [contradiction|].
  destruct (Z.of_nat (length (p :: ps))) as [|n|n] eqn:E;
    [simpl in E; lia| |lia].
  change 1%Q with (inject_Z 1). rewrite <- Qmake_Qdiv. reflexivity.
Qed.

Lemma In_set_add (c code : string) (s : list string) :
  In c (set_add code s) <-> c = code \/ In c s.
Proof.
  unfold set_add. destruct (existsb (String.eqb code) s) eqn:E.
  - split; [now right|]. intros [->|H]; [|exact H].
    apply existsb_exists in E. destruct E as (x & Hx & Ex).
    apply String.eqb_eq in Ex. now subst.
  - rewrite in_app_iff. simpl. intuition.
Qed.

Lemma In_set_update (c : string) (s codes : list string) :
  In c (set_update s codes) <-> In c s \/ In c codes.
Proof.
  unfold set_update. revert s. induction codes as [|x codes IH]; intros s; simpl.
  - intuition.
  - rewrite IH, In_set_add. intuition.
Qed.

Lemma In_all_codes (rps_results : dict (dict Q)) (c : string) :
  In c (all_codes rps_results)
  <-> exists period_rps, In period_rps (values rps_results)
                         /\ In c (keys period_rps).
Proof.
  unfold all_codes.
  assert (H : forall ms s,
             In c (fold_left (fun s (m : dict Q) => set_update s (keys m)) ms s)
             <-> In c s \/ exists m, In m ms /\ In c (keys m)).
  { induction ms as [|m ms IH]; intros s; simpl.
    - split; [now left|]. intros [H|(m & [] & _)]. exact H.
    - rewrite IH, In_set_update. split.
      + intros [[H|H]|(m' & H1 & H2)]; eauto.
      + intros [H|(m' & [->|H1] & H2)]; eauto. }
  rewrite H. split; [intros [H0|H0]; [destruct H0|exact H0]|intros H0; right; exact H0].
Qed.

Lemma sigma_cons (x : Q) (xs : list Q) : sigma (x :: xs) = (x + sigma xs)%Q.
Proof. reflexivity. Qed.

Lemma add_period_eq (rps_results : dict (dict Q)) (periods : list nat)
  (code : string) (a b : Q) (period : nat) :
  add_period rps_results periods code (a, b) period
  = match percentile_of rps_results code period with
    | Some score =>
        (a + score * weight_of periods period, b + weight_of periods period)%Q
    | None => (a, b)
    end.
Proof.
  unfold add_period, percentile_of.
  destruct (dict_get (period_key period) rps_results) as [m|]; [|reflexivity].
  now destruct (dict_get code m).
Qed.

Lemma accumulate_terms (rps_results : dict (dict Q)) (periods : list nat)
  (code : string) (l : list nat) (acc : Q * Q) :
  let terms := terms_of rps_results code (weight_of periods) l in
  let r := fold_left (add_period rps_results periods code) l acc in
  (fst r == fst acc + sigma (map (fun t => fst t * snd t) terms))%Q
  /\ (snd r == snd acc + sigma (map snd terms))%Q
  /\ (terms = [] -> r = acc).
Proof.
  revert acc. induction l as [|p l IH]; intros [a b]; cbn zeta.
  - cbn [fold_left terms_of flat_map map sigma fold_right fst snd].
    split; [ring|]. split; [ring|reflexivity].
  - cbn [fold_left terms_of flat_map].
    fold (terms_of rps_results code (weight_of periods) l).
    rewrite add_period_eq.
    destruct (percentile_of rps_results code p) as [s|].
    + destruct (IH (a + s * weight_of periods p, b + weight_of periods p)%Q)
        as (H1 & H2 & _).
      cbn zeta in H1, H2. rewrite H1, H2.
      cbn [app map fst snd]. rewrite !sigma_cons.
      split; [ring|]. split; [ring|]. discriminate.
    + apply IH.
Qed.

Lemma sigma_pos (xs : list Q) :
  xs <> [] -> Forall (fun x => 0 < x)%Q xs -> (0 < sigma xs)%Q.
Proof.
  intros Hne H. induction H as [|x xs Hx Hxs IH]; [contradiction|].
  rewrite sigma_cons. destruct xs as [|y ys].
  - simpl. now rewrite Qplus_0_r.
  - assert (0 < sigma (y :: ys))%Q by (apply IH; discriminate).
    rewrite <- (Qplus_0_r 0). apply Qplus_lt_le_compat; [exact Hx|].
    now apply Qlt_le_weak.
Qed.

Lemma terms_of_weights (rps_results : dict (dict Q)) (code : string)
  (weight : nat -> Q) (l : list nat) (P : Q -> Prop) :
  (forall p, In p l -> P (weight p)) ->
  Forall P (map snd (terms_of rps_results code weight l)).
Proof.
  intros H. induction l as [|p l IH]; [constructor|].
  cbn [terms_of flat_map].
  fold (terms_of rps_results code weight l).
  destruct (percentile_of rps_results code p).
  - simpl. constructor; [apply H; now left|]. apply IH. intros p' Hp. apply H. now right.
  - simpl. apply IH. intros p' Hp. apply H. now right.
Qed.

Lemma terms_of_In (rps_results : dict (dict Q)) (code : string)
  (weight : nat -> Q) (l : list nat) :
  terms_of rps_results code weight l <> [] <->
  exists p, In p l /\ percentile_of rps_results code p <> None.
Proof.
  induction l as [|p l IH]; cbn [terms_of flat_map].
  - split; [contradiction|]. intros (p & [] & _).
  - fold (terms_of rps_results code weight l).
    destruct (percentile_of rps_results code p) as [s|] eqn:E.
    + split; [|discriminate]. intros _. exists p. split; [now left|congruence].
    + simpl. rewrite IH. split.
      * intros (q & Hq & Hs). exists q. split; [now right|exact Hs].
      * intros (q & [<-|Hq] & Hs); [congruence|]. now exists q.
Qed.

(** The outer loop of [_calculate_composite_rps], read per entity. *)
Lemma composite_fold_get (g : string -> option Q) (cs : list string)
  (acc : dict Q) (code : string) :
  dict_get code
    (fold_left
       (fun acc c => match g c with
                     | Some v => dict_set c v acc
                     | None => acc
                     end) cs acc)
  = if in_dec string_dec code cs
    then match g code with
         | Some v => Some v
         | None => dict_get code acc
         end
    else dict_get code acc.
Proof.
  revert acc. induction cs as [|c cs IH]; intros acc; [reflexivity|].
  cbn [fold_left]. rewrite IH.
  assert (Hstep : dict_get code match g c with
                                 | Some v => dict_set c v acc
                                 | None => acc
                                 end
                  = if string_dec c code
                    then match g code with
                         | Some v => Some v
                         | None => dict_get code acc
                         end
                    else dict_get code acc).
  { destruct (string_dec c code) as [->|Hne].
    - destruct (g code); [apply dict_get_set_same|reflexivity].
    - destruct (g c); [|reflexivity].
      apply dict_get_set_other. congruence. }
  rewrite Hstep.
  destruct (in_dec string_dec code cs) as [Hin|Hin];
    destruct (in_dec string_dec code (c :: cs)) as [Hin'|Hin'];
    destruct (string_dec c code) as [E|E];
    try reflexivity;
    try (now destruct (g code));
    try (exfalso; apply Hin'; simpl; tauto).
  destruct Hin' as [?|?]; contradiction.
Qed.

(** The value the outer loop stores for [code], if any. *)
Lemma composite_get (rps_results : dict (dict Q)) (periods : list nat)
  (code : string) :
  dict_get code (_calculate_composite_rps rps_results periods)
  = if in_dec string_dec code (all_codes rps_results)
    then let '(total_score, total_weight) :=
           accumulate rps_results periods code in
         if Qltb 0 total_weight then Some (total_score / total_weight)%Q
         else None
    else None.
Proof.
  unfold _calculate_composite_rps.
  rewrite (fold_left_ext _
    (fun acc c =>
       match (let '(total_score, total_weight) :=
                accumulate rps_results periods c in
              if Qltb 0 total_weight then Some (total_score / total_weight)%Q
              else None) with
       | Some v => dict_set c v acc
       | None => acc
       end)).
  2: { intros a c. destruct (accumulate rps_results periods c) as [ts tw].
       now destruct (Qltb 0 tw). }
  rewrite composite_fold_get. simpl.
  destruct (in_dec string_dec code (all_codes rps_results)); [|reflexivity].
  destruct (accumulate rps_results periods code) as [ts tw].
  now destruct (Qltb 0 tw).
Qed.

Lemma Qltb_lt (x y : Q) : Qltb x y = true <-> (x < y)%Q.
Proof.
  unfold Qltb. rewrite negb_true_iff. split.
  - intros H. apply Qnot_le_lt. intros Hle.
    apply Qle_bool_iff in Hle. congruence.
  - intros H. destruct (Qle_bool y x) eqn:E; [|reflexivity].
    apply Qle_bool_iff in E. exfalso. now apply (Qlt_not_le x y).
Qed.

Lemma Qltb_ge (x y : Q) : Qltb x y = false <-> (y <= x)%Q.
Proof.
  unfold Qltb. rewrite negb_false_iff. apply Qle_bool_iff.
Qed.

Lemma percentile_of_all_codes (rps_results : dict (dict Q)) (code : string)
  (period : nat) :
  percentile_of rps_results code period <> None ->
  In code (all_codes rps_results).
Proof.
  unfold percentile_of. intros H. apply In_all_codes.
  destruct (dict_get (period_key period) rps_results) as [m|] eqn:Em;
    [|contradiction].
  exists m. split.
  - apply dict_get_In in Em. change m with (snd (period_key period, m)).
    now apply in_map.
  - apply dict_mem_In. unfold dict_mem. now destruct (dict_get code m).
Qed.

(** C2.  An entity with a percentile in at least one requested period gets
    the composite score [sum (percentile_p * weight_p) / sum weight_p], the
    sums running over the requested periods where it has a percentile; an
    entity with a percentile in no requested period is absent from the
    composite map; and the weight of a period is the table entry
    {5: 0.4, 10: 0.3, 20: 0.2, 60: 0.1} or, for any other period,
    [1 / number of requested periods]. *)
Theorem composite_is_weighted_average (rps_results : dict (dict Q))
  (periods : list nat) (code : string) :
  let composite_rps := _calculate_composite_rps rps_results periods in
  ((exists p, In p periods /\ percentile_of rps_results code p <> None) ->
   exists v, dict_get code composite_rps = Some v
             /\ (v == weighted_average (qualifying rps_results periods code))%Q)
  /\ ((forall p, In p periods -> percentile_of rps_results code p = None) ->
      dict_get code composite_rps = None)
  /\ (forall p, weight_of periods p
                = match p with
                  | 5 => (4 # 10)%Q
                  | 10 => (3 # 10)%Q
                  | 20 => (2 # 10)%Q
                  | 60 => (1 # 10)%Q
                  | _ => (1 / inject_Z (Z.of_nat (length periods)))%Q
                  end).
Proof.
  cbn zeta. split; [|split].
  - intros Hex.
    assert (Hterms : qualifying rps_results periods code <> [])
      by now apply terms_of_In.
    assert (Hne : periods <> []).
    { destruct Hex as (p & Hp & _). intros ->. exact Hp. }
    destruct Hex as (p & Hp & Hs).
    rewrite composite_get.
    destruct (in_dec string_dec code (all_codes rps_results)) as [_|Hn].
    2: { exfalso. apply Hn. eapply percentile_of_all_codes. exact Hs. }
    destruct (accumulate_terms rps_results periods code periods (0, 0)%Q)
      as (H1 & H2 & _).
    fold (accumulate rps_results periods code) in H1, H2.
    fold (qualifying rps_results periods code) in H1, H2.
    destruct (accumulate rps_results periods code) as [ts tw].
    cbn [fst snd] in H1, H2. rewrite Qplus_0_l in H1, H2.
    assert (Hpos : (0 < tw)%Q).
    { rewrite H2. apply sigma_pos.
      - destruct (qualifying rps_results periods code); [contradiction|discriminate].
      - apply terms_of_weights. intros q _. now apply weight_of_pos. }
    apply Qltb_lt in Hpos. rewrite Hpos.
    eexists. split; [reflexivity|].
    unfold weighted_average. now rewrite H1, H2.
  - intros Hnone.
    assert (Hterms : qualifying rps_results periods code = []).
    { destruct (qualifying rps_results periods code) as [|t ts] eqn:E;
        [reflexivity|].
      assert (Hx : qualifying rps_results periods code <> [])
        by (rewrite E; discriminate).
      apply terms_of_In in Hx. destruct Hx as (p & Hp & Hs).
      exfalso. apply Hs. now apply Hnone. }
    rewrite composite_get.
    destruct (in_dec string_dec code (all_codes rps_results)); [|reflexivity].
    destruct (accumulate_terms rps_results periods code periods (0, 0)%Q)
      as (_ & _ & H3).
    fold (accumulate rps_results periods code) in H3.
    fold (qualifying rps_results periods code) in H3.
    now rewrite (H3 Hterms).
  - apply weight_of_table.
Qed.

Lemma composite_is_weighted_average_witness :
  let rps_results :=
    [("rps_5", [("a", 100%Q); ("b", 50%Q)]); ("rps_7", [("a", 50%Q)])] in
  let periods := [5; 7] in
  (exists p, In p periods /\ percentile_of rps_results "a" p <> None)
  /\ exists v, dict_get "a" (_calculate_composite_rps rps_results periods) = Some v
               /\ (v == weighted_average (qualifying rps_results periods "a"))%Q.
Proof.
  intros rps_results periods.
  assert (H : exists p, In p periods /\ percentile_of rps_results "a" p <> None).
  { exists 5. split; [now left|discriminate]. }
  split; [exact H|].
  exact (proj1 (composite_is_weighted_average rps_results periods "a") H).
Defined.

(** ** Rotation analysis *)

Lemma Qltb_asym (a b : Q) : Qltb a b = true -> Qltb b a = false.
Proof.
  rewrite Qltb_lt, Qltb_ge. apply Qlt_le_weak.
Qed.

Lemma Qltb_ge_trans (a b c : Q) :
  Qltb a b = false -> Qltb b c = false -> Qltb a c = false.
Proof.
  rewrite !Qltb_ge. intros H1 H2. now apply (Qle_trans c b a).
Qed.

Lemma StronglySorted_app_inv {A : Type} (R : A -> A -> Prop) (l1 l2 : list A) :
  StronglySorted R (l1 ++ l2) ->
  StronglySorted R l1 /\ StronglySorted R l2
  /\ forall a b, In a l1 -> In b l2 -> R a b.
Proof.
  induction l1 as [|x l1 IH]; simpl; intros H.
  - repeat split; [constructor|exact H|intros a b []].
  - inversion H as [|? ? Hs Hall]; subst.
    destruct (IH Hs) as (H1 & H2 & H3).
    apply Forall_app in Hall. destruct Hall as [Hall1 Hall2].
    repeat split.
    + now constructor.
    + exact H2.
    + intros a b [<-|Ha] Hb.
      * rewrite Forall_forall in Hall2. now apply Hall2.
      * now apply H3.
Qed.

Lemma StronglySorted_weaken {A : Type} (R R' : A -> A -> Prop) (l : list A) :
  (forall a b, R a b -> R' a b) -> StronglySorted R l -> StronglySorted R' l.
Proof.
  intros HR. induction 1 as [|x l Hs IH Hall]; constructor; [exact IH|].
  eapply Forall_impl; [|exact Hall]. intros b. apply HR.
Qed.

Lemma sorted_by_momentum (l : list rotation_item) :
  descending_momentum (sorted_reverse momentum Qltb l).
Proof.
  unfold descending_momentum.
  eapply StronglySorted_weaken.
  2: { apply (sorted_reverse_sorted momentum Qltb (fun _ => True)).
       - intros a b _ _. apply Qltb_asym.
       - intros a b c _ _ _. apply Qltb_ge_trans.
       - apply Forall_forall. intros; exact I. }
  intros a b H. unfold not_lt in H. now apply Qltb_ge.
Qed.

Lemma industries_of_opportunities (short long : dict Q) :
  map industry (rotation_opportunities short long) = common_entities short long.
Proof.
  unfold rotation_opportunities, common_entities, dict_mem.
  induction short as [|[c s] short IH]; [reflexivity|].
  cbn [flat_map keys map filter fst]. rewrite map_app. fold (keys short). rewrite IH.
  now destruct (dict_get c long).
Qed.

Lemma opportunities_length (short long : dict Q) :
  length (rotation_opportunities short long)
  = length (common_entities short long).
Proof. now rewrite <- industries_of_opportunities, length_map. Qed.

(** C3 (as the code has it).  With [K = min 5 n] for [n] compared entities:
    the heating list holds [K] entities of largest momentum, in descending
    momentum order; the cooling list holds [K] entities of smallest
    momentum, and it too is in descending momentum order, so its most
    negative entry comes last. *)
Theorem rotation_lists_descending (short long : dict Q) :
  let opportunities := rotation_opportunities short long in
  let r := analyze_rotation short long in
  let K := Nat.min 5 (length opportunities) in
  (exists rest,
      Permutation opportunities (hot_industries r ++ rest)
      /\ length (hot_industries r) = K
      /\ descending_momentum (hot_industries r)
      /\ forall a b, In a (hot_industries r) -> In b rest ->
                     (momentum b <= momentum a)%Q)
  /\ (exists rest,
         Permutation opportunities (rest ++ cold_industries r)
         /\ length (cold_industries r) = K
         /\ descending_momentum (cold_industries r)
         /\ forall a b, In a rest -> In b (cold_industries r) ->
                        (momentum b <= momentum a)%Q).
Proof.
  cbn zeta. unfold analyze_rotation. cbn [hot_industries cold_industries].
  set (sorted := sorted_reverse momentum Qltb (rotation_opportunities short long)).
  assert (Hperm : Permutation (rotation_opportunities short long) sorted)
    by apply Permutation_sym, sorted_reverse_perm.
  assert (Hlen : length sorted = length (rotation_opportunities short long))
    by apply sorted_reverse_length.
  assert (Hs : descending_momentum sorted) by apply sorted_by_momentum.
  split.
  - exists (skipn 5 sorted).
    rewrite firstn_skipn. split; [exact Hperm|].
    split; [rewrite length_firstn; lia|].
    rewrite <- (firstn_skipn 5 sorted) in Hs.
    apply StronglySorted_app_inv in Hs. destruct Hs as (H1 & _ & H3).
    split; [exact H1|]. intros a b Ha Hb. now apply H3.
  - unfold slice_last. exists (firstn (length sorted - 5) sorted).
    rewrite firstn_skipn. split; [exact Hperm|].
    split; [rewrite length_skipn; lia|].
    rewrite <- (firstn_skipn (length sorted - 5) sorted) in Hs.
    apply StronglySorted_app_inv in Hs. destruct Hs as (_ & H2 & H3).
    split; [exact H2|]. intros a b Ha Hb. now apply H3.
Qed.

(** C3 (counterexample).  Two entities with momenta 50 and -50: the cooling
    list is [a (50); b (-50)], which is not in ascending momentum order. *)
Lemma cooling_list_not_ascending :
  ~ ascending_momentum
      (cold_industries
         (analyze_rotation [("a", 100%Q); ("b", 50%Q)]
                           [("b", 100%Q); ("a", 50%Q)])).
Proof.
  unfold ascending_momentum. intros H.
  inversion H as [|x l _ Hall]; subst.
  inversion Hall as [|y l' Hle _]; subst.
  revert Hle. unfold Qle. simpl. lia.
Qed.

(** C10.  When between one and nine entities are present in both percentile
    maps, some entity is in both the heating and the cooling list. *)
Theorem hot_and_cold_overlap (short long : dict Q) :
  1 <= length (common_entities short long) <= 9 ->
  let r := analyze_rotation short long in
  exists item, In item (hot_industries r) /\ In item (cold_industries r).
Proof.
  intros Hn. cbn zeta. unfold analyze_rotation.
  cbn [hot_industries cold_industries].
  rewrite <- opportunities_length in Hn.
  set (sorted := sorted_reverse momentum Qltb (rotation_opportunities short long)).
  assert (Hlen : length sorted = length (rotation_opportunities short long))
    by apply sorted_reverse_length.
  destruct (nth_error sorted (length sorted - 5)) as [item|] eqn:E.
  2: { apply nth_error_None in E. lia. }
  exists item. split.
  - apply (nth_error_In _ (length sorted - 5)).
    rewrite nth_error_firstn.
    destruct (Nat.ltb_spec (length sorted - 5) 5); [exact E|lia].
  - unfold slice_last. apply (nth_error_In _ 0).
    rewrite nth_error_skipn. now rewrite Nat.add_0_r.
Qed.

Lemma hot_and_cold_overlap_witness :
  let short := [("a", 100%Q); ("b", 50%Q)] in
  let long := [("b", 100%Q); ("a", 50%Q)] in
  1 <= length (common_entities short long) <= 9
  /\ exists item, In item (hot_industries (analyze_rotation short long))
                  /\ In item (cold_industries (analyze_rotation short long)).
Proof.
  intros short long.
  assert (H : 1 <= length (common_entities short long) <= 9).
  { simpl. lia. }
  split; [exact H|]. exact (hot_and_cold_overlap short long H).
Defined.

(** ** Cache keys *)

Lemma uint_dash_free (d : Decimal.uint) :
  dash_free (DecimalString.NilEmpty.string_of_uint d) = true.
Proof. induction d; simpl; auto. Qed.

Lemma str_dash_free (n : nat) : dash_free (str n) = true.
Proof. apply uint_dash_free. Qed.

Lemma str_inj (n m : nat) : str n = str m -> n = m.
Proof.
  unfold str. intros H. apply DecimalNat.Unsigned.to_uint_inj.
  assert (E : Some (Nat.to_uint n) = Some (Nat.to_uint m)).
  { rewrite <- !DecimalString.NilEmpty.usu. now rewrite H. }
  now injection E.
Qed.

Lemma str_nonempty (n : nat) : str n <> "".
Proof.
  unfold str. intros H.
  assert (E : Nat.to_uint n = Decimal.Nil).
  { destruct (Nat.to_uint n); simpl in H; try discriminate. reflexivity. }
  assert (E0 : n = 0).
  { rewrite <- (DecimalNat.Unsigned.of_to n), E. reflexivity. }
  subst n. discriminate.
Qed.

Lemma append_dash_tail_inj (p q a b : string) :
  dash_free p = true -> dash_free q = true ->
  dash_tail a -> dash_tail b ->
  (p ++ a = q ++ b)%string -> p = q /\ a = b.
Proof.
  revert q. induction p as [|c p IH]; intros [|c' q] Hp Hq Ha Hb; simpl.
  - auto.
  - intros E. exfalso. simpl in Hq. apply andb_prop in Hq. destruct Hq as [Hc _].
    destruct Ha as [->|[a' ->]]; [discriminate|].
    injection E as <- _. discriminate.
  - intros E. exfalso. simpl in Hp. apply andb_prop in Hp. destruct Hp as [Hc _].
    destruct Hb as [->|[b' ->]]; [discriminate|].
    injection E as -> _. discriminate.
  - intros E. injection E as -> E.
    simpl in Hp, Hq. apply andb_prop in Hp, Hq.
    destruct Hp as [_ Hp]. destruct Hq as [_ Hq].
    destruct (IH q Hp Hq Ha Hb E) as [-> ->]. auto.
Qed.

Lemma join_cons (p : string) (rest : list string) :
  join "-" (p :: rest)
  = (p ++ match rest with
          | [] => ""
          | _ => "-" ++ join "-" rest
          end)%string.
Proof.
  destruct rest; simpl; [|reflexivity].
  induction p; simpl; [reflexivity|]. now f_equal.
Qed.

Lemma join_str_inj (ps ps' : list nat) :
  join "-" (map str ps) = join "-" (map str ps') -> ps = ps'.
Proof.
  revert ps'. induction ps as [|p ps IH]; intros [|p' ps'].
  - reflexivity.
  - cbn [map]. rewrite join_cons. intros H. exfalso.
    apply (str_nonempty p'). destruct (str p'); [reflexivity|discriminate].
  - cbn [map]. rewrite join_cons. intros H. exfalso.
    apply (str_nonempty p). destruct (str p); [reflexivity|discriminate].
  - cbn [map]. rewrite !join_cons. intros H.
    apply append_dash_tail_inj in H; try apply str_dash_free.
    + destruct H as [Hp Ht]. apply str_inj in Hp. subst p'. f_equal.
      apply IH.
      destruct ps as [|x xs]; destruct ps' as [|y ys];
        try reflexivity; cbn [map append] in *; try discriminate.
      injection Ht as Ht'. exact Ht'.
    + destruct (map str ps); [now left|right; eexists; reflexivity].
    + destruct (map str ps'); [now left|right; eexists; reflexivity].
Qed.

Lemma cache_key_inj (periods periods' : list nat) :
  cache_key periods = cache_key periods' -> periods = periods'.
Proof.
  unfold cache_key. intros H. apply join_str_inj.
  simpl in H. now injection H.
Qed.

(** C7 (as the code has it).  The key is the text ["industry_rps_"]
    followed by the periods in the caller's order joined by ["-"]; two
    period lists get the same key exactly when they are the same
    sequence. *)
Theorem cache_key_injective (periods periods' : list nat) :
  cache_key periods = cache_key periods' <-> periods = periods'.
Proof.
  split; [apply cache_key_inj|now intros ->].
Qed.

(** C7 (counterexample).  [5, 10] and [10, 5] are permutations of each
    other and get different keys. *)
Lemma cache_key_depends_on_order :
  Permutation [5; 10] [10; 5] /\ cache_key [5; 10] <> cache_key [10; 5].
Proof.
  split; [apply perm_swap|discriminate].
Qed.

(** ** Cache validity *)

(** [total_seconds] of a difference is the whole elapsed time. *)
Lemma total_seconds_sub (a b : datetime) :
  (total_seconds (datetime_sub a b) == Qmake (a - b) 1000000)%Q.
Proof.
  unfold total_seconds, datetime_sub, us_per_day, us_per_second.
  cbn [days seconds microseconds].
  set (d := (a - b)%Z).
  assert (H1 : (d = 86400000000 * (d / 86400000000) + d mod 86400000000)%Z)
    by (apply Z.div_mod; lia).
  assert (H2 : (d mod 86400000000
               = 1000000 * (d mod 86400000000 / 1000000)
                 + (d mod 86400000000) mod 1000000)%Z)
    by (apply Z.div_mod; lia).
  assert (H3 : ((d mod 86400000000) mod 1000000 = d mod 1000000)%Z).
  { change 86400000000%Z with (1000000 * 86400)%Z.
    rewrite Z.rem_mul_r by lia.
    rewrite (Z.mul_comm 1000000 ((d / 1000000) mod 86400)), Z.mod_add by lia.
    apply Z.mod_mod. lia. }
  change (86400 * 1000000)%Z with 86400000000%Z.
  unfold Qeq, Qplus, inject_Z. cbn [Qnum Qden]. lia.
Qed.

(** What the validity test computes: the [seconds] field of the elapsed
    time, which wraps around every day. *)
Lemma is_cache_valid_iff (self : analyzer) (key : string) (now : datetime) :
  _is_cache_valid self key now = true
  <-> exists payload created,
        dict_get key (rps_cache self) = Some payload
        /\ dict_get key (last_update self) = Some created
        /\ (((now - created) mod us_per_day) / us_per_second
            < cache_timeout self)%Z.
Proof.
  unfold _is_cache_valid.
  destruct (dict_get key (rps_cache self)) as [payload|].
  - destruct (dict_get key (last_update self)) as [created|].
    + cbn [datetime_sub seconds]. rewrite Z.ltb_lt. split.
      * intros H. now exists payload, created.
      * intros (p & c & _ & E & H). now injection E as <-.
    + split; [discriminate|]. intros (p & c & _ & E & _). discriminate.
  - split; [discriminate|]. intros (p & c & E & _). discriminate.
Qed.

(** X21.  Within the first day after an entry was stored, the validity test
    is the elapsed-time test: the entry is valid exactly when fewer than
    [cache_timeout] seconds have elapsed in total. *)
Lemma is_cache_valid_first_day (self : analyzer) (key : string)
  (now created : datetime) (payload : dict value) :
  dict_get key (rps_cache self) = Some payload ->
  dict_get key (last_update self) = Some created ->
  (0 <= now - created < us_per_day)%Z ->
  (0 <= cache_timeout self)%Z ->
  _is_cache_valid self key now = true
  <-> (total_seconds (datetime_sub now created)
       < inject_Z (cache_timeout self))%Q.
Proof.
  intros Hp Hc Hd Ht. rewrite is_cache_valid_iff, total_seconds_sub.
  assert (E : (((now - created) mod us_per_day) / us_per_second
               < cache_timeout self)%Z
              <-> (Qmake (now - created) 1000000
                   < inject_Z (cache_timeout self))%Q).
  { rewrite Z.mod_small by exact Hd.
    unfold us_per_second, Qlt, inject_Z. cbn [Qnum Qden].
    split; intros H.
    - pose proof (Z.div_mod (now - created) 1000000) as Hdm.
      pose proof (Z.mod_pos_bound (now - created) 1000000) as Hmb. lia.
    - apply Z.div_lt_upper_bound; lia. }
  split.
  - intros (p & c & _ & Ec & H). rewrite Hc in Ec. injection Ec as <-.
    now apply E.
  - intros H. exists payload, created. repeat split; try assumption.
    now apply E.
Qed.

(** C4 (evaluation at a stale entry).  An entry created at time 0 and looked
    up 86410 seconds later, one day and ten seconds, has been in the cache
    for more than the 3600 seconds allowed; the [seconds] field of the
    elapsed time is 10, and the test answers that the entry is valid. *)
Theorem day_old_entry_is_valid :
  let key := cache_key [5; 10; 20; 60] in
  let self := {| rps_cache := [(key, [])]; last_update := [(key, 0%Z)];
                 cache_timeout := cache_timeout init |} in
  let now := (86410 * 1000000)%Z in
  (total_seconds (datetime_sub now 0%Z) == 86410)%Q
  /\ seconds (datetime_sub now 0%Z) = 10%Z
  /\ cache_timeout self = 3600%Z
  /\ _is_cache_valid self key now = true.
Proof. repeat split. Qed.

(** ** Sort order and ties *)

Lemma Qltb_same (v a b : Q) :
  Qltb a b = true -> Qeq_bool v a = true -> Qeq_bool v b = false.
Proof.
  intros Hlt Ha. destruct (Qeq_bool v b) eqn:Hb; [|reflexivity].
  apply Qltb_lt in Hlt. apply Qeq_bool_iff in Ha, Hb.
  exfalso. apply (Qlt_not_eq a b Hlt). now rewrite <- Ha.
Qed.

Lemma F64_ltb_asym (a b : float64) :
  a <> NaN -> b <> NaN -> F64.ltb a b = true -> F64.ltb b a = false.
Proof.
  destruct a, b; simpl; intros _ _; try reflexivity; try discriminate.
  apply Qltb_asym.
Qed.

Lemma F64_ge_trans (a b c : float64) :
  a <> NaN -> b <> NaN -> c <> NaN ->
  F64.ltb a b = false -> F64.ltb b c = false -> F64.ltb a c = false.
Proof.
  destruct a, b, c; simpl; intros Ha Hb Hc; try reflexivity;
    try discriminate; try contradiction.
  apply Qltb_ge_trans.
Qed.

Lemma F64_ltb_same (v a b : float64) :
  F64.ltb a b = true -> F64.same v a = true -> F64.same v b = false.
Proof.
  destruct v, a, b; simpl; try reflexivity; try discriminate.
  apply Qltb_same.
Qed.

Lemma sorted_reverse_map {A B K : Type} (g : B -> A) (key : A -> K)
  (key' : B -> K) (lt : K -> K -> bool) (l : list B) :
  (forall x, key (g x) = key' x) ->
  sorted_reverse key lt (map g l) = map g (sorted_reverse key' lt l).
Proof.
  intros Hk. induction l as [|x l IH]; [reflexivity|].
  cbn [map sorted_reverse]. rewrite IH.
  generalize (sorted_reverse key' lt l). intros s.
  induction s as [|y s IHs]; [reflexivity|].
  cbn [map insert_desc]. rewrite !Hk.
  destruct (lt (key' x) (key' y)); cbn [map]; [now rewrite IHs|reflexivity].
Qed.

Lemma slice_to_map {A B : Type} (g : A -> B) (l : list A) (n : Z) :
  slice_to (map g l) n = map g (slice_to l n).
Proof.
  unfold slice_to. rewrite length_map.
  destruct (n <? 0)%Z; now rewrite firstn_map.
Qed.

(** A stable descending sort of a dictionary by its values. *)
Lemma sorted_reverse_stable_descending {V : Type} (ltb same : V -> V -> bool)
  (ok : V -> Prop) (d : dict V) :
  (forall a b, ok a -> ok b -> ltb a b = true -> ltb b a = false) ->
  (forall a b c, ok a -> ok b -> ok c ->
                 ltb a b = false -> ltb b c = false -> ltb a c = false) ->
  (forall v a b, ltb a b = true -> same v a = true -> same v b = false) ->
  Forall (fun e => ok (snd e)) d ->
  stable_descending ltb same d (sorted_reverse snd ltb d).
Proof.
  intros Hasym Htrans Hsame Hok. repeat split.
  - apply Permutation_sym, sorted_reverse_perm.
  - apply (sorted_reverse_sorted snd ltb ok Hasym Htrans d Hok).
  - intros v.
    apply (sorted_reverse_stable snd ltb (fun v e => same v (snd e))).
    intros v0 a b. apply Hsame.
Qed.

Lemma scores_stable_descending (rps_data : dict Q) :
  stable_descending Qltb Qeq_bool rps_data (sorted_reverse snd Qltb rps_data).
Proof.
  apply (sorted_reverse_stable_descending Qltb Qeq_bool (fun _ => True)).
  - intros a b _ _. apply Qltb_asym.
  - intros a b c _ _ _. apply Qltb_ge_trans.
  - intros v a b. apply Qltb_same.
  - apply Forall_forall. intros; exact I.
Qed.

Lemma returns_stable_descending (period_returns : dict float64) :
  Forall (fun e => snd e <> NaN) period_returns ->
  stable_descending F64.ltb F64.same period_returns
                    (sorted_reverse snd F64.ltb period_returns).
Proof.
  apply (sorted_reverse_stable_descending F64.ltb F64.same (fun x => x <> NaN)).
  - apply F64_ltb_asym.
  - apply F64_ge_trans.
  - apply F64_ltb_same.
Qed.

Lemma ranking_entries (rps_data : dict Q) (top_n : Z) :
  map entry_of (get_rps_ranking rps_data top_n)
  = slice_to (sorted_reverse snd Qltb rps_data) top_n.
Proof.
  unfold get_rps_ranking, try_except.
  rewrite (sorted_reverse_map _ item_score snd) by now intros [c s].
  rewrite slice_to_map.
  generalize (slice_to (sorted_reverse snd Qltb rps_data) top_n). intros l.
  rewrite map_map. unfold enumerate.
  rewrite (map_ext _ (fun p => entry_of (snd p))) by now intros [i item].
  rewrite <- (map_map snd entry_of).
  rewrite map_snd_combine by now rewrite length_seq, length_map.
  rewrite map_map. rewrite <- (map_id l) at 2.
  apply map_ext. now intros [c s].
Qed.

Lemma ranking_ranks (rps_data : dict Q) (top_n : Z) :
  map rank (get_rps_ranking rps_data top_n)
  = seq 1 (length (get_rps_ranking rps_data top_n)).
Proof.
  unfold get_rps_ranking, try_except.
  set (l := slice_to _ top_n). clearbody l.
  rewrite length_map, map_map. unfold enumerate.
  rewrite length_combine, length_seq, Nat.min_id.
  rewrite (map_ext _ (fun p => S (fst p))).
  2: { intros [i item]. simpl. lia. }
  rewrite <- (map_map fst S).
  rewrite map_fst_combine by now rewrite length_seq.
  now rewrite seq_shift.
Qed.

(** C5 (as the code has it).  For values that are numbers, that is finite
    scores and returns other than [nan]: the ranking service lists the
    entries of the score map in descending score order, entries with equal
    scores in the insertion order of the map, numbered from 1, and cut to
    [top_n]; the percentile ranker (for distinct identifiers) hands out the
    percentiles of ranks [0..N-1] along the return map put in descending
    order, equal returns in insertion order.  Ties are broken by insertion
    order, not by identifier.  A map holding [nan] is excluded: [<] does
    not order [nan], and the sort is then only known to permute. *)
Theorem ties_keep_insertion_order (rps_data : dict Q) (top_n : Z)
  (period_returns : dict float64) :
  NoDup (keys period_returns) ->
  Forall (fun e => snd e <> NaN) period_returns ->
  (exists sorted,
      stable_descending Qltb Qeq_bool rps_data sorted
      /\ map entry_of (get_rps_ranking rps_data top_n) = slice_to sorted top_n
      /\ map rank (get_rps_ranking rps_data top_n)
         = seq 1 (length (get_rps_ranking rps_data top_n)))
  /\ (exists sorted,
         stable_descending F64.ltb F64.same period_returns sorted
         /\ rank_returns period_returns
            = combine (keys sorted)
                      (map (rps_score (length period_returns))
                           (seq 0 (length period_returns)))).
Proof.
  intros Hnd Hnan. split.
  - exists (sorted_reverse snd Qltb rps_data). split; [|split].
    + apply scores_stable_descending.
    + apply ranking_entries.
    + apply ranking_ranks.
  - exists (sorted_reverse snd F64.ltb period_returns). split.
    + now apply returns_stable_descending.
    + now apply rank_returns_eq.
Qed.

Lemma ties_keep_insertion_order_witness :
  let rps_data := [("b", 1%Q); ("a", 1%Q); ("c", 5%Q)] in
  let period_returns := [("b", Fin 1); ("a", Fin 1)] in
  NoDup (keys period_returns)
  /\ Forall (fun e => snd e <> NaN) period_returns
  /\ exists sorted,
       stable_descending F64.ltb F64.same period_returns sorted
       /\ rank_returns period_returns
          = combine (keys sorted)
                    (map (rps_score (length period_returns))
                         (seq 0 (length period_returns))).
Proof.
  intros rps_data period_returns.
  assert (Hnd : NoDup (keys period_returns)).
  { repeat constructor; simpl; intuition discriminate. }
  assert (Hnan : Forall (fun e => snd e <> NaN) period_returns).
  { repeat constructor; discriminate. }
  split; [exact Hnd|]. split; [exact Hnan|].
  exact (proj2 (ties_keep_insertion_order rps_data 50 period_returns Hnd Hnan)).
Defined.

(** C5 (counterexample).  Two score maps with the same entries, inserted in
    different orders, are ranked differently, and so are two return maps:
    with ["b"] inserted first, ["b"] is ranked above ["a"]. *)
Lemma ranking_depends_on_insertion_order :
  Permutation [("a", 1%Q); ("b", 1%Q)] [("b", 1%Q); ("a", 1%Q)]
  /\ map code (get_rps_ranking [("a", 1%Q); ("b", 1%Q)] 50)
     <> map code (get_rps_ranking [("b", 1%Q); ("a", 1%Q)] 50)
  /\ map code (get_rps_ranking [("b", 1%Q); ("a", 1%Q)] 50) = ["b"; "a"]
  /\ Permutation [("a", Fin 1); ("b", Fin 1)] [("b", Fin 1); ("a", Fin 1)]
  /\ rank_returns [("a", Fin 1); ("b", Fin 1)]
     <> rank_returns [("b", Fin 1); ("a", Fin 1)]
  /\ rank_returns [("b", Fin 1); ("a", Fin 1)]
     = [("b", rps_score 2 0); ("a", rps_score 2 1)].
Proof.
  split; [apply perm_swap|].
  split; [discriminate|].
  split; [reflexivity|].
  split; [apply perm_swap|].
  split; [discriminate|reflexivity].
Qed.

(** ** The entry points *)

Lemma keys_dict_set_incl {V : Type} (k k' : string) (v : V) (d : dict V) :
  In k (keys d) -> In k (keys (dict_set k' v d)).
Proof.
  intros H. rewrite keys_dict_set. destruct (dict_mem k' d); [exact H|].
  apply in_or_app. now left.
Qed.

Lemma keys_dict_set_new {V : Type} (k : string) (v : V) (d : dict V) :
  In k (keys (dict_set k v d)).
Proof.
  apply dict_mem_In. unfold dict_mem. now rewrite dict_get_set_same.
Qed.

Lemma dict_get_lift_scores (k : string) (results : dict (dict Q)) :
  dict_get k (lift_scores results) = option_map Scores (dict_get k results).
Proof.
  induction results as [|[k' d] results IH]; [reflexivity|].
  simpl. now destruct (String.eqb k k').
Qed.

Lemma period_key_not_literal (p : nat) :
  period_key p <> "composite_rps" /\ period_key p <> "strength_level"
  /\ period_key p <> "rotation_analysis".
Proof. unfold period_key. repeat split; discriminate. Qed.

Lemma period_results_get (rps : dict DataFrame -> nat -> dict Q)
  (data : dict DataFrame) (periods : list nat) (p : nat) :
  In p periods ->
  exists d, dict_get (period_key p) (period_results rps data periods) = Some d.
Proof.
  unfold period_results. intros Hin.
  assert (H : forall l acc,
             In p l \/ dict_get (period_key p) acc <> None ->
             dict_get (period_key p)
               (fold_left
                  (fun results period =>
                     dict_set (period_key period) (rps data period) results)
                  l acc) <> None).
  { induction l as [|q l IH]; intros acc.
    - intros [[]|H]. exact H.
    - intros H. cbn [fold_left]. apply IH.
      destruct H as [[->|H]|H]; [right|now left|right].
      + now rewrite dict_get_set_same.
      + destruct (string_dec (period_key p) (period_key q)) as [->|Hne].
        * now rewrite dict_get_set_same.
        * now rewrite dict_get_set_other. }
  specialize (H periods [] (or_introl Hin)).
  destruct (dict_get (period_key p) _) as [d|]; [eauto|contradiction].
Qed.

(** The part of a result both entry points build the same way. *)
Lemma scores_part_ok (rps : dict DataFrame -> nat -> dict Q)
  (data : dict DataFrame) (periods : list nat) (composite_rps : dict Q) :
  has_period_scores periods
    (dict_set "composite_rps" (Scores composite_rps)
              (lift_scores (period_results rps data periods))).
Proof.
  split.
  - intros p Hp. destruct (period_results_get rps data periods p Hp) as [d Hd].
    exists d. rewrite dict_get_set_other by apply period_key_not_literal.
    now rewrite dict_get_lift_scores, Hd.
  - exists composite_rps. apply dict_get_set_same.
Qed.

Lemma has_period_scores_set (periods : list nat) (k : string) (v : value)
  (r : dict value) :
  k <> "composite_rps" -> (forall p, period_key p <> k) ->
  has_period_scores periods r -> has_period_scores periods (dict_set k v r).
Proof.
  intros Hk Hp [H1 [d H2]]. split.
  - intros p Hin. destruct (H1 p Hin) as [d' Hd'].
    exists d'. now rewrite dict_get_set_other by apply Hp.
  - exists d. rewrite dict_get_set_other; [exact H2|]. congruence.
Qed.

Section EntryPointFacts.
Variable stock_zh_a_hist : string -> nat -> result DataFrame.
Variable index_zh_a_hist : string -> nat -> result (option DataFrame).
Variable as_completed :
  list (string * option DataFrame) -> list (string * option DataFrame).
Hypothesis as_completed_perm : forall l, Permutation (as_completed l) l.

Lemma get_single_stock_data_eq (days : nat) (code : string) :
  get_single_stock_data stock_zh_a_hist days code
  = (code, match stock_zh_a_hist (clean_code code) days with
           | Ok ((_ :: _) as df) => Some df
           | _ => None
           end).
Proof.
  unfold get_single_stock_data.
  destruct (stock_zh_a_hist (clean_code code) days) as [[|x df]|e]; reflexivity.
Qed.

Lemma collect_keys (l : list (string * option DataFrame))
  (acc : dict DataFrame) (c : string) :
  In c (keys (fold_left
                (fun stock_data '(code, data) =>
                   match data with
                   | Some df => dict_set code df stock_data
                   | None => stock_data
                   end) l acc))
  <-> In c (keys acc) \/ exists df, In (c, Some df) l.
Proof.
  revert acc. induction l as [|[k [df|]] l IH]; intros acc; cbn [fold_left].
  - split; [now left|]. intros [H|[df []]]. exact H.
  - rewrite IH. split.
    + intros [H|[df' H]]; [|right; exists df'; now right].
      rewrite keys_dict_set in H. destruct (dict_mem k acc); [now left|].
      apply in_app_or in H. destruct H as [H|[<-|[]]]; [now left|].
      right. exists df. now left.
    + intros [H|[df' [E|H]]].
      * left. now apply keys_dict_set_incl.
      * injection E as -> _. left. apply keys_dict_set_new.
      * right. now exists df'.
  - rewrite IH. split.
    + intros [H|[df' H]]; [now left|]. right. exists df'. now right.
    + intros [H|[df' [E|H]]]; [now left|discriminate|]. right. now exists df'.
Qed.

(** The fetched map holds exactly the submitted identifiers whose own
    fetch gave a non-empty frame; the other fetches play no part. *)
Lemma get_stocks_data_keys (stock_codes : list string) (days : nat)
  (c : string) :
  In c (keys (_get_stocks_data stock_zh_a_hist as_completed stock_codes days))
  <-> In c (firstn 100 stock_codes)
      /\ exists x df, stock_zh_a_hist (clean_code c) days = Ok (x :: df).
Proof.
  unfold _get_stocks_data. rewrite collect_keys. split.
  - intros [[]|[df H]].
    apply (Permutation_in _ (as_completed_perm _)) in H.
    apply in_map_iff in H. destruct H as (c' & E & Hin).
    rewrite get_single_stock_data_eq in E. injection E as -> E.
    split; [exact Hin|].
    destruct (stock_zh_a_hist (clean_code c) days) as [[|x df']|e];
      try discriminate. eauto.
  - intros (Hin & x & df & E). right. exists (x :: df).
    apply (Permutation_in _ (Permutation_sym (as_completed_perm _))).
    apply in_map_iff. exists c. split; [|exact Hin].
    now rewrite get_single_stock_data_eq, E.
Qed.

Lemma calculate_stock_rps_ok (stock_codes : list string) (periods : list nat) :
  stock_result_ok periods
    (calculate_stock_rps stock_zh_a_hist as_completed stock_codes periods).
Proof.
  unfold calculate_stock_rps.
  destruct (py_max periods) as [longest|e]; [|now left].
  cbn [bind try_except].
  destruct (_get_stocks_data stock_zh_a_hist as_completed stock_codes
                             (longest + 10)) as [|e stock_data]; [now left|].
  right. split.
  - apply has_period_scores_set; [discriminate| |apply scores_part_ok].
    intros p. apply period_key_not_literal.
  - eexists. apply dict_get_set_same.
Qed.

Lemma dict_set_not_nil {V : Type} (k : string) (v : V) (d : dict V) :
  dict_set k v d <> [].
Proof.
  destruct d as [|[k' v'] d]; simpl; [discriminate|].
  destruct (String.eqb k k'); discriminate.
Qed.

(** One identifier with data is enough for a full result, whatever the
    other identifiers do. *)
Lemma calculate_stock_rps_not_empty (stock_codes : list string)
  (periods : list nat) (longest : nat) (c : string) (x : float64)
  (df : DataFrame) :
  py_max periods = Ok longest ->
  In c (firstn 100 stock_codes) ->
  stock_zh_a_hist (clean_code c) (longest + 10) = Ok (x :: df) ->
  calculate_stock_rps stock_zh_a_hist as_completed stock_codes periods <> [].
Proof.
  intros Hmax Hin Hfetch. unfold calculate_stock_rps. rewrite Hmax.
  cbn [bind try_except].
  assert (Hk : In c (keys (_get_stocks_data stock_zh_a_hist as_completed
                                            stock_codes (longest + 10)))).
  { apply get_stocks_data_keys. eauto. }
  destruct (_get_stocks_data stock_zh_a_hist as_completed stock_codes
                             (longest + 10)) as [|e stock_data]; [destruct Hk|].
  apply dict_set_not_nil.
Qed.

(** The industry map holds exactly the registry codes whose own fetch gave
    a non-empty frame. *)
Lemma get_industry_data_keys (days : nat) (c : string) :
  In c (keys (_get_industry_data index_zh_a_hist days))
  <-> In c industry_codes
      /\ exists x df, index_zh_a_hist c days = Ok (Some (x :: df)).
Proof.
  unfold _get_industry_data.
  assert (H : forall l acc,
             In c (keys (fold_left
                           (fun industry_data code =>
                              try_except
                                (df <- index_zh_a_hist code days ;;
                                 Ok (match df with
                                     | Some ((_ :: _) as df) =>
                                         dict_set code df industry_data
                                     | _ => industry_data
                                     end))
                                (fun _ => industry_data)) l acc))
             <-> In c (keys acc)
                 \/ (In c l
                     /\ exists x df, index_zh_a_hist c days = Ok (Some (x :: df)))).
  { induction l as [|k l IH]; intros acc; cbn [fold_left].
    - split; [now left|]. intros [H|[[] _]]. exact H.
    - rewrite IH. clear IH.
      destruct (index_zh_a_hist k days) as [[[|x df]|]|e] eqn:E;
        cbn [bind try_except].
      + split; [intros [H|[H1 H2]]; [now left|right; split; [now right|exact H2]]|].
        intros [H|[[<-|H1] (x & df & H2)]]; [now left|congruence|].
        right. split; [exact H1|eauto].
      + split.
        * intros [H|[H1 H2]]; [|right; split; [now right|exact H2]].
          rewrite keys_dict_set in H. destruct (dict_mem k acc); [now left|].
          apply in_app_or in H. destruct H as [H|[<-|[]]]; [now left|].
          right. split; [now left|eauto].
        * intros [H|[[<-|H1] H2]].
          -- left. now apply keys_dict_set_incl.
          -- left. apply keys_dict_set_new.
          -- right. now split.
      + split; [intros [H|[H1 H2]]; [now left|right; split; [now right|exact H2]]|].
        intros [H|[[<-|H1] (x & df & H2)]]; [now left|congruence|].
        right. split; [exact H1|eauto].
      + split; [intros [H|[H1 H2]]; [now left|right; split; [now right|exact H2]]|].
        intros [H|[[<-|H1] (x & df & H2)]]; [now left|congruence|].
        right. split; [exact H1|eauto]. }
  rewrite H. split; [intros [[]|H0]; exact H0|now right].
Qed.

Lemma calculate_industry_rps_ok (self : analyzer) (periods : list nat)
  (now_check now_store : datetime) :
  cache_ok self ->
  let r := calculate_industry_rps index_zh_a_hist self periods
                                  now_check now_store in
  industry_result_ok periods (fst r) /\ cache_ok (snd r).
Proof.
  intros Hok. cbn zeta. unfold calculate_industry_rps.
  destruct (_is_cache_valid self (cache_key periods) now_check) eqn:Ev.
  - apply is_cache_valid_iff in Ev. destruct Ev as (payload & created & Ep & _).
    unfold dict_index. rewrite Ep. cbn [bind try_except fst snd].
    split; [now apply Hok|exact Hok].
  - destruct (py_max periods) as [longest|e];
      [|cbn [bind try_except fst snd]; split; [now left|exact Hok]].
    cbn [bind try_except].
    destruct (_get_industry_data index_zh_a_hist (longest + 10))
      as [|e industry_data] eqn:Ed;
      [cbn [fst snd]; split; [now left|exact Hok]|].
    rewrite <- Ed. cbn [fst snd].
    set (results := dict_set "rotation_analysis" _ _).
    assert (Hres : industry_result_ok periods results).
    { right. split.
      - apply has_period_scores_set; [discriminate| |apply scores_part_ok].
        intros p. apply period_key_not_literal.
      - eexists. apply dict_get_set_same. }
    split; [exact Hres|].
    intros ps payload. cbn [try_except snd rps_cache].
    destruct (string_dec (cache_key ps) (cache_key periods)) as [E|Hne].
    + rewrite E, dict_get_set_same. intros H. injection H as <-.
      apply cache_key_inj in E. now subst ps.
    + rewrite dict_get_set_other by exact Hne. apply Hok.
Qed.

Lemma get_rps_ranking_ok (rps_data : dict Q) (top_n : Z) :
  ranking_ok (get_rps_ranking rps_data top_n).
Proof.
  split; [apply ranking_ranks|].
  unfold get_rps_ranking, try_except.
  apply Forall_forall. intros item Hin.
  apply in_map_iff in Hin. destruct Hin as ([i it] & <- & _). reflexivity.
Qed.
End EntryPointFacts.

Lemma cache_ok_init : cache_ok init.
Proof. intros periods payload H. discriminate. Qed.

(** ** Worked examples *)

(** Five entities with 5-day returns 0.10, 0.05, 0.02, -0.01, -0.05 get
    the percentiles 100, 80, 60, 40, 20, whose strength levels are
    极强, 强势, 较强, 中等 and 较弱. *)
Example five_entities :
  let period_returns :=
    [("e1", Fin (10 # 100)); ("e2", Fin (5 # 100)); ("e3", Fin (2 # 100));
     ("e4", Fin (-1 # 100)); ("e5", Fin (-5 # 100))] in
  map (fun '(c, s) => (c, Qred s)) (rank_returns period_returns)
  = [("e1", 100%Q); ("e2", 80%Q); ("e3", 60%Q); ("e4", 40%Q); ("e5", 20%Q)]
  /\ map (fun '(c, s) => (c, _get_single_strength_level s))
         (rank_returns period_returns)
     = [("e1", VeryStrong); ("e2", Strong); ("e3", FairlyStrong);
        ("e4", Medium); ("e5", FairlyWeak)].
Proof. split; reflexivity. Qed.

Example clean_code_suffix :
  clean_code "000001.SZ" = "000001" /\ clean_code "600000.SH" = "600000".
Proof. split; reflexivity. Qed.

Example default_cache_key : cache_key [5; 10; 20; 60] = "industry_rps_5-10-20-60".
Proof. reflexivity. Qed.

(** Ten identifiers of which two fail: the fetched map has eight entries. *)
Example two_failed_fetches :
  let hist :=
    fun (symbol : string) (_ : nat) =>
      if String.eqb symbol "3" || String.eqb symbol "7"
      then Raise ProviderError else Ok [Fin 1; Fin 2] in
  keys (_get_stocks_data hist (fun l => l)
          ["1"; "2"; "3"; "4"; "5"; "6"; "7"; "8"; "9"; "10"] 70)
  = ["1"; "2"; "4"; "5"; "6"; "8"; "9"; "10"].
Proof. reflexivity. Qed.

(** * Further properties of the analyzer *)

(** ** Percentiles *)

Lemma StronglySorted_nth {A : Type} (R : A -> A -> Prop) (l : list A)
  (i j : nat) (x y : A) :
  StronglySorted R l -> i < j ->
  nth_error l i = Some x -> nth_error l j = Some y -> R x y.
Proof.
  intros Hs. revert i j. induction Hs as [|a l Hs IH Hall]; intros i j Hij Hi Hj.
  - destruct i; discriminate.
  - destruct j as [|j]; [lia|]. destruct i as [|i]; simpl in Hi, Hj.
    + injection Hi as <-. rewrite Forall_forall in Hall.
      apply Hall. eapply nth_error_In; eassumption.
    + apply (IH i j); [lia|assumption..].
Qed.

Lemma rps_score_decreasing (N i j : nat) :
  i < j -> j <= N -> (rps_score N j < rps_score N i)%Q.
Proof.
  intros Hij HjN. unfold rps_score.
  destruct (Z.of_nat N) as [|p|p] eqn:EN; try lia.
  rewrite <- !Qmake_Qdiv.
  unfold Qlt, Qmult, inject_Z. cbn [Qnum Qden]. nia.
Qed.

(** The percentile a rank position receives. *)
Lemma rank_returns_nth (d : dict float64) (i : nat) (c : string) (r : float64) :
  NoDup (keys d) ->
  nth_error (sorted_reverse snd F64.ltb d) i = Some (c, r) ->
  dict_get c (rank_returns d) = Some (rps_score (length d) i).
Proof.
  intros Hnd Hi.
  assert (Hlt : i < length d).
  { rewrite <- (sorted_reverse_length snd F64.ltb d).
    apply nth_error_Some. congruence. }
  apply In_dict_get.
  - rewrite keys_rank_returns_sorted by assumption.
    eapply Permutation_NoDup; [|exact Hnd].
    apply Permutation_sym, keys_sorted_returns.
  - rewrite rank_returns_eq by assumption.
    apply (nth_error_In _ i). rewrite nth_error_combine.
    unfold keys. rewrite nth_error_map, Hi. cbn [option_map fst].
    rewrite nth_error_map, nth_error_seq.
    destruct (Nat.ltb_spec i (length d)); [reflexivity|lia].
Qed.

(** X1.  Every percentile [_calculate_period_rps] hands out is greater than
    0 and at most 100. *)
Theorem percentile_range (stock_data : dict DataFrame) (period : nat)
  (code : string) (v : Q) :
  dict_get code (_calculate_period_rps stock_data period) = Some v ->
  (0 < v /\ v <= 100)%Q.
Proof.
  unfold _calculate_period_rps. intros H.
  pose proof (period_returns_NoDup stock_data period) as Hnd.
  set (d := period_returns stock_data period) in *.
  rewrite rank_returns_eq in H by assumption.
  apply dict_get_In, In_nth_error in H. destruct H as [i Hi].
  rewrite nth_error_combine in Hi.
  destruct (nth_error (keys (sorted_reverse snd F64.ltb d)) i); [|discriminate].
  rewrite nth_error_map, nth_error_seq in Hi.
  destruct (Nat.ltb_spec i (length d)) as [Hlt|]; [|discriminate].
  simpl in Hi. injection Hi as _ <-. now apply rps_score_range.
Qed.

Lemma percentile_range_witness :
  dict_get "a" (_calculate_period_rps [("a", [Fin 10; Fin 11])] 1)
  = Some (rps_score 1 0)
  /\ (0 < rps_score 1 0 /\ rps_score 1 0 <= 100)%Q.
Proof.
  assert (H : dict_get "a" (_calculate_period_rps [("a", [Fin 10; Fin 11])] 1)
              = Some (rps_score 1 0)) by reflexivity.
  split; [exact H|].
  exact (percentile_range [("a", [Fin 10; Fin 11])] 1 "a" (rps_score 1 0) H).
Defined.

(** X2.  The ranker respects the order of the returns: in a return map with
    distinct identifiers and no [nan], an entity with a strictly greater
    return gets a strictly greater percentile. *)
Theorem greater_return_greater_percentile (period_returns : dict float64)
  (a b : string) (ra rb : float64) :
  NoDup (keys period_returns) ->
  Forall (fun e => snd e <> NaN) period_returns ->
  dict_get a period_returns = Some ra ->
  dict_get b period_returns = Some rb ->
  F64.ltb rb ra = true ->
  exists pa pb,
    dict_get a (rank_returns period_returns) = Some pa
    /\ dict_get b (rank_returns period_returns) = Some pb
    /\ (pb < pa)%Q.
Proof.
  intros Hnd Hnan Ha Hb Hlt.
  destruct (returns_stable_descending period_returns Hnan) as (Hperm & Hs & _).
  set (sorted := sorted_reverse snd F64.ltb period_returns) in *.
  assert (Hia : exists i, nth_error sorted i = Some (a, ra)).
  { apply In_nth_error. eapply Permutation_in; [exact Hperm|].
    now apply dict_get_In. }
  assert (Hjb : exists j, nth_error sorted j = Some (b, rb)).
  { apply In_nth_error. eapply Permutation_in; [exact Hperm|].
    now apply dict_get_In. }
  destruct Hia as [i Hi]. destruct Hjb as [j Hj].
  exists (rps_score (length period_returns) i),
         (rps_score (length period_returns) j).
  split; [now apply (rank_returns_nth _ i a ra)|].
  split; [now apply (rank_returns_nth _ j b rb)|].
  assert (Hjlen : j < length period_returns).
  { rewrite <- (sorted_reverse_length snd F64.ltb period_returns).
    apply nth_error_Some. fold sorted. congruence. }
  apply rps_score_decreasing; [|lia].
  destruct (Nat.lt_trichotomy i j) as [H|[H|H]]; [exact H| |].
  - subst j. rewrite Hi in Hj. injection Hj as _ <-.
    exfalso. clear - Hlt Hnan Ha.
    assert (Hra : ra <> NaN).
    { apply dict_get_In in Ha. rewrite Forall_forall in Hnan.
      apply (Hnan (a, ra) Ha). }
    rewrite (F64_ltb_asym ra ra Hra Hra Hlt) in Hlt. discriminate.
  - exfalso.
    pose proof (StronglySorted_nth _ sorted j i (b, rb) (a, ra) Hs H Hj Hi) as Hn.
    simpl in Hn. congruence.
Qed.

Lemma greater_return_greater_percentile_witness :
  let period_returns := [("a", Fin 1); ("b", Fin 2)] in
  NoDup (keys period_returns)
  /\ Forall (fun e => snd e <> NaN) period_returns
  /\ exists pa pb,
       dict_get "b" (rank_returns period_returns) = Some pa
       /\ dict_get "a" (rank_returns period_returns) = Some pb
       /\ (pb < pa)%Q.
Proof.
  intros period_returns.
  assert (Hnd : NoDup (keys period_returns)).
  { repeat constructor; simpl; intuition discriminate. }
  assert (Hnan : Forall (fun e => snd e <> NaN) period_returns).
  { repeat constructor; discriminate. }
  split; [exact Hnd|]. split; [exact Hnan|].
  apply (greater_return_greater_percentile period_returns "b" "a"
           (Fin 2) (Fin 1) Hnd Hnan); reflexivity.
Defined.

Lemma period_rps_keys (stock_data : dict DataFrame) (period : nat)
  (code : string) :
  NoDup (keys stock_data) ->
  In code (keys (_calculate_period_rps stock_data period))
  <-> exists df, dict_get code stock_data = Some df
                 /\ period + 1 <= length df.
Proof.
  intros Hnd. unfold _calculate_period_rps.
  rewrite keys_rank_returns by apply period_returns_NoDup.
  rewrite <- dict_mem_In. unfold dict_mem.
  rewrite period_returns_get by assumption.
  destruct (dict_get code stock_data) as [df|].
  - destruct (stored_return df period) as [r|] eqn:E.
    + split; [intros _|reflexivity]. exists df. split; [reflexivity|].
      apply stored_return_Some. eauto.
    + split; [discriminate|]. intros (df' & Hdf & Hlen).
      injection Hdf as <-. apply stored_return_Some in Hlen.
      destruct Hlen as [r Hr]. congruence.
  - split; [discriminate|]. intros (df & Hdf & _). discriminate.
Qed.

(** X3.  An entity ranked for a period is ranked for every shorter period
    too: the percentile map of a period holds every identifier of the maps
    of the longer periods. *)
Theorem ranked_for_shorter_periods (stock_data : dict DataFrame)
  (shorter longer : nat) (code : string) :
  NoDup (keys stock_data) ->
  shorter <= longer ->
  In code (keys (_calculate_period_rps stock_data longer)) ->
  In code (keys (_calculate_period_rps stock_data shorter)).
Proof.
  intros Hnd Hle Hin.
  apply period_rps_keys in Hin; [|assumption].
  destruct Hin as (df & Hdf & Hlen).
  apply period_rps_keys; [assumption|]. exists df. split; [exact Hdf|lia].
Qed.

Lemma ranked_for_shorter_periods_witness :
  let stock_data := [("a", [Fin 10; Fin 11; Fin 12]); ("b", [Fin 7])] in
  NoDup (keys stock_data)
  /\ 1 <= 2
  /\ In "a" (keys (_calculate_period_rps stock_data 2))
  /\ In "a" (keys (_calculate_period_rps stock_data 1)).
Proof.
  intros stock_data.
  assert (Hnd : NoDup (keys stock_data)).
  { repeat constructor; simpl; intuition discriminate. }
  assert (Hle : 1 <= 2) by lia.
  assert (Hin : In "a" (keys (_calculate_period_rps stock_data 2))).
  { simpl. now left. }
  split; [exact Hnd|]. split; [exact Hle|]. split; [exact Hin|].
  exact (ranked_for_shorter_periods stock_data 1 2 "a" Hnd Hle Hin).
Defined.

Lemma last_cons {A : Type} (l : list A) (x y : A) :
  last (y :: l) x = last l y.
Proof.
  revert x y. induction l as [|z l IH]; intros x y; [reflexivity|].
  change (last (y :: z :: l) x) with (last (z :: l) x).
  now rewrite (IH x z), (IH y z).
Qed.

Lemma nth_error_last {A : Type} (l : list A) (x : A) :
  nth_error (x :: l) (length l) = Some (last l x).
Proof.
  revert x. induction l as [|y l IH]; intros x; [reflexivity|].
  cbn [length nth_error]. rewrite IH. f_equal. symmetry. apply last_cons.
Qed.

(** X4.  The return of a period compares the last close with the close
    exactly [period] rows before it; older rows play no part.  For a period
    of 0 both closes are the last one. *)
Theorem period_return_anchor (older rest : DataFrame) (anchor : float64) :
  period_return (older ++ anchor :: rest) (length rest)
  = Ok (Some (F64.div (F64.sub (last rest anchor) anchor) anchor)).
Proof.
  set (df := older ++ anchor :: rest).
  assert (Hlen : length df = length older + S (length rest)).
  { unfold df. now rewrite length_app. }
  destruct (period_return_long df (length rest)) as (c & a & Hc & Ha & E);
    [lia|].
  rewrite E. repeat f_equal.
  - assert (Hc' : nth_error df (length df - 1) = Some (last rest anchor)).
    { unfold df. rewrite nth_error_app2 by (rewrite length_app; simpl; lia).
      replace (length (older ++ anchor :: rest) - 1 - length older)
        with (length rest) by (rewrite length_app; simpl; lia).
      now apply nth_error_last. }
    congruence.
  - assert (Ha' : nth_error df (length df - (length rest + 1)) = Some anchor).
    { unfold df. rewrite nth_error_app2 by (rewrite length_app; simpl; lia).
      replace (length (older ++ anchor :: rest) - (length rest + 1)
               - length older) with 0 by (rewrite length_app; simpl; lia).
      reflexivity. }
    congruence.
  - assert (Ha' : nth_error df (length df - (length rest + 1)) = Some anchor).
    { unfold df. rewrite nth_error_app2 by (rewrite length_app; simpl; lia).
      replace (length (older ++ anchor :: rest) - (length rest + 1)
               - length older) with 0 by (rewrite length_app; simpl; lia).
      reflexivity. }
    congruence.
Qed.

(** ** Strength levels *)

Lemma Qltb_ge' (c s : Q) : Qle_bool c s = false -> (s < c)%Q.
Proof.
  intros H. apply Qnot_le_lt. intros Hle. apply Qle_bool_iff in Hle. congruence.
Qed.

Lemma Qle_bool_mono (c s t : Q) :
  (s <= t)%Q -> Qle_bool c s = true -> Qle_bool c t = true.
Proof.
  intros Hst H. apply Qle_bool_iff. apply Qle_bool_iff in H.
  now apply (Qle_trans c s t).
Qed.

(** X5.  The strength level never decreases when the score increases, and
    its bands are the half-open intervals cut at 20, 40, 60, 80 and 90. *)
Theorem strength_level_monotone (s t : Q) :
  ((s <= t)%Q ->
   strength_rank (_get_single_strength_level s)
   <= strength_rank (_get_single_strength_level t))
  /\ (_get_single_strength_level s = VeryStrong <-> (90 <= s)%Q)
  /\ (_get_single_strength_level s = Strong <-> (80 <= s /\ s < 90)%Q)
  /\ (_get_single_strength_level s = FairlyStrong <-> (60 <= s /\ s < 80)%Q)
  /\ (_get_single_strength_level s = Medium <-> (40 <= s /\ s < 60)%Q)
  /\ (_get_single_strength_level s = FairlyWeak <-> (20 <= s /\ s < 40)%Q)
  /\ (_get_single_strength_level s = Weak <-> (s < 20)%Q).
Proof.
  split.
  - intros Hst. unfold _get_single_strength_level.
    pose proof (fun c => Qle_bool_mono c s t Hst) as M.
    destruct (Qle_bool 90 s) eqn:E1; [rewrite (M _ E1); simpl; lia|].
    destruct (Qle_bool 80 s) eqn:E2;
      [rewrite (M _ E2); destruct (Qle_bool 90 t); simpl; lia|].
    destruct (Qle_bool 60 s) eqn:E3;
      [rewrite (M _ E3); destruct (Qle_bool 90 t), (Qle_bool 80 t); simpl; lia|].
    destruct (Qle_bool 40 s) eqn:E4;
      [rewrite (M _ E4);
       destruct (Qle_bool 90 t), (Qle_bool 80 t), (Qle_bool 60 t); simpl; lia|].
    destruct (Qle_bool 20 s) eqn:E5;
      [rewrite (M _ E5);
       destruct (Qle_bool 90 t), (Qle_bool 80 t), (Qle_bool 60 t),
         (Qle_bool 40 t); simpl; lia|].
    simpl. lia.
  - unfold _get_single_strength_level.
    destruct (Qle_bool 90 s) eqn:E1; [apply Qle_bool_iff in E1|apply Qltb_ge' in E1];
    (destruct (Qle_bool 80 s) eqn:E2; [apply Qle_bool_iff in E2|apply Qltb_ge' in E2]);
    (destruct (Qle_bool 60 s) eqn:E3; [apply Qle_bool_iff in E3|apply Qltb_ge' in E3]);
    (destruct (Qle_bool 40 s) eqn:E4; [apply Qle_bool_iff in E4|apply Qltb_ge' in E4]);
    (destruct (Qle_bool 20 s) eqn:E5; [apply Qle_bool_iff in E5|apply Qltb_ge' in E5]);
    repeat split; intros; try discriminate; try reflexivity; try assumption;
      try tauto;
      exfalso;
      repeat match goal with
             | H : _ /\ _ |- _ => destruct H
             end;
      repeat match goal with
             | H : (?a <= ?b)%Q |- _ => unfold Qle in H; cbn [Qnum Qden] in H
             | H : (?a < ?b)%Q |- _ => unfold Qlt in H; cbn [Qnum Qden] in H
             end; lia.
Qed.

Lemma strength_level_monotone_witness :
  (55 <= 85)%Q
  /\ strength_rank (_get_single_strength_level 55)
     <= strength_rank (_get_single_strength_level 85).
Proof.
  assert (H : (55 <= 85)%Q) by (unfold Qle; simpl; lia).
  split; [exact H|].
  exact (proj1 (strength_level_monotone 55 85) H).
Defined.

(** ** Composite scores *)

Lemma composite_NoDup (rps_results : dict (dict Q)) (periods : list nat) :
  NoDup (keys (_calculate_composite_rps rps_results periods)).
Proof.
  unfold _calculate_composite_rps.
  assert (H : NoDup (keys (@nil (string * Q)))) by constructor.
  revert H. generalize (@nil (string * Q)).
  induction (all_codes rps_results) as [|c cs IH]; intros acc Hacc; [exact Hacc|].
  cbn [fold_left]. apply IH.
  destruct (accumulate rps_results periods c) as [ts tw].
  destruct (Qltb 0 tw); [|exact Hacc]. now apply NoDup_keys_dict_set.
Qed.








Lemma strength_levels_eq (d : dict Q) :
  NoDup (keys d) ->
  _get_strength_levels d
  = map (fun e => (fst e, _get_single_strength_level (snd e))) d.
Proof.
  intros Hnd. unfold _get_strength_levels.
  rewrite (fold_left_ext _
             (fun acc e => dict_set (fst e)
                                    (_get_single_strength_level (snd e)) acc)).
  2: { now intros a [c s]. }
  now rewrite fold_dict_set_fresh.
Qed.

Lemma dict_get_map_values {V W : Type} (f : V -> W) (d : dict V) (k : string) :
  dict_get k (map (fun e => (fst e, f (snd e))) d) = option_map f (dict_get k d).
Proof.
  induction d as [|[k' v] d IH]; [reflexivity|].
  simpl. now destruct (String.eqb k k').
Qed.

(** X8.  The strength levels follow the composite map: the same entities in
    the same order, each with the level of its own composite score; an
    entity without a composite score has no level. *)
Theorem levels_follow_composite (rps_results : dict (dict Q))
  (periods : list nat) (code : string) :
  let composite_rps := _calculate_composite_rps rps_results periods in
  keys (_get_strength_levels composite_rps) = keys composite_rps
  /\ dict_get code (_get_strength_levels composite_rps)
     = option_map _get_single_strength_level (dict_get code composite_rps).
Proof.
  cbn zeta. rewrite strength_levels_eq by apply composite_NoDup. split.
  - unfold keys. rewrite map_map. reflexivity.
  - apply dict_get_map_values.
Qed.

(** ** The ranking service *)

Lemma slice_to_firstn {A : Type} (l : list A) (n : Z) :
  exists k, slice_to l n = firstn k l
            /\ Z.of_nat (Nat.min k (length l))
               = (if (n <? 0)%Z then Z.max 0 (Z.of_nat (length l) + n)
                  else Z.min n (Z.of_nat (length l)))%Z.
Proof.
  unfold slice_to. destruct (Z.ltb_spec n 0).
  - exists (Z.to_nat (Z.of_nat (length l) + n)). split; [reflexivity|]. lia.
  - exists (Z.to_nat n). split; [reflexivity|]. lia.
Qed.

Lemma nth_error_firstn_Some {A : Type} (k : nat) (l : list A) (i : nat) (x : A) :
  nth_error (firstn k l) i = Some x -> nth_error l i = Some x.
Proof.
  rewrite nth_error_firstn. now destruct (i <? k).
Qed.

(** X9.  The ranking has [min(top_n, len)] entries for [top_n >= 0]; a
    negative [top_n] does not raise but drops the last [-top_n] entries of
    the full ranking; and every entry is an entry of the score map. *)
Theorem ranking_size (rps_data : dict Q) (top_n : Z) :
  let ranking := get_rps_ranking rps_data top_n in
  Z.of_nat (length ranking)
  = (if (top_n <? 0)%Z then Z.max 0 (Z.of_nat (length rps_data) + top_n)
     else Z.min top_n (Z.of_nat (length rps_data)))%Z
  /\ forall item, In item ranking -> In (code item, item_score item) rps_data.
Proof.
  cbn zeta. split.
  - rewrite <- (length_map entry_of), ranking_entries.
    destruct (slice_to_firstn (sorted_reverse snd Qltb rps_data) top_n)
      as (k & -> & Hk).
    rewrite length_firstn, sorted_reverse_length in *. exact Hk.
  - intros item Hin.
    assert (H : In (entry_of item) (map entry_of (get_rps_ranking rps_data top_n)))
      by now apply in_map.
    rewrite ranking_entries in H.
    destruct (slice_to_firstn (sorted_reverse snd Qltb rps_data) top_n)
      as (k & E & _).
    rewrite E in H. apply In_nth_error in H. destruct H as [i Hi].
    apply nth_error_firstn_Some, nth_error_In in Hi.
    now apply sorted_reverse_In in Hi.
Qed.

Lemma ranking_size_witness :
  let rps_data := [("a", 10%Q); ("b", 30%Q); ("c", 20%Q)] in
  In {| code := "b"; item_score := 30%Q; rank := 1;
        strength_level := Some FairlyWeak |} (get_rps_ranking rps_data (-1))
  /\ In ("b", 30%Q) rps_data.
Proof.
  intros rps_data.
  assert (H : In {| code := "b"; item_score := 30%Q; rank := 1;
                    strength_level := Some FairlyWeak |}
                 (get_rps_ranking rps_data (-1))) by (now left).
  split; [exact H|].
  exact (proj2 (ranking_size rps_data (-1)) _ H).
Defined.

Lemma strength_rank_mono (s t : Q) :
  (s <= t)%Q ->
  strength_rank (_get_single_strength_level s)
  <= strength_rank (_get_single_strength_level t).
Proof.
  intros Hst. unfold _get_single_strength_level.
  pose proof (fun c => Qle_bool_mono c s t Hst) as M.
  destruct (Qle_bool 90 s) eqn:E1; [rewrite (M _ E1); simpl; lia|].
  destruct (Qle_bool 80 s) eqn:E2;
    [rewrite (M _ E2); destruct (Qle_bool 90 t); simpl; lia|].
  destruct (Qle_bool 60 s) eqn:E3;
    [rewrite (M _ E3); destruct (Qle_bool 90 t), (Qle_bool 80 t); simpl; lia|].
  destruct (Qle_bool 40 s) eqn:E4;
    [rewrite (M _ E4);
     destruct (Qle_bool 90 t), (Qle_bool 80 t), (Qle_bool 60 t); simpl; lia|].
  destruct (Qle_bool 20 s) eqn:E5;
    [rewrite (M _ E5);
     destruct (Qle_bool 90 t), (Qle_bool 80 t), (Qle_bool 60 t),
       (Qle_bool 40 t); simpl; lia|].
  simpl. lia.
Qed.

(** X10.  For a score map of finite numbers (no [nan]): down the ranking
    the rank number grows by one per entry from 1, the score never
    increases and the strength level never improves. *)
Theorem ranking_is_ordered (rps_data : dict Q) (top_n : Z) (i j : nat)
  (a b : ranking_item) :
  nth_error (get_rps_ranking rps_data top_n) i = Some a ->
  nth_error (get_rps_ranking rps_data top_n) j = Some b ->
  i < j ->
  rank a = i + 1 /\ rank b = j + 1
  /\ (item_score b <= item_score a)%Q
  /\ exists la lb, strength_level a = Some la /\ strength_level b = Some lb
                   /\ strength_rank lb <= strength_rank la.
Proof.
  intros Ha Hb Hij.
  set (ranking := get_rps_ranking rps_data top_n) in *.
  assert (Hrank : forall k x, nth_error ranking k = Some x -> rank x = k + 1).
  { intros k x Hx.
    assert (Hk : k < length ranking) by (apply nth_error_Some; congruence).
    pose proof (ranking_ranks rps_data top_n) as Hr. fold ranking in Hr.
    assert (E : nth_error (map rank ranking) k = Some (rank x))
      by now rewrite nth_error_map, Hx.
    rewrite Hr, nth_error_seq in E.
    destruct (Nat.ltb_spec k (length ranking)); [|lia].
    injection E as E. lia. }
  assert (Hlevel : forall k x, nth_error ranking k = Some x ->
                     strength_level x
                     = Some (_get_single_strength_level (item_score x))).
  { intros k x Hx. destruct (get_rps_ranking_ok rps_data top_n) as [_ Hall].
    rewrite Forall_forall in Hall. apply Hall.
    eapply nth_error_In. exact Hx. }
  assert (Hscore : (item_score b <= item_score a)%Q).
  { destruct (scores_stable_descending rps_data) as (_ & Hs & _).
    pose proof (ranking_entries rps_data top_n) as He. fold ranking in He.
    destruct (slice_to_firstn (sorted_reverse snd Qltb rps_data) top_n)
      as (k & E & _).
    rewrite E in He.
    assert (Ea : nth_error (sorted_reverse snd Qltb rps_data) i
                 = Some (entry_of a)).
    { apply (nth_error_firstn_Some k). rewrite <- He.
      now rewrite nth_error_map, Ha. }
    assert (Eb : nth_error (sorted_reverse snd Qltb rps_data) j
                 = Some (entry_of b)).
    { apply (nth_error_firstn_Some k). rewrite <- He.
      now rewrite nth_error_map, Hb. }
    pose proof (StronglySorted_nth _ _ i j _ _ Hs Hij Ea Eb) as Hn.
    cbn [entry_of snd] in Hn. now apply Qltb_ge. }
  split; [now apply Hrank|]. split; [now apply Hrank|].
  split; [exact Hscore|].
  eexists. eexists. split; [now apply (Hlevel i)|].
  split; [now apply (Hlevel j)|]. now apply strength_rank_mono.
Qed.

Lemma ranking_is_ordered_witness :
  let rps_data := [("a", 10%Q); ("b", 95%Q); ("c", 20%Q)] in
  exists a b,
    nth_error (get_rps_ranking rps_data 50) 0 = Some a
    /\ nth_error (get_rps_ranking rps_data 50) 2 = Some b
    /\ 0 < 2
    /\ rank a = 0 + 1 /\ rank b = 2 + 1
    /\ (item_score b <= item_score a)%Q.
Proof.
  intros rps_data. eexists. eexists.
  assert (H0 : 0 < 2) by lia.
  split; [reflexivity|]. split; [reflexivity|]. split; [exact H0|].
  pose proof (ranking_is_ordered rps_data 50 0 2 _ _ eq_refl eq_refl H0)
    as (H1 & H2 & H3 & _).
  split; [exact H1|]. split; [exact H2|exact H3].
Defined.

(** ** Data acquisition *)

Lemma In_dict_set {V : Type} (k k' : string) (v v' : V) (d : dict V) :
  In (k, v) (dict_set k' v' d) -> (k, v) = (k', v') \/ In (k, v) d.
Proof.
  induction d as [|[k0 v0] d IH]; simpl.
  - intros [H|[]]. left. now symmetry.
  - destruct (String.eqb_spec k' k0) as [->|Hne]; simpl.
    + intros [H|H]; [left; now symmetry|right; now right].
    + intros [H|H]; [right; now left|].
      destruct (IH H) as [E|E]; [now left|right; now right].
Qed.

Lemma length_dict_set {V : Type} (k : string) (v : V) (d : dict V) :
  length (dict_set k v d) <= S (length d).
Proof.
  induction d as [|[k0 v0] d IH]; simpl; [lia|].
  destruct (String.eqb k k0); simpl; lia.
Qed.

Lemma collect_facts (l : list (string * option DataFrame))
  (acc : dict DataFrame) :
  let stock_data :=
    fold_left
      (fun stock_data '(code, data) =>
         match data with
         | Some df => dict_set code df stock_data
         | None => stock_data
         end) l acc in
  length stock_data <= length acc + length l
  /\ (NoDup (keys acc) -> NoDup (keys stock_data))
  /\ forall k df, In (k, df) stock_data -> In (k, df) acc \/ In (k, Some df) l.
Proof.
  revert acc. induction l as [|[k [df|]] l IH]; intros acc; cbn zeta;
    cbn [fold_left].
  - repeat split; [simpl; lia|auto|auto].
  - destruct (IH (dict_set k df acc)) as (H1 & H2 & H3). cbn zeta in *.
    split; [|split].
    + pose proof (length_dict_set k df acc). simpl. lia.
    + intros Hnd. apply H2. now apply NoDup_keys_dict_set.
    + intros k' df' Hin. destruct (H3 k' df' Hin) as [H|H].
      * apply In_dict_set in H. destruct H as [E|H]; [|now left].
        injection E as -> ->. right. now left.
      * right. now right.
  - destruct (IH acc) as (H1 & H2 & H3). cbn zeta in *.
    split; [simpl; lia|]. split; [exact H2|].
    intros k' df' Hin. destruct (H3 k' df' Hin) as [H|H]; [now left|].
    right. now right.
Qed.

(** X11.  Whatever the completion order, the fetched map has at most 100
    entries with distinct identifiers, and each entry is one of the first
    100 submitted identifiers together with the non-empty frame the provider
    returned for its cleaned code. *)
Theorem stocks_data_content
  (stock_zh_a_hist : string -> nat -> result DataFrame)
  (as_completed :
     list (string * option DataFrame) -> list (string * option DataFrame))
  (stock_codes : list string) (days : nat) :
  (forall l, Permutation (as_completed l) l) ->
  let stock_data :=
    _get_stocks_data stock_zh_a_hist as_completed stock_codes days in
  length stock_data <= 100
  /\ NoDup (keys stock_data)
  /\ forall code df,
       In (code, df) stock_data ->
       df <> [] /\ In code (firstn 100 stock_codes)
       /\ stock_zh_a_hist (clean_code code) days = Ok df.
Proof.
  intros Hperm. cbn zeta. unfold _get_stocks_data.
  set (futures := map (get_single_stock_data stock_zh_a_hist days)
                      (firstn 100 stock_codes)).
  destruct (collect_facts (as_completed futures) []) as (H1 & H2 & H3).
  cbn zeta in *. split; [|split].
  - eapply Nat.le_trans; [exact H1|].
    rewrite (Permutation_length (Hperm futures)).
    unfold futures. rewrite length_map.
    pose proof (firstn_le_length 100 stock_codes). cbn [length]. lia.
  - apply H2. constructor.
  - intros code df Hin. destruct (H3 code df Hin) as [[]|H].
    apply (Permutation_in _ (Hperm futures)) in H.
    unfold futures in H. apply in_map_iff in H. destruct H as (c & E & Hc).
    rewrite get_single_stock_data_eq in E. injection E as -> E.
    destruct (stock_zh_a_hist (clean_code code) days) as [[|x df']|e];
      try discriminate.
    injection E as <-. repeat split; [discriminate|exact Hc].
Qed.

Lemma stocks_data_content_witness :
  let stock_zh_a_hist :=
    fun (symbol : string) (_ : nat) =>
      if String.eqb symbol "000001" then Ok [Fin 10; Fin 11]
      else Raise ProviderError in
  let as_completed := @rev (string * option DataFrame) in
  (forall l, Permutation (as_completed l) l)
  /\ length (_get_stocks_data stock_zh_a_hist as_completed
                              ["bad"; "000001.SZ"] 70) <= 100.
Proof.
  intros stock_zh_a_hist as_completed.
  assert (Hperm : forall l, Permutation (as_completed l) l).
  { intros l. apply Permutation_sym, Permutation_rev. }
  split; [exact Hperm|].
  exact (proj1 (stocks_data_content stock_zh_a_hist as_completed
                  ["bad"; "000001.SZ"] 70 Hperm)).
Defined.

Lemma industry_codes_NoDup : NoDup industry_codes.
Proof.
  assert (E : nodup string_dec industry_codes = industry_codes) by reflexivity.
  rewrite <- E. apply NoDup_nodup.
Qed.

(** X12.  The industry map lists, in registry order, exactly the registry
    codes for which the provider returned a non-empty frame, each with that
    frame; a code whose fetch raises or returns nothing is left out and
    changes nothing else. *)
Theorem industry_data_content
  (index_zh_a_hist : string -> nat -> result (option DataFrame)) (days : nat) :
  _get_industry_data index_zh_a_hist days
  = flat_map
      (fun code =>
         match index_zh_a_hist code days with
         | Ok (Some ((_ :: _) as df)) => [(code, df)]
         | _ => []
         end)
      industry_codes.
Proof.
  unfold _get_industry_data.
  assert (H : forall l acc,
             NoDup l -> (forall k, In k l -> ~ In k (keys acc)) ->
             fold_left
               (fun industry_data code =>
                  try_except
                    (df <- index_zh_a_hist code days ;;
                     Ok (match df with
                         | Some ((_ :: _) as df) => dict_set code df industry_data
                         | _ => industry_data
                         end))
                    (fun _ => industry_data)) l acc
             = acc ++ flat_map
                        (fun code =>
                           match index_zh_a_hist code days with
                           | Ok (Some ((_ :: _) as df)) => [(code, df)]
                           | _ => []
                           end) l).
  { induction l as [|c l IH]; intros acc Hnd Hfresh; cbn [fold_left flat_map].
    - now rewrite app_nil_r.
    - inversion Hnd as [|? ? Hc Hnd']; subst.
      destruct (index_zh_a_hist c days) as [[[|x df]|]|e]; cbn [bind try_except].
      + rewrite IH; [reflexivity|assumption|].
        intros k Hk. apply Hfresh. now right.
      + rewrite dict_set_fresh by (apply Hfresh; now left).
        rewrite IH; [now rewrite <- app_assoc|assumption|].
        intros k Hk. unfold keys. rewrite map_app, in_app_iff. simpl.
        intros [H|[<-|[]]]; [|contradiction].
        apply (Hfresh k); [now right|exact H].
      + rewrite IH; [reflexivity|assumption|].
        intros k Hk. apply Hfresh. now right.
      + rewrite IH; [reflexivity|assumption|].
        intros k Hk. apply Hfresh. now right. }
  rewrite H; [reflexivity|apply industry_codes_NoDup|intros k _ []].
Qed.

(** ** The results of the entry points *)

Lemma period_key_inj (p q : nat) : period_key p = period_key q -> p = q.
Proof.
  unfold period_key. intros H. apply str_inj. simpl in H. now injection H.
Qed.

(** Distinct periods never share an entry of the result. *)
Lemma period_results_exact (rps : dict DataFrame -> nat -> dict Q)
  (data : dict DataFrame) (periods : list nat) (p : nat) :
  In p periods ->
  dict_get (period_key p) (period_results rps data periods) = Some (rps data p).
Proof.
  unfold period_results. intros Hin.
  assert (H : forall l acc,
             dict_get (period_key p)
               (fold_left
                  (fun results period =>
                     dict_set (period_key period) (rps data period) results)
                  l acc)
             = if in_dec Nat.eq_dec p l then Some (rps data p)
               else dict_get (period_key p) acc).
  { induction l as [|q l IH]; intros acc; [reflexivity|].
    cbn [fold_left]. rewrite IH.
    destruct (in_dec Nat.eq_dec p l) as [Hl|Hl];
      destruct (in_dec Nat.eq_dec p (q :: l)) as [Hql|Hql];
      try reflexivity.
    - exfalso. apply Hql. now right.
    - destruct Hql as [->|Hql]; [|contradiction]. apply dict_get_set_same.
    - apply dict_get_set_other. intros E. apply period_key_inj in E.
      apply Hql. now left. }
  rewrite H. destruct (in_dec Nat.eq_dec p periods); [reflexivity|contradiction].
Qed.

(** X13.  When some identifier has data, the result of
    [calculate_stock_rps] maps ['rps_<p>'], for every requested period [p],
    to the percentile map of the fetched frames for that very period (no two
    periods share a key), ['composite_rps'] to the composite of these maps
    and ['strength_level'] to the levels of that composite; the window
    fetched is the longest period plus ten days. *)
Theorem stock_result_content
  (stock_zh_a_hist : string -> nat -> result DataFrame)
  (as_completed :
     list (string * option DataFrame) -> list (string * option DataFrame))
  (stock_codes : list string) (periods : list nat) (longest : nat) :
  py_max periods = Ok longest ->
  let stock_data :=
    _get_stocks_data stock_zh_a_hist as_completed stock_codes (longest + 10) in
  stock_data <> [] ->
  let r := calculate_stock_rps stock_zh_a_hist as_completed stock_codes periods in
  let results := period_results _calculate_period_rps stock_data periods in
  let composite_rps := _calculate_composite_rps results periods in
  (forall p, In p periods ->
             dict_get (period_key p) r
             = Some (Scores (_calculate_period_rps stock_data p)))
  /\ (forall p code, In p periods ->
                     percentile_of results code p
                     = dict_get code (_calculate_period_rps stock_data p))
  /\ dict_get "composite_rps" r = Some (Scores composite_rps)
  /\ dict_get "strength_level" r
     = Some (Levels (_get_strength_levels composite_rps)).
Proof.
  intros Hmax. cbn zeta. unfold calculate_stock_rps. rewrite Hmax.
  cbn [bind try_except].
  set (stock_data := _get_stocks_data stock_zh_a_hist as_completed
                                      stock_codes (longest + 10)).
  intros Hne. destruct stock_data as [|e sd]; [contradiction|].
  cbn [try_except]. split; [|split; [|split]].
  - intros p Hp.
    rewrite !dict_get_set_other by apply period_key_not_literal.
    rewrite dict_get_lift_scores, period_results_exact by assumption.
    reflexivity.
  - intros p code Hp. unfold percentile_of.
    now rewrite period_results_exact.
  - rewrite dict_get_set_other by discriminate. apply dict_get_set_same.
  - apply dict_get_set_same.
Qed.

Lemma stock_result_content_witness :
  let stock_zh_a_hist :=
    fun (symbol : string) (_ : nat) =>
      if String.eqb symbol "000001" then Ok [Fin 10; Fin 11]
      else Raise ProviderError in
  let as_completed := fun l : list (string * option DataFrame) => l in
  let r := calculate_stock_rps stock_zh_a_hist as_completed
                               ["bad"; "000001.SZ"] [1] in
  py_max [1] = Ok 1
  /\ _get_stocks_data stock_zh_a_hist as_completed ["bad"; "000001.SZ"] 11 <> []
  /\ dict_get "rps_1" r = Some (Scores [("000001.SZ", rps_score 1 0)]).
Proof.
  intros stock_zh_a_hist as_completed r.
  assert (Hmax : py_max [1] = Ok 1) by reflexivity.
  assert (Hne : _get_stocks_data stock_zh_a_hist as_completed
                                 ["bad"; "000001.SZ"] (1 + 10) <> [])
    by discriminate.
  split; [exact Hmax|]. split; [exact Hne|].
  exact (proj1 (stock_result_content stock_zh_a_hist as_completed
                  ["bad"; "000001.SZ"] [1] 1 Hmax Hne) 1 (or_introl eq_refl)).
Defined.

(** ** The cache of [calculate_industry_rps] *)

(** The three ways a call ends: a cache hit, an empty result that leaves
    the analyzer alone, or a fresh non-empty result that is stored. *)
Lemma calculate_industry_rps_cases
  (index_zh_a_hist : string -> nat -> result (option DataFrame))
  (self : analyzer) (periods : list nat) (now_check now_store : datetime) :
  let r := calculate_industry_rps index_zh_a_hist self periods
                                  now_check now_store in
  (_is_cache_valid self (cache_key periods) now_check = true
   /\ snd r = self
   /\ dict_get (cache_key periods) (rps_cache self) = Some (fst r))
  \/ (_is_cache_valid self (cache_key periods) now_check = false
      /\ r = ([], self))
  \/ (_is_cache_valid self (cache_key periods) now_check = false
      /\ fst r <> []
      /\ snd r = {| rps_cache :=
                      dict_set (cache_key periods) (fst r) (rps_cache self);
                    last_update :=
                      dict_set (cache_key periods) now_store (last_update self);
                    cache_timeout := cache_timeout self |}).
Proof.
  cbn zeta. unfold calculate_industry_rps.
  destruct (_is_cache_valid self (cache_key periods) now_check) eqn:Ev.
  - left. apply is_cache_valid_iff in Ev.
    destruct Ev as (payload & created & Ep & _).
    unfold dict_index. rewrite Ep. cbn [bind try_except fst snd]. auto.
  - right. destruct (py_max periods) as [longest|e]; [|left; auto].
    cbn [bind try_except].
    destruct (_get_industry_data index_zh_a_hist (longest + 10))
      as [|e industry_data]; [left; auto|].
    right. cbn [try_except fst snd]. split; [reflexivity|].
    split; [apply dict_set_not_nil|reflexivity].
Qed.

(** X14.  A stored result is served from the cache: after a call that
    missed the cache and produced a non-empty result, a call with the same
    periods less than [cache_timeout] seconds after the result was stored
    returns the same result and leaves the analyzer unchanged, without
    depending on the provider at all. *)
Theorem cached_result_is_reused
  (index_zh_a_hist index_zh_a_hist' : string -> nat -> result (option DataFrame))
  (self : analyzer) (periods : list nat)
  (now_check now_store now_check' now_store' : datetime) :
  let r := calculate_industry_rps index_zh_a_hist self periods
                                  now_check now_store in
  _is_cache_valid self (cache_key periods) now_check = false ->
  fst r <> [] ->
  (cache_timeout self <= 86400)%Z ->
  (0 <= now_check' - now_store < cache_timeout self * 1000000)%Z ->
  calculate_industry_rps index_zh_a_hist' (snd r) periods now_check' now_store'
  = r.
Proof.
  cbn zeta. intros Hmiss Hne Ht Hd.
  destruct (calculate_industry_rps_cases index_zh_a_hist self periods
              now_check now_store) as [(Hv & _)|[(_ & E)|(_ & _ & E)]].
  - congruence.
  - rewrite E in Hne. now contradiction Hne.
  - set (r := calculate_industry_rps index_zh_a_hist self periods
                                     now_check now_store) in *.
    destruct r as [results self']. cbn [fst snd] in *. subst self'.
    unfold calculate_industry_rps, _is_cache_valid. cbn [rps_cache last_update].
    rewrite !dict_get_set_same. cbn [datetime_sub seconds cache_timeout].
    assert (Hlt : ((now_check' - now_store) mod us_per_day / us_per_second
                   <? cache_timeout self)%Z = true).
    { apply Z.ltb_lt. unfold us_per_day, us_per_second.
      rewrite Z.mod_small by lia. apply Z.div_lt_upper_bound; lia. }
    rewrite Hlt. unfold dict_index. rewrite dict_get_set_same. reflexivity.
Qed.

Lemma cached_result_is_reused_witness :
  let provider :=
    fun (c : string) (_ : nat) => Ok (Some [Fin 10; Fin 11; Fin 12]) in
  let failing :=
    fun (_ : string) (_ : nat) => @Raise (option DataFrame) ProviderError in
  let r := calculate_industry_rps provider init [1] 0%Z 5%Z in
  _is_cache_valid init (cache_key [1]) 0%Z = false
  /\ fst r <> []
  /\ calculate_industry_rps failing (snd r) [1] 1000000%Z 1000001%Z = r.
Proof.
  intros provider failing r.
  assert (H1 : _is_cache_valid init (cache_key [1]) 0%Z = false) by reflexivity.
  assert (H2 : fst r <> []) by (vm_compute; discriminate).
  split; [exact H1|]. split; [exact H2|].
  apply (cached_result_is_reused provider failing init [1] 0%Z 5%Z
           1000000%Z 1000001%Z H1 H2); simpl; lia.
Defined.

(** X15.  A call never damages the cache: an empty result leaves the
    analyzer exactly as it was (failures are not cached), no cached key is
    ever dropped, the timeout is never changed, and the payloads and the
    time stamps keep the same keys. *)
Theorem cache_is_preserved
  (index_zh_a_hist : string -> nat -> result (option DataFrame))
  (self : analyzer) (periods : list nat) (now_check now_store : datetime) :
  let r := calculate_industry_rps index_zh_a_hist self periods
                                  now_check now_store in
  (fst r = [] -> snd r = self)
  /\ (forall k, In k (keys (rps_cache self)) -> In k (keys (rps_cache (snd r))))
  /\ cache_timeout (snd r) = cache_timeout self
  /\ (keys (rps_cache self) = keys (last_update self) ->
      keys (rps_cache (snd r)) = keys (last_update (snd r))).
Proof.
  cbn zeta.
  destruct (calculate_industry_rps_cases index_zh_a_hist self periods
              now_check now_store) as [(_ & E & _)|[(_ & E)|(_ & Hne & E)]].
  - rewrite E. auto.
  - rewrite E. cbn [fst snd]. auto.
  - rewrite E. cbn [rps_cache last_update cache_timeout].
    split; [intros H; contradiction|].
    split; [intros k Hk; now apply keys_dict_set_incl|].
    split; [reflexivity|].
    intros Hk. rewrite !keys_dict_set.
    assert (Hm : dict_mem (cache_key periods) (rps_cache self)
                 = dict_mem (cache_key periods) (last_update self)).
    { apply eq_true_iff_eq. rewrite !dict_mem_In. now rewrite Hk. }
    rewrite Hm, Hk. reflexivity.
Qed.

Lemma cache_is_preserved_witness :
  let failing :=
    fun (_ : string) (_ : nat) => @Raise (option DataFrame) ProviderError in
  let r := calculate_industry_rps failing init [5; 10] 0%Z 1%Z in
  fst r = [] /\ snd r = init.
Proof.
  intros failing r.
  assert (H : fst r = []) by reflexivity.
  split; [exact H|].
  exact (proj1 (cache_is_preserved failing init [5; 10] 0%Z 1%Z) H).
Defined.

(** ** Rotation analysis, continued *)

Lemma rotation_opportunities_In (short long : dict Q) (item : rotation_item) :
  In item (rotation_opportunities short long) ->
  momentum item = (short_rps item - long_rps item)%Q
  /\ In (industry item, short_rps item) short
  /\ dict_get (industry item) long = Some (long_rps item).
Proof.
  unfold rotation_opportunities. intros H. apply in_flat_map in H.
  destruct H as ([c s] & Hin & H).
  destruct (dict_get c long) as [l|] eqn:E; [|destruct H].
  destruct H as [<-|[]]. cbn [momentum short_rps long_rps industry]. auto.
Qed.

Lemma In_firstn {A : Type} (n : nat) (l : list A) (x : A) :
  In x (firstn n l) -> In x l.
Proof.
  intros H. rewrite <- (firstn_skipn n l). apply in_or_app. now left.
Qed.

Lemma In_skipn {A : Type} (n : nat) (l : list A) (x : A) :
  In x (skipn n l) -> In x l.
Proof.
  intros H. rewrite <- (firstn_skipn n l). apply in_or_app. now right.
Qed.

(** X16.  Every record of the heating and the cooling list is about an
    entity present in both percentile maps and carries its two percentiles
    and their exact difference, short minus long, as momentum. *)
Theorem rotation_records_are_exact (short long : dict Q) (item : rotation_item) :
  let r := analyze_rotation short long in
  In item (hot_industries r) \/ In item (cold_industries r) ->
  momentum item = (short_rps item - long_rps item)%Q
  /\ In (industry item, short_rps item) short
  /\ dict_get (industry item) long = Some (long_rps item).
Proof.
  cbn zeta. unfold analyze_rotation, slice_last.
  cbn [hot_industries cold_industries]. intros H.
  apply rotation_opportunities_In.
  apply (sorted_reverse_In momentum Qltb).
  destruct H as [H|H]; [now apply In_firstn in H|now apply In_skipn in H].
Qed.

Lemma rotation_records_are_exact_witness :
  let short := [("a", 100%Q); ("b", 50%Q)] in
  let long := [("b", 100%Q); ("a", 50%Q)] in
  let item := {| industry := "a"; short_rps := 100%Q; long_rps := 50%Q;
                 momentum := (100 - 50)%Q |} in
  (In item (hot_industries (analyze_rotation short long))
   \/ In item (cold_industries (analyze_rotation short long)))
  /\ momentum item = (short_rps item - long_rps item)%Q.
Proof.
  intros short long item.
  assert (H : In item (hot_industries (analyze_rotation short long))
              \/ In item (cold_industries (analyze_rotation short long))).
  { left. now left. }
  split; [exact H|].
  exact (proj1 (rotation_records_are_exact short long item H)).
Defined.

Lemma NoDup_app_disjoint {A : Type} (l1 l2 : list A) (x : A) :
  NoDup (l1 ++ l2) -> In x l1 -> In x l2 -> False.
Proof.
  induction l1 as [|y l1 IH]; simpl; intros Hnd H1 H2; [exact H1|].
  inversion Hnd as [|? ? Hy Hnd']; subst.
  destruct H1 as [->|H1].
  - apply Hy. apply in_or_app. now right.
  - now apply IH.
Qed.

(** X17.  With ten or more compared entities the heating and the cooling
    list have no entity in common. *)
Theorem hot_and_cold_disjoint (short long : dict Q) (a b : rotation_item) :
  NoDup (keys short) ->
  10 <= length (common_entities short long) ->
  let r := analyze_rotation short long in
  In a (hot_industries r) -> In b (cold_industries r) ->
  industry a <> industry b.
Proof.
  intros Hnd Hn. cbn zeta. unfold analyze_rotation, slice_last.
  cbn [hot_industries cold_industries].
  set (sorted := sorted_reverse momentum Qltb (rotation_opportunities short long)).
  assert (Hlen : length sorted = length (common_entities short long)).
  { unfold sorted. now rewrite sorted_reverse_length, opportunities_length. }
  assert (Hnds : NoDup (map industry sorted)).
  { eapply Permutation_NoDup.
    - apply Permutation_map, Permutation_sym, sorted_reverse_perm.
    - rewrite industries_of_opportunities. now apply NoDup_filter. }
  intros Ha Hb E.
  rewrite <- (firstn_skipn 5 sorted) in Hnds. rewrite map_app in Hnds.
  apply (NoDup_app_disjoint _ _ (industry a) Hnds).
  - now apply in_map.
  - rewrite E. apply in_map.
    replace (length sorted - 5) with ((length sorted - 10) + 5) in Hb by lia.
    rewrite <- skipn_skipn in Hb. now apply In_skipn in Hb.
Qed.

Lemma hot_and_cold_disjoint_witness :
  let short :=
    [("a", 10%Q); ("b", 20%Q); ("c", 30%Q); ("d", 40%Q); ("e", 50%Q);
     ("f", 60%Q); ("g", 70%Q); ("h", 80%Q); ("i", 90%Q); ("j", 100%Q)] in
  let long := map (fun e : string * Q => (fst e, 50%Q)) short in
  let r := analyze_rotation short long in
  exists a b, In a (hot_industries r) /\ In b (cold_industries r)
              /\ industry a <> industry b.
Proof.
  intros short long r.
  assert (Hnd : NoDup (keys short)).
  { repeat constructor; simpl; intuition discriminate. }
  assert (Hn : 10 <= length (common_entities short long)) by (simpl; lia).
  eexists. eexists.
  assert (Ha : In (nth 0 (hot_industries r)
                       {| industry := ""; short_rps := 0; long_rps := 0;
                          momentum := 0 |}) (hot_industries r))
    by (now left).
  assert (Hb : In (nth 0 (cold_industries r)
                       {| industry := ""; short_rps := 0; long_rps := 0;
                          momentum := 0 |}) (cold_industries r))
    by (now left).
  split; [exact Ha|]. split; [exact Hb|].
  exact (hot_and_cold_disjoint short long _ _ Hnd Hn Ha Hb).
Defined.

(** *** The mean momentum of two rankings of the same entities *)

Lemma sigma_perm (l l' : list Q) : Permutation l l' -> (sigma l == sigma l')%Q.
Proof.
  induction 1 as [|x l l' _ IH|x y l|l l' l'' _ IH1 _ IH2].
  - reflexivity.
  - rewrite !sigma_cons. now rewrite IH.
  - rewrite !sigma_cons. ring.
  - now rewrite IH1.
Qed.

Lemma Qsum_sigma (l : list Q) : (Qsum l == sigma l)%Q.
Proof.
  unfold Qsum.
  assert (H : forall a, (fold_left Qplus l a == a + sigma l)%Q).
  { induction l as [|x l IH]; intros a; cbn [fold_left].
    - unfold sigma. simpl. ring.
    - rewrite IH, sigma_cons. ring. }
  rewrite H. ring.
Qed.

Lemma sigma_map_minus {A : Type} (f g : A -> Q) (l : list A) :
  (sigma (map (fun x => f x - g x) l) == sigma (map f l) - sigma (map g l))%Q.
Proof.
  induction l as [|x l IH]; cbn [map].
  - unfold sigma. simpl. ring.
  - rewrite !sigma_cons, IH. ring.
Qed.

Lemma momenta_when_all_common (short long : dict Q) :
  (forall c, In c (keys short) -> dict_get c long <> None) ->
  map momentum (rotation_opportunities short long)
  = map (fun e => (snd e - lookup_or_zero long (fst e))%Q) short.
Proof.
  unfold rotation_opportunities, lookup_or_zero.
  induction short as [|[c s] short IH]; intros H; [reflexivity|].
  cbn [flat_map map fst snd]. rewrite map_app, IH.
  - destruct (dict_get c long) as [l|] eqn:E; [reflexivity|].
    exfalso. apply (H c); [now left|exact E].
  - intros c' Hc'. apply H. now right.
Qed.

Lemma lookup_own_keys (d : dict Q) :
  NoDup (keys d) -> map (lookup_or_zero d) (keys d) = values d.
Proof.
  unfold keys, values.
  induction d as [|[k v] d IH]; intros Hnd; [reflexivity|].
  inversion Hnd as [|? ? Hk Hnd']; subst.
  cbn [map fst snd]. f_equal.
  - unfold lookup_or_zero. simpl. now rewrite String.eqb_refl.
  - rewrite <- (IH Hnd'). apply map_ext_in. intros c Hc.
    unfold lookup_or_zero. simpl.
    destruct (String.eqb_spec c k) as [->|_]; [contradiction|reflexivity].
Qed.

Lemma values_rank_returns (d : dict float64) :
  NoDup (keys d) ->
  values (rank_returns d) = map (rps_score (length d)) (seq 0 (length d)).
Proof.
  intros Hnd. unfold values. rewrite rank_returns_eq by assumption.
  apply map_snd_combine. unfold keys.
  now rewrite !length_map, length_seq, sorted_reverse_length.
Qed.

Lemma classify_zero_mean (m : Q) :
  (m == 0)%Q -> classify_momentum (Some m) = neutral.
Proof.
  intros E. unfold classify_momentum.
  assert (H1 : Qltb 10 m = false).
  { apply Qltb_ge. rewrite E. unfold Qle. simpl. lia. }
  assert (H2 : Qltb 5 m = false).
  { apply Qltb_ge. rewrite E. unfold Qle. simpl. lia. }
  assert (H3 : Qltb m (-5) = false).
  { apply Qltb_ge. rewrite E. unfold Qle. simpl. lia. }
  now rewrite H1, H2, H3.
Qed.

(** Two rankings of the same entities hand out the same percentiles, so the
    momenta cancel and the mean momentum is zero. *)
Lemma same_entities_neutral (d1 d2 : dict float64) :
  NoDup (keys d1) -> NoDup (keys d2) ->
  Permutation (keys d1) (keys d2) ->
  rotation_signal (analyze_rotation (rank_returns d1) (rank_returns d2))
  = neutral.
Proof.
  intros Hnd1 Hnd2 Hperm.
  set (short := rank_returns d1). set (long := rank_returns d2).
  assert (Hks : Permutation (keys short) (keys d1)).
  { unfold short. rewrite keys_rank_returns_sorted by assumption.
    apply keys_sorted_returns. }
  assert (Hkl : Permutation (keys long) (keys d2)).
  { unfold long. rewrite keys_rank_returns_sorted by assumption.
    apply keys_sorted_returns. }
  assert (Hndl : NoDup (keys long)).
  { eapply Permutation_NoDup; [apply Permutation_sym; exact Hkl|exact Hnd2]. }
  assert (Hsl : Permutation (keys short) (keys long)).
  { rewrite Hks, Hperm. now apply Permutation_sym. }
  assert (Hlen : length d1 = length d2).
  { rewrite <- (length_map fst d1), <- (length_map fst d2).
    now apply Permutation_length. }
  assert (Hvals : values short = values long).
  { unfold short, long. rewrite !values_rank_returns by assumption.
    now rewrite Hlen. }
  assert (Hcommon : forall c, In c (keys short) -> dict_get c long <> None).
  { intros c Hc. apply (Permutation_in _ Hsl) in Hc.
    intros E. now apply dict_get_None in E. }
  unfold analyze_rotation. cbn [rotation_signal].
  set (ops := rotation_opportunities short long).
  set (momenta := map momentum (sorted_reverse momentum Qltb ops)).
  destruct momenta as [|m ms] eqn:Em; [reflexivity|].
  unfold np_mean. apply classify_zero_mean.
  assert (Hsum : (Qsum (m :: ms) == 0)%Q).
  { rewrite <- Em. unfold momenta. rewrite Qsum_sigma.
    rewrite (sigma_perm _ (map momentum ops))
      by apply Permutation_map, sorted_reverse_perm.
    unfold ops. rewrite momenta_when_all_common by assumption.
    rewrite (sigma_map_minus snd (fun e => lookup_or_zero long (fst e))).
    fold (values short).
    rewrite <- (map_map fst (lookup_or_zero long)). fold (keys short).
    rewrite (sigma_perm (map (lookup_or_zero long) (keys short))
                        (map (lookup_or_zero long) (keys long)))
      by now apply Permutation_map.
    rewrite lookup_own_keys by assumption.
    rewrite Hvals. ring. }
  rewrite Hsum. unfold Qdiv. ring.
Qed.

Lemma list_index_ends {A : Type} (first : A) (rest : list A) :
  list_index (first :: rest) 0 = Ok first
  /\ list_index (first :: rest) (-1) = Ok (last rest first).
Proof.
  unfold list_index. split.
  - destruct (Z.ltb_spec 0 0); [lia|].
    destruct (Z.ltb_spec 0 0); [lia|].
    destruct (Z.leb_spec (Z.of_nat (length (first :: rest))) 0);
      [simpl length in *; lia|].
    reflexivity.
  - destruct (Z.ltb_spec (-1) 0); [|lia].
    destruct (Z.ltb_spec (Z.of_nat (length (first :: rest)) + -1) 0);
      [simpl length in *; lia|].
    destruct (Z.leb_spec (Z.of_nat (length (first :: rest)))
                         (Z.of_nat (length (first :: rest)) + -1)); [lia|].
    cbn [orb].
    replace (Z.to_nat (Z.of_nat (length (first :: rest)) + -1))
      with (length rest) by (simpl length; lia).
    now rewrite nth_error_last.
Qed.

Lemma keys_period_returns_full (data : dict DataFrame) (period : nat) :
  NoDup (keys data) ->
  (forall code df, In (code, df) data -> period + 1 <= length df) ->
  Permutation (keys (period_returns data period)) (keys data).
Proof.
  intros Hnd Hlong. apply NoDup_Permutation;
    [apply period_returns_NoDup|exact Hnd|].
  intros c. rewrite <- !dict_mem_In. unfold dict_mem.
  rewrite period_returns_get by assumption.
  destruct (dict_get c data) as [df|] eqn:E; [|reflexivity].
  assert (Hs : exists r, stored_return df period = Some r).
  { apply stored_return_Some. apply (Hlong c). now apply dict_get_In. }
  destruct Hs as [r ->]. reflexivity.
Qed.

(** X18.  When every industry frame has enough rows for both the first and
    the last requested period, the rotation signal is ['neutral'] whatever
    the prices: both percentile maps rank the same entities and so hand out
    the same percentiles, the momenta sum to zero and so does their mean. *)
Theorem full_history_signal_is_neutral (industry_data : dict DataFrame)
  (first : nat) (rest : list nat) :
  NoDup (keys industry_data) ->
  (forall code df, In (code, df) industry_data ->
                   first + 1 <= length df /\ last rest first + 1 <= length df) ->
  rotation_signal (_analyze_industry_rotation industry_data (first :: rest))
  = neutral.
Proof.
  intros Hnd Hlong. unfold _analyze_industry_rotation.
  destruct (list_index_ends first rest) as [-> ->].
  cbn [bind try_except]. unfold _calculate_industry_period_rps.
  apply same_entities_neutral; try apply period_returns_NoDup.
  rewrite !keys_period_returns_full; try assumption.
  - reflexivity.
  - intros code df H. now apply (Hlong code df).
  - intros code df H. now apply (Hlong code df).
Qed.

Lemma full_history_signal_is_neutral_witness :
  let industry_data :=
    [("801010", [Fin 10; Fin 11; Fin 15]); ("801020", [Fin 20; Fin 30; Fin 21]);
     ("801030", [Fin 5; Fin 4; Fin 3])] in
  NoDup (keys industry_data)
  /\ rotation_signal (_analyze_industry_rotation industry_data [1; 2]) = neutral.
Proof.
  intros industry_data.
  assert (Hnd : NoDup (keys industry_data)).
  { repeat constructor; simpl; intuition discriminate. }
  split; [exact Hnd|].
  apply (full_history_signal_is_neutral industry_data 1 [2] Hnd).
  intros code df [E|[E|[E|[]]]]; injection E as <- <-; simpl; lia.
Defined.

(** ** Cleaning stock codes *)

Lemma remove_sub_lacks (old' s t : string) (c : ascii) :
  lacks c s = true ->
  remove_sub (String c old') (s ++ t) 0
  = (s ++ remove_sub (String c old') t 0)%string.
Proof.
  induction s as [|a s IH]; intros H; [reflexivity|].
  simpl in H. apply andb_prop in H. destruct H as [Ha Hs].
  apply negb_true_iff, Ascii.eqb_neq in Ha.
  cbn [append remove_sub String.prefix].
  destruct (ascii_dec c a) as [E|_]; [congruence|].
  now rewrite IH.
Qed.

(** X19.  Cleaning a code strips one exchange suffix and nothing else: a
    code without a dot is unchanged, and a dot-free code followed by [.SZ]
    or [.SH] is reduced to the code. *)
Theorem clean_code_strips_suffix (code : string) :
  lacks "." code = true ->
  clean_code code = code
  /\ clean_code (code ++ ".SZ") = code
  /\ clean_code (code ++ ".SH") = code.
Proof.
  intros H. unfold clean_code.
  assert (E : forall old' t, remove_sub (String "." old') (code ++ t) 0
                             = (code ++ remove_sub (String "." old') t 0)%string).
  { intros old' t. now apply remove_sub_lacks. }
  assert (Enil : forall s : string, (s ++ "")%string = s).
  { induction s as [|a s IH]; [reflexivity|]. simpl. now rewrite IH. }
  split; [|split].
  - rewrite <- (Enil code) at 1. change ".SZ" with (String "." "SZ").
    rewrite E. cbn [remove_sub]. rewrite Enil.
    rewrite <- (Enil code) at 1. change ".SH" with (String "." "SH").
    rewrite E. cbn [remove_sub]. apply Enil.
  - change ".SZ" with (String "." "SZ") at 2. rewrite E.
    replace (remove_sub (String "." "SZ") ".SZ" 0) with "" by reflexivity.
    rewrite Enil.
    rewrite <- (Enil code) at 1. change ".SH" with (String "." "SH").
    rewrite E. cbn [remove_sub]. apply Enil.
  - change ".SZ" with (String "." "SZ"). rewrite E.
    replace (remove_sub (String "." "SZ") ".SH" 0) with ".SH" by reflexivity.
    change ".SH" with (String "." "SH"). rewrite E.
    replace (remove_sub (String "." "SH") (String "." "SH") 0) with ""
      by reflexivity.
    apply Enil.
Qed.

Lemma clean_code_strips_suffix_witness :
  lacks "." "600000" = true /\ clean_code ("600000" ++ ".SH") = "600000".
Proof.
  assert (H : lacks "." "600000" = true) by reflexivity.
  split; [exact H|].
  exact (proj2 (proj2 (clean_code_strips_suffix "600000" H))).
Defined.

(** ** Cache validity, continued *)

(** X20.  The validity test only sees the time of day of the elapsed time:
    moving the lookup by any whole number of days, forwards or backwards,
    does not change its answer. *)
Theorem cache_validity_is_daily_periodic (self : analyzer) (key : string)
  (now : datetime) (k : Z) :
  _is_cache_valid self key (now + k * us_per_day)%Z
  = _is_cache_valid self key now.
Proof.
  unfold _is_cache_valid.
  destruct (dict_get key (rps_cache self)); [|reflexivity].
  destruct (dict_get key (last_update self)) as [created|]; [|reflexivity].
  cbn [datetime_sub seconds].
  replace (now + k * us_per_day - created)%Z
    with (now - created + k * us_per_day)%Z by lia.
  now rewrite Z_mod_plus_full.
Qed.

Lemma is_cache_valid_first_day_witness :
  let key := cache_key [5; 10; 20; 60] in
  let self := {| rps_cache := [(key, [])]; last_update := [(key, 0%Z)];
                 cache_timeout := 3600 |} in
  let now := (3599 * 1000000)%Z in
  (0 <= now - 0 < us_per_day)%Z
  /\ (_is_cache_valid self key now = true
      <-> (total_seconds (datetime_sub now 0%Z) < inject_Z 3600)%Q).
Proof.
  intros key self now.
  assert (H : (0 <= now - 0 < us_per_day)%Z) by (unfold now, us_per_day, us_per_second; lia).
  split; [exact H|].
  apply (is_cache_valid_first_day self key now 0%Z []); try reflexivity.
  - exact H.
  - simpl. lia.
Defined.

(** ** The entry points under failing providers *)

(** The frame fetched for a submitted identifier is the one the stock map
    holds for it, whatever the other identifiers do. *)
Lemma stocks_data_lookup
  (stock_zh_a_hist : string -> nat -> result DataFrame)
  (as_completed :
     list (string * option DataFrame) -> list (string * option DataFrame))
  (stock_codes : list string) (days : nat) (c : string) (x : float64)
  (df : DataFrame) :
  (forall l, Permutation (as_completed l) l) ->
  In c (firstn 100 stock_codes) ->
  stock_zh_a_hist (clean_code c) days = Ok (x :: df) ->
  let stock_data :=
    _get_stocks_data stock_zh_a_hist as_completed stock_codes days in
  NoDup (keys stock_data) /\ dict_get c stock_data = Some (x :: df).
Proof.
  intros Hperm Hin Hf. cbn zeta.
  assert (Hk : In c (keys (_get_stocks_data stock_zh_a_hist as_completed
                                            stock_codes days))).
  { apply get_stocks_data_keys; eauto. }
  unfold _get_stocks_data in *.
  destruct (collect_facts
              (as_completed (map (get_single_stock_data stock_zh_a_hist days)
                                 (firstn 100 stock_codes))) [])
    as (_ & Hnd & Hprov).
  specialize (Hnd (NoDup_nil _)). split; [exact Hnd|].
  apply in_map_iff in Hk. destruct Hk as ([c' v] & Ec & Hv).
  cbn [fst] in Ec. subst c'.
  rewrite (In_dict_get _ _ _ Hnd Hv). f_equal.
  destruct (Hprov c v Hv) as [[]|Hl].
  apply (Permutation_in _ (Hperm _)) in Hl.
  apply in_map_iff in Hl. destruct Hl as (c' & E & _).
  rewrite get_single_stock_data_eq in E. injection E as -> E.
  rewrite Hf in E. now injection E.
Qed.

(** The same for an industry code of the registry. *)
Lemma industry_data_lookup
  (index_zh_a_hist : string -> nat -> result (option DataFrame))
  (days : nat) (c : string) (x : float64) (df : DataFrame) :
  In c industry_codes ->
  index_zh_a_hist c days = Ok (Some (x :: df)) ->
  let industry_data := _get_industry_data index_zh_a_hist days in
  NoDup (keys industry_data) /\ dict_get c industry_data = Some (x :: df).
Proof.
  intros Hin Hf. cbn zeta. unfold _get_industry_data.
  assert (H : forall l acc,
             NoDup (keys acc) ->
             let r :=
               fold_left
                 (fun industry_data code =>
                    try_except
                      (df <- index_zh_a_hist code days ;;
                       Ok (match df with
                           | Some ((_ :: _) as df) =>
                               dict_set code df industry_data
                           | _ => industry_data
                           end))
                      (fun _ => industry_data)) l acc in
             NoDup (keys r)
             /\ (In c l \/ dict_get c acc = Some (x :: df) ->
                 dict_get c r = Some (x :: df))).
  { induction l as [|k l IH]; intros acc Hnd; cbn zeta; cbn [fold_left].
    - split; [exact Hnd|]. intros [[]|H]. exact H.
    - destruct (String.eqb_spec k c) as [->|Hne].
      + rewrite Hf. cbn [bind try_except].
        destruct (IH (dict_set c (x :: df) acc)) as [H1 H2].
        { now apply NoDup_keys_dict_set. }
        split; [exact H1|]. intros _. apply H2. right.
        apply dict_get_set_same.
      + destruct (index_zh_a_hist k days) as [[[|y df']|]|e];
          cbn [bind try_except].
        * destruct (IH acc Hnd) as [H1 H2]. split; [exact H1|].
          intros [[E|H]|H]; [congruence|apply H2; now left|apply H2; now right].
        * destruct (IH (dict_set k (y :: df') acc)) as [H1 H2].
          { now apply NoDup_keys_dict_set. }
          split; [exact H1|].
          intros [[E|H]|H]; [congruence|apply H2; now left|].
          apply H2. right. rewrite dict_get_set_other by congruence. exact H.
        * destruct (IH acc Hnd) as [H1 H2]. split; [exact H1|].
          intros [[E|H]|H]; [congruence|apply H2; now left|apply H2; now right].
        * destruct (IH acc Hnd) as [H1 H2]. split; [exact H1|].
          intros [[E|H]|H]; [congruence|apply H2; now left|apply H2; now right]. }
  destruct (H industry_codes [] (NoDup_nil _)) as [H1 H2].
  split; [exact H1|]. apply H2. now left.
Qed.

Lemma length_slice_to {A B : Type} (l : list A) (l' : list B) (n : Z) :
  length l = length l' -> length (slice_to l n) = length (slice_to l' n).
Proof.
  intros E. unfold slice_to. rewrite E.
  destruct (n <? 0)%Z; rewrite !length_firstn; lia.
Qed.

(** The percentile map of a requested period, read from an assembled
    result, holds every identifier whose frame is long enough. *)
Lemma period_scores_hold (rps : dict DataFrame -> nat -> dict Q)
  (data : dict DataFrame) (periods : list nat) (composite_rps : dict Q)
  (k : string) (v : value) (c : string) (frame : DataFrame) (p : nat) :
  (forall d q, rps d q = _calculate_period_rps d q) ->
  k <> "composite_rps" -> (forall q, period_key q <> k) ->
  NoDup (keys data) -> dict_get c data = Some frame ->
  In p periods -> p + 1 <= length frame ->
  exists d,
    dict_get (period_key p)
      (dict_set k v
         (dict_set "composite_rps" (Scores composite_rps)
                   (lift_scores (period_results rps data periods))))
    = Some (Scores d)
    /\ In c (keys d).
Proof.
  intros Hrps Hk Hpk Hnd Hc Hp Hlen.
  exists (rps data p). split.
  - rewrite dict_get_set_other by apply Hpk.
    rewrite dict_get_set_other by apply period_key_not_literal.
    rewrite dict_get_lift_scores, period_results_exact by exact Hp.
    reflexivity.
  - rewrite Hrps. apply period_rps_keys; [exact Hnd|]. now exists frame.
Qed.

(** C9.  Whatever the provider does for each identifier (raise, return
    nothing, return a frame) and in whatever order the fetches complete,
    each public entry point returns a result instead of raising, and the
    result is never cut down by the failures.  Shape: the stock and
    industry entry points return the empty dictionary or a complete result
    and the cache keeps holding complete results only; the ranking service
    returns one numbered entry with a level for each of the [top_n] first
    scores, all taken from the score map.  Caught errors: empty [periods]
    give the empty dictionary.  Isolation: a submitted identifier whose
    own fetch succeeds makes the stock result non-empty and has a
    percentile for every requested period its frame is long enough for,
    whatever happens to the other identifiers; the same holds for an
    industry code when the cache is missed, and that result is then stored
    in the cache; on a cache hit the stored payload is returned and the
    analyzer is unchanged. *)
Theorem entry_points_return_results
  (stock_zh_a_hist : string -> nat -> result DataFrame)
  (index_zh_a_hist : string -> nat -> result (option DataFrame))
  (as_completed :
     list (string * option DataFrame) -> list (string * option DataFrame))
  (stock_codes : list string) (periods : list nat) (self : analyzer)
  (now_check now_store : datetime) (rps_data : dict Q) (top_n : Z) :
  (forall l, Permutation (as_completed l) l) ->
  cache_ok self ->
  let stock := calculate_stock_rps stock_zh_a_hist as_completed in
  let industry := calculate_industry_rps index_zh_a_hist in
  let ranking := get_rps_ranking rps_data top_n in
  stock_result_ok periods (stock stock_codes periods)
  /\ industry_result_ok periods
       (fst (industry self periods now_check now_store))
  /\ cache_ok (snd (industry self periods now_check now_store))
  /\ ranking_ok ranking
  /\ length ranking = length (slice_to rps_data top_n)
  /\ (forall item, In item ranking -> In (code item, item_score item) rps_data)
  /\ stock stock_codes [] = []
  /\ (_is_cache_valid self (cache_key []) now_check = false ->
      fst (industry self [] now_check now_store) = [])
  /\ (forall longest c x df,
         py_max periods = Ok longest ->
         In c (firstn 100 stock_codes) ->
         stock_zh_a_hist (clean_code c) (longest + 10) = Ok (x :: df) ->
         stock stock_codes periods <> []
         /\ forall p, In p periods -> p + 1 <= length (x :: df) ->
              exists d,
                dict_get (period_key p) (stock stock_codes periods)
                = Some (Scores d)
                /\ In c (keys d))
  /\ (forall longest c x df,
         _is_cache_valid self (cache_key periods) now_check = false ->
         py_max periods = Ok longest ->
         In c industry_codes ->
         index_zh_a_hist c (longest + 10) = Ok (Some (x :: df)) ->
         let r := industry self periods now_check now_store in
         fst r <> []
         /\ dict_get (cache_key periods) (rps_cache (snd r)) = Some (fst r)
         /\ forall p, In p periods -> p + 1 <= length (x :: df) ->
              exists d,
                dict_get (period_key p) (fst r) = Some (Scores d)
                /\ In c (keys d))
  /\ (_is_cache_valid self (cache_key periods) now_check = true ->
      let r := industry self periods now_check now_store in
      dict_get (cache_key periods) (rps_cache self) = Some (fst r)
      /\ snd r = self).
Proof.
  intros Hperm Hok. cbn zeta.
  split; [apply calculate_stock_rps_ok|].
  split; [now apply calculate_industry_rps_ok|].
  split; [now apply calculate_industry_rps_ok|].
  split; [apply get_rps_ranking_ok|].
  split.
  { rewrite <- (length_map entry_of), ranking_entries.
    apply length_slice_to, sorted_reverse_length. }
  split.
  { intros item Hin.
    assert (H : In (entry_of item)
                   (map entry_of (get_rps_ranking rps_data top_n)))
      by now apply in_map.
    rewrite ranking_entries in H.
    destruct (slice_to_firstn (sorted_reverse snd Qltb rps_data) top_n)
      as (k & E & _).
    rewrite E in H. apply In_firstn in H.
    now apply sorted_reverse_In in H. }
  split; [reflexivity|].
  split.
  { intros Ev. unfold calculate_industry_rps. now rewrite Ev. }
  split.
  { intros longest c x df Hmax Hin Hfetch.
    destruct (stocks_data_lookup stock_zh_a_hist as_completed stock_codes
                (longest + 10) c x df Hperm Hin Hfetch) as [Hnd Hget].
    unfold calculate_stock_rps. rewrite Hmax. cbn [bind try_except].
    destruct (_get_stocks_data stock_zh_a_hist as_completed stock_codes
                               (longest + 10)) as [|e stock_data] eqn:Ed;
      [discriminate|].
    rewrite <- Ed in *. clear Ed. split; [apply dict_set_not_nil|].
    intros p Hp Hlen.
    apply (period_scores_hold _calculate_period_rps _ _ _ _ _ c (x :: df));
      try assumption; try reflexivity; try discriminate;
      try (intros q; apply period_key_not_literal). }
  split.
  { intros longest c x df Ev Hmax Hin Hfetch.
    destruct (industry_data_lookup index_zh_a_hist (longest + 10) c x df
                Hin Hfetch) as [Hnd Hget].
    unfold calculate_industry_rps. rewrite Ev, Hmax. cbn [bind try_except].
    destruct (_get_industry_data index_zh_a_hist (longest + 10))
      as [|e industry_data] eqn:Ed; [discriminate|].
    rewrite <- Ed in *. clear Ed. cbn [try_except fst snd rps_cache].
    split; [apply dict_set_not_nil|].
    split; [apply dict_get_set_same|].
    intros p Hp Hlen.
    apply (period_scores_hold _calculate_industry_period_rps _ _ _ _ _ c
                              (x :: df));
      try assumption; try reflexivity; try discriminate;
      try (intros q; apply period_key_not_literal). }
  intros Ev.
  destruct (calculate_industry_rps_cases index_zh_a_hist self periods
              now_check now_store) as [(_ & H1 & H2)|[(Hv & _)|(Hv & _)]];
    [now split|congruence|congruence].
Qed.

Lemma entry_points_return_results_witness :
  let stock_zh_a_hist :=
    fun (symbol : string) (_ : nat) =>
      if String.eqb symbol "000001" then Ok [Fin 10; Fin 11]
      else Raise ProviderError in
  let index_zh_a_hist :=
    fun (symbol : string) (_ : nat) =>
      if String.eqb symbol "801010" then Ok (Some [Fin 10; Fin 11])
      else if String.eqb symbol "801020" then Ok None
      else Raise ProviderError in
  let as_completed := @rev (string * option DataFrame) in
  let self := snd (calculate_industry_rps index_zh_a_hist init [2] 0%Z 0%Z) in
  let rps_data := [("a", 1%Q); ("b", 2%Q); ("c", 2%Q)] in
  let stock_result :=
    calculate_stock_rps stock_zh_a_hist as_completed
                        ["bad"; "000001.SZ"] [1] in
  let industry_result :=
    fst (calculate_industry_rps index_zh_a_hist self [1] 7%Z 8%Z) in
  (forall l, Permutation (as_completed l) l)
  /\ cache_ok self
  /\ rps_cache self <> []
  /\ stock_result <> []
  /\ (exists d, dict_get (period_key 1) stock_result = Some (Scores d)
                /\ In "000001.SZ" (keys d))
  /\ industry_result <> []
  /\ (exists d, dict_get (period_key 1) industry_result = Some (Scores d)
                /\ In "801010" (keys d))
  /\ length (get_rps_ranking rps_data 2) = 2.
Proof.
  intros stock_zh_a_hist index_zh_a_hist as_completed self rps_data
         stock_result industry_result.
  assert (Hperm : forall l, Permutation (as_completed l) l).
  { intros l. apply Permutation_sym, Permutation_rev. }
  assert (Hok : cache_ok self).
  { apply (calculate_industry_rps_ok index_zh_a_hist init [2] 0%Z 0%Z).
    exact cache_ok_init. }
  split; [exact Hperm|]. split; [exact Hok|]. split; [discriminate|].
  pose proof (entry_points_return_results
                stock_zh_a_hist index_zh_a_hist as_completed
                ["bad"; "000001.SZ"] [1] self 7%Z 8%Z rps_data 2%Z
                Hperm Hok) as H.
  cbn zeta in H.
  destruct H as (_ & _ & _ & _ & H5 & _ & _ & _ & H9 & H10 & _).
  destruct (H9 1 "000001.SZ" (Fin 10) [Fin 11]) as [S1 S2];
    [reflexivity|simpl; tauto|reflexivity|].
  destruct (H10 1 "801010" (Fin 10) [Fin 11]) as (I1 & _ & I3);
    [reflexivity|reflexivity|simpl; tauto|reflexivity|].
  split; [exact S1|].
  split; [apply S2; [now left|simpl; lia]|].
  split; [exact I1|].
  split; [apply I3; [now left|simpl; lia]|].
  exact H5.
Defined.

(** * Properties of [zhangting_analyzer.py] *)

(** ** The cache *)

(** X22.  A stored value is read back until [cache_timeout] seconds have
    elapsed and never after, however long after (the elapsed time is the
    difference of the time stamps, with no wrap-around); storing under one
    key changes no lookup of another key. *)
Theorem zhangting_cache_round_trip {D : Type}
  (self : ZhangTingAnalyzer.analyzer D) (key key' : string) (d : D) (t t' : Q) :
  let self' := ZhangTingAnalyzer._set_cache self key d t in
  ((t' - t < ZhangTingAnalyzer.cache_timeout self)%Q ->
   ZhangTingAnalyzer._get_cache self' key t' = Some d)
  /\ ((ZhangTingAnalyzer.cache_timeout self <= t' - t)%Q ->
      ZhangTingAnalyzer._get_cache self' key t' = None)
  /\ (key' <> key ->
      ZhangTingAnalyzer._get_cache self' key' t'
      = ZhangTingAnalyzer._get_cache self key' t').
Proof.
  cbn zeta.
  unfold ZhangTingAnalyzer._get_cache, ZhangTingAnalyzer._is_cache_valid,
    ZhangTingAnalyzer._set_cache.
  cbn [ZhangTingAnalyzer.cache ZhangTingAnalyzer.cache_timeout].
  split; [|split].
  - intros H. rewrite dict_get_set_same.
    cbn [ZhangTingAnalyzer.timestamp ZhangTingAnalyzer.data].
    apply Qltb_lt in H. now rewrite H.
  - intros H. rewrite dict_get_set_same.
    cbn [ZhangTingAnalyzer.timestamp].
    apply Qltb_ge in H. now rewrite H.
  - intros Hne. now rewrite dict_get_set_other.
Qed.

Lemma zhangting_cache_round_trip_witness :
  let self := @ZhangTingAnalyzer.init nat in
  (100000 - 99900 < ZhangTingAnalyzer.cache_timeout self)%Q
  /\ ZhangTingAnalyzer._get_cache
       (ZhangTingAnalyzer._set_cache self "k" 7 99900) "k" 100000 = Some 7.
Proof.
  intros self.
  assert (H : (100000 - 99900 < ZhangTingAnalyzer.cache_timeout self)%Q)
    by reflexivity.
  split; [exact H|].
  exact (proj1 (zhangting_cache_round_trip self "k" "k" 7 99900 100000) H).
Defined.

(** ** Cache keys *)

Lemma sorted_asc_reverse {A K : Type} (key : A -> K) (lt : K -> K -> bool)
  (l : list A) :
  sorted_asc key lt l = sorted_reverse key (fun a b => lt b a) l.
Proof.
  induction l as [|x l IH]; [reflexivity|].
  cbn [sorted_asc sorted_reverse]. rewrite IH.
  generalize (sorted_reverse key (fun a b => lt b a) l). intros s.
  induction s as [|y s IHs]; [reflexivity|].
  cbn [insert_asc insert_desc]. now rewrite IHs.
Qed.

Lemma string_ltb_lt (a b : string) :
  String.ltb a b = true <-> OrderedTypeEx.String_as_OT.lt a b.
Proof.
  unfold String.ltb. rewrite <- OrderedTypeEx.String_as_OT.cmp_lt.
  unfold OrderedTypeEx.String_as_OT.cmp.
  destruct (String.compare a b); split; congruence.
Qed.

Lemma string_ltb_trans (a b c : string) :
  String.ltb a b = true -> String.ltb b c = true -> String.ltb a c = true.
Proof.
  rewrite !string_ltb_lt. apply OrderedTypeEx.String_as_OT.lt_trans.
Qed.

Lemma string_ltb_irrefl (a : string) : String.ltb a a = false.
Proof.
  destruct (String.ltb a a) eqn:E; [|reflexivity].
  apply string_ltb_lt in E.
  apply OrderedTypeEx.String_as_OT.lt_not_eq in E.
  exfalso. apply E. reflexivity.
Qed.

Lemma string_ltb_total (a b : string) :
  String.ltb a b = false -> String.ltb b a = false -> a = b.
Proof.
  unfold String.ltb. rewrite (String.compare_antisym b a).
  destruct (String.compare a b) eqn:E; simpl; try discriminate.
  intros _ _. now apply String.compare_eq_iff.
Qed.

Lemma string_leb_trans (a b c : string) :
  String.ltb b a = false -> String.ltb c b = false -> String.ltb c a = false.
Proof.
  intros Hab Hbc. destruct (String.ltb c a) eqn:Hca; [|reflexivity].
  destruct (String.ltb a b) eqn:E.
  - rewrite (string_ltb_trans c a b Hca E) in Hbc. discriminate.
  - assert (a = b) by now apply string_ltb_total. subst. congruence.
Qed.

(** A strictly sorted list is determined by its elements. *)
Lemma strictly_sorted_unique {A : Type} (R : A -> A -> Prop) (l1 l2 : list A) :
  (forall x, ~ R x x) -> (forall x y z, R x y -> R y z -> R x z) ->
  StronglySorted R l1 -> StronglySorted R l2 -> Permutation l1 l2 -> l1 = l2.
Proof.
  intros Hirr Htr H1. revert l2.
  induction H1 as [|x l1 Hs1 IH Hall1]; intros l2 H2 Hp.
  - now apply Permutation_nil in Hp.
  - destruct H2 as [|y l2 Hs2 Hall2].
    + apply Permutation_sym, Permutation_nil in Hp. discriminate.
    + rewrite Forall_forall in Hall1, Hall2.
      assert (Hx : In x (y :: l2))
        by (apply (Permutation_in _ Hp); now left).
      assert (Hy : In y (x :: l1))
        by (apply (Permutation_in _ (Permutation_sym Hp)); now left).
      assert (E : x = y).
      { destruct Hx as [Hx|Hx]; [now symmetry|].
        destruct Hy as [Hy|Hy]; [exact Hy|].
        exfalso. apply (Hirr x). apply (Htr x y x); auto. }
      subst y. f_equal. apply IH; [exact Hs2|].
      now apply Permutation_cons_inv in Hp.
Qed.

Lemma sorted_asc_strict (kwargs : dict string) :
  NoDup (keys kwargs) ->
  StronglySorted (fun a b => String.ltb (fst a) (fst b) = true)
                 (sorted_asc fst String.ltb kwargs).
Proof.
  intros Hnd. rewrite sorted_asc_reverse.
  set (s := sorted_reverse fst (fun a b => String.ltb b a) kwargs).
  assert (Hs : StronglySorted (not_lt fst (fun a b => String.ltb b a)) s).
  { apply (sorted_reverse_sorted fst (fun a b => String.ltb b a) (fun _ => True)).
    - intros a b _ _ H. destruct (String.ltb a b) eqn:E; [|reflexivity].
      pose proof (string_ltb_trans a b a E H) as Haa.
      rewrite string_ltb_irrefl in Haa. discriminate.
    - intros a b c _ _ _. apply string_leb_trans.
    - apply Forall_forall. intros; exact I. }
  assert (Hk : NoDup (map fst s)).
  { eapply Permutation_NoDup; [|exact Hnd].
    apply Permutation_map, Permutation_sym, sorted_reverse_perm. }
  clearbody s. induction Hs as [|x l Hs IH Hall]; [constructor|].
  inversion Hk as [|? ? Hx Hk']; subst.
  constructor; [now apply IH|].
  rewrite Forall_forall in *. intros y Hy. specialize (Hall y Hy).
  unfold not_lt in Hall.
  destruct (String.ltb (fst x) (fst y)) eqn:E; [reflexivity|].
  exfalso. apply Hx. rewrite (string_ltb_total (fst x) (fst y) E Hall).
  now apply in_map.
Qed.

(** X23.  [_get_cache_key] does not depend on the order in which the
    keyword arguments are passed: two keyword dictionaries with the same
    items give the same key. *)
Theorem zhangting_cache_key_canonical (func_name : string)
  (kwargs kwargs' : dict string) :
  NoDup (keys kwargs) ->
  Permutation kwargs kwargs' ->
  ZhangTingAnalyzer._get_cache_key func_name kwargs
  = ZhangTingAnalyzer._get_cache_key func_name kwargs'.
Proof.
  intros Hnd Hp. unfold ZhangTingAnalyzer._get_cache_key. do 3 f_equal.
  assert (Hnd' : NoDup (keys kwargs')).
  { eapply Permutation_NoDup; [|exact Hnd]. now apply Permutation_map. }
  apply (strictly_sorted_unique
           (fun a b : string * string => String.ltb (fst a) (fst b) = true)).
  - intros x. now rewrite string_ltb_irrefl.
  - intros x y z. apply string_ltb_trans.
  - now apply sorted_asc_strict.
  - now apply sorted_asc_strict.
  - rewrite !sorted_asc_reverse.
    rewrite sorted_reverse_perm, Hp. symmetry. apply sorted_reverse_perm.
Qed.

Lemma zhangting_cache_key_canonical_witness :
  let kwargs := [("days", "10"); ("date", "20240102")] in
  let kwargs' := [("date", "20240102"); ("days", "10")] in
  NoDup (keys kwargs) /\ Permutation kwargs kwargs'
  /\ ZhangTingAnalyzer._get_cache_key "f" kwargs
     = ZhangTingAnalyzer._get_cache_key "f" kwargs'.
Proof.
  intros kwargs kwargs'.
  assert (Hnd : NoDup (keys kwargs)).
  { repeat constructor; simpl; intuition discriminate. }
  assert (Hp : Permutation kwargs kwargs') by apply perm_swap.
  split; [exact Hnd|]. split; [exact Hp|].
  exact (zhangting_cache_key_canonical "f" kwargs kwargs' Hnd Hp).
Defined.

Example zhangting_cache_key_example :
  ZhangTingAnalyzer._get_cache_key "trading_dates" [("days", "10")]
  = "trading_dates_days=10"
  /\ ZhangTingAnalyzer._get_cache_key "f" [("b", "2"); ("a", "1")]
     = "f_a=1_b=2".
Proof. split; reflexivity. Qed.

(** ** Fallback trading dates *)

Lemma weekend_offset_spec (cur : ZhangTingAnalyzer.date) :
  (0 <= weekend_offset cur <= 2
   /\ ZhangTingAnalyzer.weekday (cur - weekend_offset cur) < 5
   /\ forall d, cur - weekend_offset cur < d <= cur ->
                5 <= ZhangTingAnalyzer.weekday d)%Z.
Proof.
  unfold weekend_offset, ZhangTingAnalyzer.weekday.
  pose proof (Z.mod_pos_bound (cur + 6) 7 ltac:(lia)) as Hb.
  assert (Hc : ((cur + 6) mod 7 < 5 \/ (cur + 6) mod 7 = 5
                \/ (cur + 6) mod 7 = 6)%Z) by lia.
  destruct Hc as [Hc|[Hc|Hc]].
  - rewrite Z.max_l by lia. rewrite Z.sub_0_r. repeat split; try lia.
  - rewrite Z.max_r by lia. rewrite Hc. repeat split; try lia.
    + Z.div_mod_to_equations. lia.
    + intros d Hd. assert (d = cur) by lia. subst. lia.
  - rewrite Z.max_r by lia. rewrite Hc. repeat split; try lia.
    + Z.div_mod_to_equations. lia.
    + intros d Hd. assert (Hd' : d = cur \/ d = (cur - 1)%Z) by lia.
      destruct Hd' as [->| ->]; [lia|]. Z.div_mod_to_equations. lia.
Qed.

Lemma skip_weekend_S (fuel : nat) (cur : ZhangTingAnalyzer.date) :
  ZhangTingAnalyzer.skip_weekend (S fuel) cur
  = if (5 <=? ZhangTingAnalyzer.weekday cur)%Z
    then ZhangTingAnalyzer.skip_weekend fuel (cur - 1)%Z
    else Some cur.
Proof. reflexivity. Qed.

Lemma collect_weekdays_S (fuel : nat) (days : Z)
  (dates : list ZhangTingAnalyzer.date) (cur : ZhangTingAnalyzer.date) :
  ZhangTingAnalyzer.collect_weekdays (S fuel) days dates cur
  = if (Z.of_nat (length dates) <? days)%Z then
      if (ZhangTingAnalyzer.weekday cur <? 5)%Z
      then ZhangTingAnalyzer.collect_weekdays fuel days (dates ++ [cur])
                                              (cur - 1)%Z
      else ZhangTingAnalyzer.collect_weekdays fuel days dates (cur - 1)%Z
    else Some dates.
Proof. reflexivity. Qed.

(** The first loop of [_get_fallback_dates] stops after at most two
    steps, on the nearest weekday. *)
Lemma skip_weekend_eq (fuel : nat) (cur : ZhangTingAnalyzer.date) :
  (3 <= fuel)%nat ->
  ZhangTingAnalyzer.skip_weekend fuel cur = Some (cur - weekend_offset cur)%Z.
Proof.
  intros Hf.
  destruct fuel as [|[|[|fuel]]]; try lia.
  destruct (weekend_offset_spec cur) as [Hk [Hw Hd]].
  assert (Hc : (weekend_offset cur = 0 \/ weekend_offset cur = 1
                \/ weekend_offset cur = 2)%Z) by lia.
  destruct Hc as [Hc|[Hc|Hc]]; rewrite Hc in *.
  - rewrite Z.sub_0_r in *. rewrite skip_weekend_S.
    destruct (Z.leb_spec 5 (ZhangTingAnalyzer.weekday cur)); [lia|reflexivity].
  - rewrite skip_weekend_S.
    pose proof (Hd cur ltac:(lia)).
    destruct (Z.leb_spec 5 (ZhangTingAnalyzer.weekday cur)); [|lia].
    rewrite skip_weekend_S.
    destruct (Z.leb_spec 5 (ZhangTingAnalyzer.weekday (cur - 1)%Z)); [lia|].
    reflexivity.
  - rewrite skip_weekend_S.
    pose proof (Hd cur ltac:(lia)).
    pose proof (Hd (cur - 1)%Z ltac:(lia)).
    destruct (Z.leb_spec 5 (ZhangTingAnalyzer.weekday cur)); [|lia].
    rewrite skip_weekend_S.
    destruct (Z.leb_spec 5 (ZhangTingAnalyzer.weekday (cur - 1)%Z)); [|lia].
    rewrite skip_weekend_S.
    replace (cur - 1 - 1)%Z with (cur - 2)%Z by lia.
    destruct (Z.leb_spec 5 (ZhangTingAnalyzer.weekday (cur - 2)%Z)); [lia|].
    reflexivity.
Qed.

Lemma collect_weekdays_more_fuel (fuel : nat) (days : Z) :
  forall (dates : list ZhangTingAnalyzer.date) (cur : ZhangTingAnalyzer.date)
         (r : list ZhangTingAnalyzer.date),
    ZhangTingAnalyzer.collect_weekdays fuel days dates cur = Some r ->
    ZhangTingAnalyzer.collect_weekdays (S fuel) days dates cur = Some r.
Proof.
  induction fuel as [|fuel IH]; intros dates cur r H; [discriminate|].
  rewrite collect_weekdays_S in H. rewrite collect_weekdays_S.
  destruct (Z.of_nat (length dates) <? days)%Z; [|exact H].
  destruct (ZhangTingAnalyzer.weekday cur <? 5)%Z; now apply IH.
Qed.

Lemma collect_weekdays_fuel_le (fuel fuel' : nat) (days : Z)
  (dates : list ZhangTingAnalyzer.date) (cur : ZhangTingAnalyzer.date)
  (r : list ZhangTingAnalyzer.date) :
  (fuel <= fuel')%nat ->
  ZhangTingAnalyzer.collect_weekdays fuel days dates cur = Some r ->
  ZhangTingAnalyzer.collect_weekdays fuel' days dates cur = Some r.
Proof.
  induction 1 as [|fuel' _ IH]; [auto|].
  intros H. now apply collect_weekdays_more_fuel, IH.
Qed.

(** The collecting loop walks over a weekend without changing [dates]. *)
Lemma collect_weekdays_skip (fuel : nat) (days : Z)
  (dates : list ZhangTingAnalyzer.date) (cur : ZhangTingAnalyzer.date)
  (r : list ZhangTingAnalyzer.date) :
  (Z.of_nat (length dates) < days)%Z ->
  ZhangTingAnalyzer.collect_weekdays fuel days dates (cur - weekend_offset cur)%Z
  = Some r ->
  ZhangTingAnalyzer.collect_weekdays (2 + fuel) days dates cur = Some r.
Proof.
  intros Hlen H.
  assert (Hcond : (Z.of_nat (length dates) <? days)%Z = true)
    by now apply Z.ltb_lt.
  destruct (weekend_offset_spec cur) as [Hk [Hw Hd]].
  assert (Hc : (weekend_offset cur = 0 \/ weekend_offset cur = 1
                \/ weekend_offset cur = 2)%Z) by lia.
  destruct Hc as [Hc|[Hc|Hc]]; rewrite Hc in *.
  - rewrite Z.sub_0_r in H.
    apply (collect_weekdays_fuel_le fuel); [lia|exact H].
  - change (2 + fuel)%nat with (S (S fuel)).
    rewrite collect_weekdays_S, Hcond.
    pose proof (Hd cur ltac:(lia)).
    destruct (Z.ltb_spec (ZhangTingAnalyzer.weekday cur) 5); [lia|].
    now apply collect_weekdays_more_fuel.
  - change (2 + fuel)%nat with (S (S fuel)).
    rewrite collect_weekdays_S, Hcond.
    pose proof (Hd cur ltac:(lia)).
    pose proof (Hd (cur - 1)%Z ltac:(lia)).
    destruct (Z.ltb_spec (ZhangTingAnalyzer.weekday cur) 5); [lia|].
    rewrite collect_weekdays_S, Hcond.
    destruct (Z.ltb_spec (ZhangTingAnalyzer.weekday (cur - 1)%Z) 5); [lia|].
    replace (cur - 1 - 1)%Z with (cur - 2)%Z by lia. exact H.
Qed.

(** What the collecting loop appends when [n] more dates are wanted. *)
Lemma collect_weekdays_spec (n : nat) :
  forall (fuel : nat) (days : Z) (dates : list ZhangTingAnalyzer.date)
         (cur : ZhangTingAnalyzer.date),
    (3 * n + 1 <= fuel)%nat ->
    n = Z.to_nat (days - Z.of_nat (length dates)) ->
    exists new : list ZhangTingAnalyzer.date,
      ZhangTingAnalyzer.collect_weekdays fuel days dates cur
      = Some (dates ++ new)
      /\ length new = n
      /\ Forall (fun d => (ZhangTingAnalyzer.weekday d < 5
                           /\ cur - 3 * Z.of_nat n < d <= cur)%Z) new
      /\ StronglySorted Z.gt new
      /\ (forall d, (ZhangTingAnalyzer.weekday d < 5)%Z -> (d <= cur)%Z ->
                    (exists x, In x new /\ (x <= d)%Z) -> In d new).
Proof.
  induction n as [|n IH]; intros fuel days dates cur Hf Hn.
  - destruct fuel as [|fuel]; [lia|]. rewrite collect_weekdays_S.
    destruct (Z.ltb_spec (Z.of_nat (length dates)) days); [lia|].
    exists []. rewrite app_nil_r.
    repeat split; try constructor.
    intros d _ _ [x [[] _]].
  - destruct fuel as [|[|[|fuel]]]; try lia.
    destruct (weekend_offset_spec cur) as [Hk [Hw Hd]].
    set (c := (cur - weekend_offset cur)%Z) in *.
    destruct (IH fuel days (dates ++ [c]) (c - 1)%Z) as
      [new [E [L [F [Hs C]]]]].
    { lia. }
    { rewrite length_app. cbn [length]. lia. }
    exists (c :: new).
    split; [|split; [|split; [|split]]].
    + change (S (S (S fuel))) with (2 + S fuel)%nat.
      apply collect_weekdays_skip; [lia|]. fold c.
      rewrite collect_weekdays_S.
      destruct (Z.ltb_spec (Z.of_nat (length dates)) days); [|lia].
      destruct (Z.ltb_spec (ZhangTingAnalyzer.weekday c) 5); [|lia].
      rewrite <- app_assoc in E. exact E.
    + cbn [length]. now rewrite L.
    + constructor; [split; [exact Hw|lia]|].
      eapply Forall_impl; [|exact F]. cbv beta. intros d [H1 H2].
      split; [exact H1|lia].
    + constructor; [exact Hs|].
      eapply Forall_impl; [|exact F]. cbv beta. intros d [_ H2]. lia.
    + intros d Hwd Hle [x [Hx Hxd]].
      destruct (Z.eq_dec d c) as [->|Hne]; [now left|]. right.
      assert (Hdc : (d <= c)%Z).
      { destruct (Z.le_gt_cases d c) as [|Hgt]; [assumption|].
        specialize (Hd d ltac:(lia)). lia. }
      apply C; [exact Hwd|lia|].
      destruct Hx as [<-|Hx]; [lia|]. now exists x.
Qed.

(** X24.  [_get_fallback_dates] terminates and returns the [days] most
    recent weekdays up to today, newest first: the list has [days] entries
    (none when [days] is not positive), every entry is a valid date that is
    a weekday and not after today, the entries decrease strictly, and no
    weekday between the oldest entry and today is missing.  The bound on
    [today] keeps every date the loops visit within the range of
    [datetime.date]. *)
Theorem fallback_dates_are_recent_weekdays
  (fuel : nat) (today : ZhangTingAnalyzer.date) (days : Z) :
  (3 * Z.to_nat days + 3 <= fuel)%nat ->
  (3 * days + 3 < today)%Z ->
  exists dates : list ZhangTingAnalyzer.date,
    ZhangTingAnalyzer._get_fallback_dates fuel today days = Some dates
    /\ Z.of_nat (length dates) = Z.max 0 days
    /\ Forall (fun d => (ZhangTingAnalyzer.weekday d < 5
                         /\ 1 <= d <= today)%Z) dates
    /\ StronglySorted Z.gt dates
    /\ (forall d, (ZhangTingAnalyzer.weekday d < 5)%Z -> (d <= today)%Z ->
                  (exists x, In x dates /\ (x <= d)%Z) -> In d dates).
Proof.
  intros Hf Ht. unfold ZhangTingAnalyzer._get_fallback_dates.
  rewrite skip_weekend_eq by lia.
  destruct (weekend_offset_spec today) as [Hk [Hw Hd]].
  set (c := (today - weekend_offset today)%Z) in *.
  destruct (collect_weekdays_spec (Z.to_nat days) fuel days [] c)
    as [new [E [L [F [Hs C]]]]].
  { lia. }
  { cbn [length]. f_equal. lia. }
  exists new. cbn [app] in E.
  split; [exact E|]. split; [lia|]. split; [|split; [exact Hs|]].
  - eapply Forall_impl; [|exact F]. cbv beta. intros d [H1 H2].
    split; [exact H1|lia].
  - intros d Hwd Hle Hx. apply C; [exact Hwd| |exact Hx].
    destruct (Z.le_gt_cases d c) as [|Hgt]; [assumption|].
    specialize (Hd d ltac:(lia)). lia.
Qed.

Lemma fallback_dates_are_recent_weekdays_witness :
  exists dates : list ZhangTingAnalyzer.date,
    ZhangTingAnalyzer._get_fallback_dates 9 738892%Z 2%Z = Some dates
    /\ Z.of_nat (length dates) = Z.max 0 2
    /\ Forall (fun d => (ZhangTingAnalyzer.weekday d < 5
                         /\ 1 <= d <= 738892)%Z) dates
    /\ StronglySorted Z.gt dates
    /\ (forall d, (ZhangTingAnalyzer.weekday d < 5)%Z -> (d <= 738892)%Z ->
                  (exists x, In x dates /\ (x <= d)%Z) -> In d dates).
Proof.
  apply (fallback_dates_are_recent_weekdays 9 738892%Z 2%Z).
  - simpl. lia.
  - lia.
Defined.

(** X25.  The loop of the [except] branch of [get_trading_dates] returns
    the same dates as [_get_fallback_dates]: skipping the weekend first
    changes nothing. *)
Theorem default_dates_equal_fallback_dates
  (fuel : nat) (today : ZhangTingAnalyzer.date) (days : Z) :
  (3 * Z.to_nat days + 3 <= fuel)%nat ->
  (3 * days + 3 < today)%Z ->
  exists dates : list ZhangTingAnalyzer.date,
    ZhangTingAnalyzer.default_dates fuel today days = Some dates
    /\ ZhangTingAnalyzer._get_fallback_dates fuel today days = Some dates.
Proof.
  intros Hf _.
  unfold ZhangTingAnalyzer._get_fallback_dates, ZhangTingAnalyzer.default_dates.
  rewrite skip_weekend_eq by lia.
  set (c := (today - weekend_offset today)%Z).
  destruct fuel as [|[|fuel]]; try lia.
  destruct (collect_weekdays_spec (Z.to_nat days) fuel days [] c)
    as [new [E _]].
  { lia. }
  { cbn [length]. f_equal. lia. }
  cbn [app] in E. exists new. split.
  - destruct (Z.ltb_spec 0 days) as [Hpos|Hneg].
    + change (S (S fuel)) with (2 + fuel)%nat.
      apply collect_weekdays_skip; [exact Hpos|exact E].
    + destruct fuel as [|fuel]; [lia|].
      rewrite collect_weekdays_S in E. rewrite collect_weekdays_S.
      cbn [length] in *. change (Z.of_nat 0) with 0%Z in *.
      destruct (Z.ltb_spec 0 days); [lia|exact E].
  - apply (collect_weekdays_fuel_le fuel); [lia|exact E].
Qed.

Lemma default_dates_equal_fallback_dates_witness :
  exists dates : list ZhangTingAnalyzer.date,
    ZhangTingAnalyzer.default_dates 9 738892%Z 2%Z = Some dates
    /\ ZhangTingAnalyzer._get_fallback_dates 9 738892%Z 2%Z = Some dates.
Proof.
  apply (default_dates_equal_fallback_dates 9 738892%Z 2%Z).
  - simpl. lia.
  - lia.
Defined.

Example fallback_dates_example :
  ZhangTingAnalyzer.weekday 738892%Z = 6%Z
  /\ ZhangTingAnalyzer._get_fallback_dates 9 738892%Z 2%Z = Some [738890; 738889]%Z
  /\ ZhangTingAnalyzer.default_dates 9 738892%Z 2%Z = Some [738890; 738889]%Z.
Proof. repeat split. Qed.

(** * Properties of [market_sentiment_analyzer.py] *)

(** ** The sentiment index *)

(** Clamping with [max(0, min(100, x))] always gives a finite number
    between 0 and 100, and leaves such a number as it is. *)
Lemma clamp_range (x : float64) :
  exists q : Q,
    MarketSentimentAnalyzer.py_max (Fin 0)
      (MarketSentimentAnalyzer.py_min (Fin 100) x) = Fin q
    /\ (0 <= q <= 100)%Q
    /\ (forall a : Q, x = Fin a -> (0 <= a <= 100)%Q -> (q == a)%Q).
Proof.
  unfold MarketSentimentAnalyzer.py_max, MarketSentimentAnalyzer.py_min.
  destruct x as [a| | |]; cbn [F64.ltb].
  - destruct (Qltb a 100) eqn:E1; cbn [F64.ltb].
    + apply Qltb_lt in E1. destruct (Qltb 0 a) eqn:E2.
      * apply Qltb_lt in E2. exists a. repeat split; try lra.
        intros b Hb _. injection Hb as <-. reflexivity.
      * apply Qltb_ge in E2. exists 0%Q. repeat split; try lra.
        intros b Hb Hr. injection Hb as <-. lra.
    + apply Qltb_ge in E1. exists 100%Q.
      change (Qltb 0 100) with true. cbv iota. repeat split; try lra.
      intros b Hb Hr. injection Hb as <-. lra.
  - exists 100%Q. change (Qltb 0 100) with true. cbv iota.
    repeat split; try lra. discriminate.
  - exists 0%Q. repeat split; try lra. discriminate.
  - exists 100%Q. change (Qltb 0 100) with true. cbv iota.
    repeat split; try lra. discriminate.
Qed.

(** X26.  Whatever the dictionary holds (missing components, text,
    infinities, [nan]), the sentiment index is a finite number between 0
    and 100. *)
Theorem sentiment_index_in_range (data : dict MarketSentimentAnalyzer.value) :
  exists q : Q,
    MarketSentimentAnalyzer._calculate_sentiment_index data = Fin q
    /\ (0 <= q <= 100)%Q.
Proof.
  unfold MarketSentimentAnalyzer._calculate_sentiment_index.
  destruct (fold_left (MarketSentimentAnalyzer.accumulate data)
                      MarketSentimentAnalyzer.weights (Some (Fin 0, 0%Q)))
    as [[sentiment_score total_weight]|].
  - cbv zeta.
    destruct (clamp_range
                (if Qltb 0 total_weight
                 then MarketSentimentAnalyzer.mul
                        (F64.div sentiment_score (Fin total_weight)) (Fin 100)
                 else Fin 50)) as [q [E [R _]]].
    now exists q.
  - exists 50%Q. split; [reflexivity|lra].
Qed.



(** An index of 50 stands for a dictionary without any of the four
    components, and also for one holding text under a weighted key. *)
Example sentiment_index_examples :
  MarketSentimentAnalyzer._calculate_sentiment_index [] = Fin 50
  /\ MarketSentimentAnalyzer._calculate_sentiment_index
       [("up_ratio", MarketSentimentAnalyzer.Str "x")] = Fin 50
  /\ MarketSentimentAnalyzer._calculate_sentiment_index
       [("money_flow_sentiment", MarketSentimentAnalyzer.Num NaN)] = Fin 100.
Proof. repeat split. Qed.

(** ** The components *)

Lemma ratio_range (n t : nat) :
  (n <= t)%nat ->
  (0 <= inject_Z (Z.of_nat n) / inject_Z (Z.of_nat (Nat.max t 1)) <= 1)%Q.
Proof.
  intros H. remember (Nat.max t 1) as k eqn:Ek.
  assert (Hk : (0 < k /\ n <= k)%nat) by lia.
  destruct (Z.of_nat k) as [|p|p] eqn:E; try lia.
  rewrite <- Qmake_Qdiv. unfold Qle. cbn [Qnum Qden]. lia.
Qed.

Lemma ratio_zero (t : nat) :
  (inject_Z (Z.of_nat 0) / inject_Z (Z.of_nat (Nat.max t 1)) == 0)%Q.
Proof.
  destruct (Z.of_nat (Nat.max t 1)) as [|p|p] eqn:E; try lia.
  rewrite <- Qmake_Qdiv. reflexivity.
Qed.

Lemma ratio_one (n : nat) :
  (0 < n)%nat ->
  (inject_Z (Z.of_nat n) / inject_Z (Z.of_nat (Nat.max n 1)) == 1)%Q.
Proof.
  intros H. replace (Nat.max n 1) with n by lia.
  destruct (Z.of_nat n) as [|p|p] eqn:E; try lia.
  rewrite <- Qmake_Qdiv. unfold Qeq. cbn [Qnum Qden]. lia.
Qed.

(** X28.  The limit ratio is always a number between 0 and 1.  It is the
    neutral 0.5 when a provider call fails; when both calls succeed it is
    0 as soon as the limit-up pool is empty (also when both pools are
    empty) and 1 when only the limit-down pool is empty. *)
Theorem limit_ratio_range
  (stock_zt_pool_em stock_dt_pool_em : result MarketSentimentAnalyzer.frame) :
  exists r : Q,
    dict_get "limit_ratio"
      (MarketSentimentAnalyzer._get_limit_data stock_zt_pool_em stock_dt_pool_em)
    = Some (MarketSentimentAnalyzer.num r)
    /\ (0 <= r <= 1)%Q
    /\ ((forall e, stock_zt_pool_em = Raise e \/ stock_dt_pool_em = Raise e ->
                   r = 0.5%Q)
        /\ forall up down,
             stock_zt_pool_em = Ok up -> stock_dt_pool_em = Ok down ->
             (MarketSentimentAnalyzer.empty up = true -> (r == 0)%Q)
             /\ (MarketSentimentAnalyzer.empty up = false ->
                 MarketSentimentAnalyzer.empty down = true -> (r == 1)%Q)).
Proof.
  unfold MarketSentimentAnalyzer._get_limit_data.
  destruct stock_zt_pool_em as [up|e1].
  2:{ exists 0.5%Q. cbn [bind try_except]. split; [reflexivity|].
      split; [split; discriminate|]. split; [reflexivity|].
      intros ? ? ?; discriminate. }
  destruct stock_dt_pool_em as [down|e2].
  2:{ exists 0.5%Q. cbn [bind try_except]. split; [reflexivity|].
      split; [split; discriminate|]. split; [reflexivity|].
      intros ? ? _ ?; discriminate. }
  cbn [bind try_except]. cbv zeta.
  set (n_up := if negb (MarketSentimentAnalyzer.empty up)
               then length up else 0%nat).
  set (n_down := if negb (MarketSentimentAnalyzer.empty down)
                 then length down else 0%nat).
  eexists. split; [reflexivity|]. split; [apply ratio_range; lia|]. split.
  - intros e [H|H]; discriminate.
  - intros up' down' Hup Hdown. injection Hup as <-. injection Hdown as <-.
    split.
    + intros He. subst n_up. rewrite He. cbn [negb]. apply ratio_zero.
    + intros He1 He2. subst n_up n_down. rewrite He1, He2. cbn [negb].
      rewrite Nat.add_0_r. apply ratio_one.
      destruct up as [|[|] ?]; [discriminate|discriminate|cbn [length]; lia].
Qed.

Lemma limit_ratio_range_witness :
  exists r : Q,
    dict_get "limit_ratio"
      (MarketSentimentAnalyzer._get_limit_data (Ok []) (Ok []))
    = Some (MarketSentimentAnalyzer.num r)
    /\ (r == 0)%Q.
Proof.
  destruct (limit_ratio_range (Ok []) (Ok [])) as [r [E [_ [_ H]]]].
  exists r. split; [exact E|].
  exact (proj1 (H [] [] eq_refl eq_refl) eq_refl).
Defined.

Lemma div_by_ten_billion (a : Q) :
  (a / 10000000000 == a * (1 # 10000000000))%Q.
Proof. reflexivity. Qed.

(** The value of [money_sentiment] for a main net inflow [main]. *)
Lemma money_sentiment_cases (main : float64) :
  let shifted :=
    MarketSentimentAnalyzer.add (Fin 0.5) (F64.div main (Fin 10000000000)) in
  let money_sentiment :=
    if F64.ltb (Fin 0) main
    then MarketSentimentAnalyzer.py_min shifted (Fin 1)
    else MarketSentimentAnalyzer.py_max shifted (Fin 0) in
  (exists q : Q, money_sentiment = Fin q /\ (0 <= q <= 1)%Q)
  \/ (money_sentiment = NaN /\ main = NaN).
Proof.
  cbv zeta.
  unfold MarketSentimentAnalyzer.py_min, MarketSentimentAnalyzer.py_max.
  destruct main as [a| | |]; cbn [F64.ltb F64.div MarketSentimentAnalyzer.add].
  - change (Qeq_bool 10000000000 0) with false. cbv iota.
    cbn [MarketSentimentAnalyzer.add F64.ltb].
    pose proof (div_by_ten_billion a) as Ed.
    left. destruct (Qltb 0 a) eqn:E0.
    + apply Qltb_lt in E0.
      destruct (Qltb 1 (0.5 + a / 10000000000)) eqn:E1.
      * exists 1%Q. split; [reflexivity|lra].
      * apply Qltb_ge in E1. eexists. split; [reflexivity|]. lra.
    + apply Qltb_ge in E0.
      destruct (Qltb (0.5 + a / 10000000000) 0) eqn:E1.
      * exists 0%Q. split; [reflexivity|lra].
      * apply Qltb_ge in E1. eexists. split; [reflexivity|]. lra.
  - left. exists 1%Q. split; [reflexivity|lra].
  - left. exists 0%Q. split; [reflexivity|lra].
  - right. split; reflexivity.
Qed.

(** X29.  The money-flow sentiment is always present; it is [nan] only
    when the main net inflow of the first row is [nan], and otherwise a
    number between 0 and 1, also for an infinite inflow. *)
Theorem money_flow_sentiment_range
  (stock_market_fund_flow : result MarketSentimentAnalyzer.frame) :
  exists v : float64,
    dict_get "money_flow_sentiment"
      (MarketSentimentAnalyzer._get_money_flow_sentiment stock_market_fund_flow)
    = Some (MarketSentimentAnalyzer.Num v)
    /\ ((exists q : Q, v = Fin q /\ (0 <= q <= 1)%Q)
        \/ (v = NaN
            /\ exists today_data rest,
                 stock_market_fund_flow = Ok (today_data :: rest)
                 /\ MarketSentimentAnalyzer.get "主力净流入-净额" today_data
                      (Fin 0) = NaN)).
Proof.
  assert (Hhalf : exists q : Q, Fin 0.5 = Fin q /\ (0 <= q <= 1)%Q).
  { exists 0.5%Q. split; [reflexivity|lra]. }
  unfold MarketSentimentAnalyzer._get_money_flow_sentiment.
  destruct stock_market_fund_flow as [[|today_data rest]|e];
    cbn [bind try_except].
  - eexists. split; [reflexivity|]. now left.
  - destruct (MarketSentimentAnalyzer.empty (today_data :: rest)).
    { eexists. split; [reflexivity|]. now left. }
    cbv zeta. eexists. split; [reflexivity|].
    destruct (money_sentiment_cases
                (MarketSentimentAnalyzer.get "主力净流入-净额" today_data (Fin 0)))
      as [H|[H1 H2]].
    + left. exact H.
    + right. split; [exact H1|]. exists today_data, rest. now split.
  - eexists. split; [reflexivity|]. now left.
Qed.

(** ** The composed result *)

Lemma dict_get_update {V : Type} (k : string) (other : dict V) :
  forall d : dict V,
    NoDup (keys other) ->
    dict_get k (MarketSentimentAnalyzer.update d other)
    = match dict_get k other with
      | Some v => Some v
      | None => dict_get k d
      end.
Proof.
  unfold MarketSentimentAnalyzer.update.
  induction other as [|[k' v'] other IH]; intros d Hnd; [reflexivity|].
  cbn [fold_left fst snd]. inversion Hnd as [|? ? Hk Hnd']; subst.
  rewrite IH by exact Hnd'. cbn [dict_get].
  destruct (String.eqb_spec k k') as [->|Hne].
  - apply dict_get_None in Hk. rewrite Hk. apply dict_get_set_same.
  - now rewrite dict_get_set_other.
Qed.

Lemma column_length (name : string) (df : MarketSentimentAnalyzer.frame) :
  forall col, MarketSentimentAnalyzer.column name df = Ok col ->
              length col = length df.
Proof.
  induction df as [|row df IH]; intros col H; cbn [MarketSentimentAnalyzer.column] in H.
  - injection H as <-. reflexivity.
  - destruct (dict_index name row) as [x|e]; cbn [bind] in H; [|discriminate].
    destruct (MarketSentimentAnalyzer.column name df) as [xs|e];
      cbn [bind] in H; [|discriminate].
    injection H as <-. cbn [length]. f_equal. now apply IH.
Qed.

Lemma count_le_length (p : float64 -> bool) (col : list float64) :
  (MarketSentimentAnalyzer.count p col <= length col)%nat.
Proof. apply filter_length_le. Qed.

Lemma count_le_count (p q : float64 -> bool) (col : list float64) :
  (forall x, p x = true -> q x = true) ->
  (MarketSentimentAnalyzer.count p col <= MarketSentimentAnalyzer.count q col)%nat.
Proof.
  intros H. unfold MarketSentimentAnalyzer.count.
  induction col as [|x col IH]; [reflexivity|]. cbn [filter].
  destruct (p x) eqn:E.
  - rewrite (H x E). cbn [length]. lia.
  - destruct (q x); cbn [length]; lia.
Qed.

(** A row whose change is [nan] is counted as neither up, down nor flat:
    the three counts add up to the number of rows without [nan]. *)
Lemma market_breadth_counts (col : list float64) :
  (MarketSentimentAnalyzer.count (fun x => F64.ltb (Fin 0) x) col
   + MarketSentimentAnalyzer.count (fun x => F64.ltb x (Fin 0)) col
   + MarketSentimentAnalyzer.count (fun x => F64.same x (Fin 0)) col
   + MarketSentimentAnalyzer.count MarketSentimentAnalyzer.is_nan col
   = length col)%nat.
Proof.
  unfold MarketSentimentAnalyzer.count.
  induction col as [|x col IH]; [reflexivity|]. cbn [filter length].
  rewrite <- IH.
  destruct x as [a| | |];
    cbn [F64.ltb F64.same MarketSentimentAnalyzer.is_nan length].
  - assert (Hz : Qeq_bool a 0 = true <-> (a == 0)%Q) by apply Qeq_bool_iff.
    destruct (Qltb 0 a) eqn:E1, (Qltb a 0) eqn:E2, (Qeq_bool a 0) eqn:E3;
      cbn [length]; try lia; exfalso;
      try (apply Qltb_lt in E1); try (apply Qltb_lt in E2);
      try (apply Qltb_ge in E1); try (apply Qltb_ge in E2);
      try (assert (E4 : (a == 0)%Q) by now apply Hz);
      try (assert (E4 : ~ (a == 0)%Q) by (rewrite <- Hz; congruence));
      lra.
  - lia.
  - lia.
  - lia.
Qed.

Lemma ratio_mono (n n' t : nat) :
  (n <= n')%nat ->
  (inject_Z (Z.of_nat n) / inject_Z (Z.of_nat (Nat.max t 1))
   <= inject_Z (Z.of_nat n') / inject_Z (Z.of_nat (Nat.max t 1)))%Q.
Proof.
  intros H. destruct (Z.of_nat (Nat.max t 1)) as [|p|p] eqn:E; try lia.
  rewrite <- !Qmake_Qdiv. unfold Qle. cbn [Qnum Qden]. nia.
Qed.

Ltac distinct_keys :=
  repeat constructor; cbn [In keys map fst]; intuition discriminate.

Lemma limit_data_facts
  (stock_zt_pool_em stock_dt_pool_em : result MarketSentimentAnalyzer.frame) :
  let L := MarketSentimentAnalyzer._get_limit_data
             stock_zt_pool_em stock_dt_pool_em in
  NoDup (keys L)
  /\ dict_get "up_ratio" L = None
  /\ dict_get "strong_ratio" L = None
  /\ dict_get "money_flow_sentiment" L = None
  /\ exists l : Q,
       dict_get "limit_ratio" L = Some (MarketSentimentAnalyzer.num l)
       /\ (0 <= l <= 1)%Q.
Proof.
  unfold MarketSentimentAnalyzer._get_limit_data.
  destruct stock_zt_pool_em as [up|e1]; [destruct stock_dt_pool_em as [down|e2]|];
    cbn [bind try_except]; cbv zeta.
  - split; [distinct_keys|]. repeat (split; [reflexivity|]).
    eexists. split; [reflexivity|]. apply ratio_range. lia.
  - split; [distinct_keys|]. repeat (split; [reflexivity|]).
    exists 0.5%Q. split; [reflexivity|lra].
  - split; [distinct_keys|]. repeat (split; [reflexivity|]).
    exists 0.5%Q. split; [reflexivity|lra].
Qed.

Lemma default_breadth_facts :
  let B := MarketSentimentAnalyzer._get_default_breadth in
  NoDup (keys B)
  /\ dict_get "limit_ratio" B = None
  /\ dict_get "money_flow_sentiment" B = None
  /\ exists u s : Q,
       dict_get "up_ratio" B = Some (MarketSentimentAnalyzer.num u)
       /\ dict_get "strong_ratio" B = Some (MarketSentimentAnalyzer.num s)
       /\ (0 <= s)%Q /\ (s <= u)%Q /\ (u <= 1)%Q.
Proof.
  cbv zeta. unfold MarketSentimentAnalyzer._get_default_breadth.
  split; [distinct_keys|]. repeat (split; [reflexivity|]).
  exists 0.5%Q, 0.1%Q. repeat split; try reflexivity; lra.
Qed.

Lemma market_breadth_facts
  (stock_zh_a_spot_em : result MarketSentimentAnalyzer.frame) :
  let B := MarketSentimentAnalyzer._get_market_breadth stock_zh_a_spot_em in
  NoDup (keys B)
  /\ dict_get "limit_ratio" B = None
  /\ dict_get "money_flow_sentiment" B = None
  /\ exists u s : Q,
       dict_get "up_ratio" B = Some (MarketSentimentAnalyzer.num u)
       /\ dict_get "strong_ratio" B = Some (MarketSentimentAnalyzer.num s)
       /\ (0 <= s)%Q /\ (s <= u)%Q /\ (u <= 1)%Q.
Proof.
  cbv zeta. unfold MarketSentimentAnalyzer._get_market_breadth.
  destruct stock_zh_a_spot_em as [df|e]; cbn [bind try_except];
    [|apply default_breadth_facts].
  destruct (MarketSentimentAnalyzer.empty df); cbn [bind try_except];
    [apply default_breadth_facts|].
  destruct (MarketSentimentAnalyzer.column "涨跌幅" df) as [col|e] eqn:Ecol;
    cbn [bind try_except]; [|apply default_breadth_facts].
  apply column_length in Ecol. rewrite <- Ecol.
  split; [distinct_keys|]. repeat (split; [reflexivity|]).
  eexists. eexists. split; [reflexivity|]. split; [reflexivity|].
  split; [|split].
  - apply ratio_range, count_le_length.
  - apply ratio_mono, count_le_count.
    intros [a| | |]; cbn [F64.ltb]; try congruence.
    rewrite !Qltb_lt. lra.
  - apply ratio_range, count_le_length.
Qed.

Lemma money_flow_facts
  (stock_market_fund_flow : result MarketSentimentAnalyzer.frame) :
  let M := MarketSentimentAnalyzer._get_money_flow_sentiment
             stock_market_fund_flow in
  NoDup (keys M)
  /\ dict_get "limit_ratio" M = None
  /\ dict_get "up_ratio" M = None
  /\ dict_get "strong_ratio" M = None
  /\ exists v : float64,
       dict_get "money_flow_sentiment" M = Some (MarketSentimentAnalyzer.Num v)
       /\ ((exists m : Q, v = Fin m /\ (0 <= m <= 1)%Q) \/ v = NaN).
Proof.
  assert (Hhalf : (exists m : Q, Fin 0.5 = Fin m /\ (0 <= m <= 1)%Q)
                  \/ Fin 0.5 = NaN).
  { left. exists 0.5%Q. split; [reflexivity|lra]. }
  cbv zeta. unfold MarketSentimentAnalyzer._get_money_flow_sentiment.
  destruct stock_market_fund_flow as [[|today_data rest]|e];
    cbn [bind try_except].
  - split; [distinct_keys|]. repeat (split; [reflexivity|]).
    eexists. split; [reflexivity|exact Hhalf].
  - destruct (MarketSentimentAnalyzer.empty (today_data :: rest)).
    { split; [distinct_keys|]. repeat (split; [reflexivity|]).
      eexists. split; [reflexivity|exact Hhalf]. }
    cbv zeta. split; [distinct_keys|]. repeat (split; [reflexivity|]).
    eexists. split; [reflexivity|].
    destruct (money_sentiment_cases
                (MarketSentimentAnalyzer.get "主力净流入-净额" today_data (Fin 0)))
      as [H|[H _]]; [now left|now right].
  - split; [distinct_keys|]. repeat (split; [reflexivity|]).
    eexists. split; [reflexivity|exact Hhalf].
Qed.

(** The index when the three ratios are finite; [v] is the money-flow
    sentiment. *)
Lemma index_of_components (data : dict MarketSentimentAnalyzer.value)
  (l u s : Q) (v : float64) :
  dict_get "limit_ratio" data = Some (MarketSentimentAnalyzer.num l) ->
  dict_get "up_ratio" data = Some (MarketSentimentAnalyzer.num u) ->
  dict_get "strong_ratio" data = Some (MarketSentimentAnalyzer.num s) ->
  dict_get "money_flow_sentiment" data = Some (MarketSentimentAnalyzer.Num v) ->
  MarketSentimentAnalyzer._calculate_sentiment_index data
  = MarketSentimentAnalyzer.py_max (Fin 0)
      (MarketSentimentAnalyzer.py_min (Fin 100)
         (MarketSentimentAnalyzer.mul
            (F64.div
               (MarketSentimentAnalyzer.add
                  (Fin (0 + l * 0.25 + u * 0.30 + s * 0.20))
                  (MarketSentimentAnalyzer.mul v (Fin 0.25)))
               (Fin (0 + 0.25 + 0.30 + 0.20 + 0.25)))
            (Fin 100))).
Proof.
  intros Hl Hu Hs Hm.
  unfold MarketSentimentAnalyzer._calculate_sentiment_index,
    MarketSentimentAnalyzer.weights.
  unfold MarketSentimentAnalyzer.num in Hl, Hu, Hs.
  cbn [fold_left MarketSentimentAnalyzer.accumulate fst snd]. rewrite Hl.
  cbn [MarketSentimentAnalyzer.accumulate fst snd]. rewrite Hu.
  cbn [MarketSentimentAnalyzer.accumulate fst snd]. rewrite Hs.
  cbn [MarketSentimentAnalyzer.accumulate fst snd]. rewrite Hm.
  cbn [MarketSentimentAnalyzer.add MarketSentimentAnalyzer.mul].
  change (Qltb 0 (0 + 0.25 + 0.30 + 0.20 + 0.25)) with true.
  reflexivity.
Qed.

(** X30.  A fresh [get_market_sentiment] always finds its four components,
    whatever the providers do: the ratios lie between 0 and 1 with the
    strong ratio not above the up ratio, the money-flow sentiment lies
    between 0 and 1 or is [nan], the index lies between 0 and 100, is the
    index of the returned dictionary itself (the two keys added after the
    computation do not change it) and is 100 when the money-flow sentiment
    is [nan]; the level is the level of that index, and the result is what
    the analyzer stores. *)
Theorem market_sentiment_is_composed
  (stock_zt_pool_em stock_dt_pool_em stock_zh_a_spot_em
     stock_market_fund_flow : result MarketSentimentAnalyzer.frame)
  (self : MarketSentimentAnalyzer.analyzer) (now now' : datetime) :
  MarketSentimentAnalyzer._is_cache_valid self now = false ->
  let result :=
    MarketSentimentAnalyzer.get_market_sentiment
      stock_zt_pool_em stock_dt_pool_em stock_zh_a_spot_em
      stock_market_fund_flow self now now' in
  let d := fst result in
  MarketSentimentAnalyzer.sentiment_data (snd result) = d
  /\ MarketSentimentAnalyzer.last_update (snd result) = Some now'
  /\ exists l u s q : Q,
       dict_get "limit_ratio" d = Some (MarketSentimentAnalyzer.num l)
       /\ dict_get "up_ratio" d = Some (MarketSentimentAnalyzer.num u)
       /\ dict_get "strong_ratio" d = Some (MarketSentimentAnalyzer.num s)
       /\ (0 <= l <= 1)%Q /\ (0 <= s)%Q /\ (s <= u)%Q /\ (u <= 1)%Q
       /\ dict_get "sentiment_index" d = Some (MarketSentimentAnalyzer.num q)
       /\ (0 <= q <= 100)%Q
       /\ dict_get "sentiment_level" d
          = Some (MarketSentimentAnalyzer.Str
                    (MarketSentimentAnalyzer._get_sentiment_level (Fin q)))
       /\ MarketSentimentAnalyzer._calculate_sentiment_index d = Fin q
       /\ ((exists m : Q,
              dict_get "money_flow_sentiment" d
              = Some (MarketSentimentAnalyzer.num m)
              /\ (0 <= m <= 1)%Q)
           \/ (dict_get "money_flow_sentiment" d
               = Some (MarketSentimentAnalyzer.Num NaN)
               /\ q = 100%Q)).
Proof.
  intros Hc. unfold MarketSentimentAnalyzer.get_market_sentiment.
  rewrite Hc. cbv zeta. cbn [fst snd].
  cbn [MarketSentimentAnalyzer.sentiment_data
         MarketSentimentAnalyzer.last_update].
  split; [reflexivity|]. split; [reflexivity|].
  destruct (limit_data_facts stock_zt_pool_em stock_dt_pool_em)
    as [NL [L1 [L2 [L3 [l [Ll Rl]]]]]].
  destruct (market_breadth_facts stock_zh_a_spot_em)
    as [NB [B1 [B2 [u [s [Bu [Bs [Rs [Rsu Ru]]]]]]]]].
  destruct (money_flow_facts stock_market_fund_flow)
    as [NM [M1 [M2 [M3 [v [Mv Rv]]]]]].
  set (L := MarketSentimentAnalyzer._get_limit_data
              stock_zt_pool_em stock_dt_pool_em) in *.
  set (B := MarketSentimentAnalyzer._get_market_breadth stock_zh_a_spot_em) in *.
  set (M := MarketSentimentAnalyzer._get_money_flow_sentiment
              stock_market_fund_flow) in *.
  set (d3 := MarketSentimentAnalyzer.update
               (MarketSentimentAnalyzer.update
                  (MarketSentimentAnalyzer.update [] L) B) M).
  assert (Hl : dict_get "limit_ratio" d3 = Some (MarketSentimentAnalyzer.num l)).
  { subst d3. rewrite !dict_get_update by assumption. now rewrite M1, B1, Ll. }
  assert (Hu : dict_get "up_ratio" d3 = Some (MarketSentimentAnalyzer.num u)).
  { subst d3. rewrite !dict_get_update by assumption. now rewrite M2, Bu. }
  assert (Hs : dict_get "strong_ratio" d3 = Some (MarketSentimentAnalyzer.num s)).
  { subst d3. rewrite !dict_get_update by assumption. now rewrite M3, Bs. }
  assert (Hm : dict_get "money_flow_sentiment" d3
               = Some (MarketSentimentAnalyzer.Num v)).
  { subst d3. rewrite !dict_get_update by assumption. now rewrite Mv. }
  pose proof (index_of_components d3 l u s v Hl Hu Hs Hm) as Ei.
  set (x := MarketSentimentAnalyzer.mul _ (Fin 100)) in Ei.
  destruct (clamp_range x) as [q [Eq [Rq _]]].
  rewrite Eq in Ei. rewrite Ei.
  set (d := dict_set "sentiment_level" _ (dict_set "sentiment_index" _ d3)).
  assert (Hl' : dict_get "limit_ratio" d = Some (MarketSentimentAnalyzer.num l)).
  { subst d. now rewrite !dict_get_set_other by discriminate. }
  assert (Hu' : dict_get "up_ratio" d = Some (MarketSentimentAnalyzer.num u)).
  { subst d. now rewrite !dict_get_set_other by discriminate. }
  assert (Hs' : dict_get "strong_ratio" d = Some (MarketSentimentAnalyzer.num s)).
  { subst d. now rewrite !dict_get_set_other by discriminate. }
  assert (Hm' : dict_get "money_flow_sentiment" d
                = Some (MarketSentimentAnalyzer.Num v)).
  { subst d. now rewrite !dict_get_set_other by discriminate. }
  exists l, u, s, q.
  split; [exact Hl'|]. split; [exact Hu'|]. split; [exact Hs'|].
  split; [exact Rl|]. split; [exact Rs|]. split; [exact Rsu|].
  split; [exact Ru|].
  split.
  { subst d. rewrite dict_get_set_other by discriminate.
    apply dict_get_set_same. }
  split; [exact Rq|].
  split; [subst d; apply dict_get_set_same|].
  split.
  { rewrite (index_of_components d l u s v Hl' Hu' Hs' Hm'). exact Eq. }
  destruct Rv as [[m [-> Rm]]| ->].
  - left. exists m. split; [exact Hm'|exact Rm].
  - right. split; [exact Hm'|].
    subst x.
    cbn [MarketSentimentAnalyzer.add MarketSentimentAnalyzer.mul F64.div] in Eq.
    now injection Eq as <-.
Qed.

Lemma market_sentiment_is_composed_witness :
  let flow : result MarketSentimentAnalyzer.frame :=
    Ok [[("主力净流入-净额", Fin 2500000000)]] in
  let result :=
    MarketSentimentAnalyzer.get_market_sentiment
      (Ok [[("代码", Fin 1)]]) (Ok []) (Raise ProviderError) flow
      MarketSentimentAnalyzer.init 0%Z 1%Z in
  MarketSentimentAnalyzer._is_cache_valid MarketSentimentAnalyzer.init 0%Z
  = false
  /\ MarketSentimentAnalyzer.last_update (snd result) = Some 1%Z.
Proof.
  intros flow result.
  assert (H : MarketSentimentAnalyzer._is_cache_valid
                MarketSentimentAnalyzer.init 0%Z = false) by reflexivity.
  split; [exact H|].
  exact (proj1 (proj2 (market_sentiment_is_composed
                         (Ok [[("代码", Fin 1)]]) (Ok []) (Raise ProviderError)
                         flow MarketSentimentAnalyzer.init 0%Z 1%Z H))).
Defined.

(** A run with one limit-up stock, no limit-down stock, a failing spot
    provider and a main net inflow of 2.5 billion; 60.75 is the exact value
    of the index, which float64 rounds to 60.75000000000001. *)
Example market_sentiment_example :
  let flow : result MarketSentimentAnalyzer.frame :=
    Ok [[("主力净流入-净额", Fin 2500000000)]] in
  let d :=
    fst (MarketSentimentAnalyzer.get_market_sentiment
           (Ok [[("代码", Fin 1)]]) (Ok []) (Raise ProviderError) flow
           MarketSentimentAnalyzer.init 0%Z 1%Z) in
  dict_get "sentiment_level" d = Some (MarketSentimentAnalyzer.Str "偏乐观")
  /\ exists q, dict_get "sentiment_index" d = Some (MarketSentimentAnalyzer.num q)
               /\ (q == 60.75)%Q.
Proof.
  cbv zeta. split; [vm_compute; reflexivity|].
  eexists. split; [vm_compute; reflexivity|]. reflexivity.
Qed.
